(** * langfuse_hook: turn reconstruction and at-most-once emission

    A shallow embedding of [src/langfuse_hook.py] (the OpenCode -> Langfuse
    hook) and the properties of its reconciliation engine, turn assembler
    and emission gate.

    Conventions of the embedding.
    - A Python [str] is a [string] holding its UTF-8 bytes; strings are
      well-formed Unicode (a lone surrogate cannot be encoded and is outside
      the model).
    - A JSON document is a [json] value.  Its numbers are integers: the
      hook looks into a number only in [_parse_dt], which reads it as an
      epoch timestamp, and otherwise tests it for truth or prints it.
    - A Python [dict] is an insertion-ordered association list ([dict V]):
      the hook iterates over [parts_map.values()] and over the keys of
      [assistant_parts], so the order is observable.
    - The state document has the shape [_load_state] gives it: ten maps, the
      part buckets being maps of maps.  The leaves are raw JSON, read as
      defensively as the hook reads them.
    - The persisted state, the readings of the clock and the calls made to
      the trace sink are threaded explicitly through a [World]; one
      invocation of the hook is [main], a run of invocations is [run].
    - What the interpreter and the environment decide (the ISO parser of
      the [datetime] version at hand, [repr] and [json.dumps] of
      containers, the history cap, the clock, the answers of the Langfuse
      client) is an [Env]; every property is proved for every [Env].
    - An instant is an integer number of microseconds, unbounded: Python's
      [datetime] raises outside the years 1..9999, and such timestamps are
      outside the model.  The modelled functions are otherwise total on
      JSON data: each read goes through [_as_dict], [.get] or [str].
    - [_log] only appends to the log file and is left out, as are the
      environment gate and the construction of the client at the top of
      [main]. *)

From Stdlib Require Import ZArith NArith List String Ascii Bool Lia.
From Stdlib Require Import Permutation Sorted DecimalString.
Import ListNotations.

Set Warnings "-register-all".
Local Open Scope string_scope.
Local Open Scope Z_scope.

(* ================================================================== *)
(** * Python strings *)

Module PyStr.
Local Open Scope list_scope.
Local Open Scope nat_scope.

Definition bytes (s : string) : list ascii := list_ascii_of_string s.
Definition of_bytes (l : list ascii) : string := string_of_list_ascii l.

Definition code (c : ascii) : nat := nat_of_ascii c.

(** The characters of [str.isspace], as UTF-8 byte sequences: U+0009..U+000D,
    U+001C..U+0020, U+0085, U+00A0, U+1680, U+2000..U+200A, U+2028, U+2029,
    U+202F, U+205F and U+3000. *)
Definition whitespace : list (list nat) :=
  map (fun b => [b]) (seq 9 5 ++ seq 28 5)
  ++ [[194; 133]; [194; 160]; [225; 154; 128]]
  ++ map (fun b => [226; 128; b]) (seq 128 11 ++ [168; 169; 175])
  ++ [[226; 129; 159]; [227; 128; 128]].

Fixpoint is_prefix (p l : list nat) : bool :=
  match p, l with
  | [], _ => true
  | _ :: _, [] => false
  | a :: p', b :: l' => Nat.eqb a b && is_prefix p' l'
  end.

Definition match_len (pats : list (list nat)) (l : list ascii) : nat :=
  match find (fun p => is_prefix p (map code l)) pats with
  | Some p => List.length p
  | None => O
  end.

(** Length in bytes of the whitespace character that starts [l], 0 when
    [l] does not start with one. *)
Definition ws_prefix (l : list ascii) : nat := match_len whitespace l.

(** The same, read from the end of the string ([l] is reversed). *)
Definition ws_suffix (l : list ascii) : nat :=
  match_len (map (@rev nat) whitespace) l.

Fixpoint drop_while (measure : list ascii -> nat) (fuel : nat)
    (l : list ascii) : list ascii :=
  match fuel with
  | O => l
  | S fuel' =>
      match measure l with
      | O => l
      | n => drop_while measure fuel' (skipn n l)
      end
  end.

Definition lstrip_bytes (l : list ascii) : list ascii :=
  drop_while ws_prefix (List.length l) l.

Definition rstrip_bytes (l : list ascii) : list ascii :=
  rev (drop_while ws_suffix (List.length l) (rev l)).

(** [s.strip()] *)
Definition strip (s : string) : string :=
  of_bytes (rstrip_bytes (lstrip_bytes (bytes s))).

Definition lower_ascii (c : ascii) : ascii :=
  let n := code c in
  if (65 <=? n) && (n <=? 90) then ascii_of_nat (n + 32) else c.

(** [s.lower()].  Only A..Z are mapped.  Python also maps non-ASCII
    letters, but the hook only compares the result with ASCII literals
    (role and event names) none of which contains a [k], the one ASCII
    letter that a non-ASCII character (U+212A) lowers to; so every such
    comparison has the same outcome. *)
Definition lower (s : string) : string :=
  of_bytes (map lower_ascii (bytes s)).

(** [sep.join(xs)] *)
Definition join (sep : string) (xs : list string) : string :=
  String.concat sep xs.

(** [s.startswith(p)] *)
Definition startswith (p s : string) : bool := String.prefix p s.

(** [s.endswith(p)] *)
Definition endswith (p s : string) : bool :=
  String.prefix (of_bytes (rev (bytes p))) (of_bytes (rev (bytes s))).

(** [s[n:]] for [0 <= n] *)
Definition drop (n : nat) (s : string) : string :=
  of_bytes (skipn n (bytes s)).

(** [s[:n]] for [0 <= n] *)
Definition take (n : nat) (s : string) : string :=
  of_bytes (firstn n (bytes s)).

(** [s[:-1]] *)
Definition drop_last (s : string) : string :=
  take (String.length s - 1) s.

Definition nonempty (s : string) : bool :=
  match s with EmptyString => false | _ => true end.

(** [str(n)] for an [int]. *)
Definition of_Z (z : Z) : string := NilZero.string_of_int (Z.to_int z).

End PyStr.

(* ================================================================== *)
(** * JSON values and Python dicts *)

Inductive json : Type :=
| JNull
| JBool (b : bool)
| JNum (n : Z)
| JStr (s : string)
| JArr (items : list json)
| JObj (fields : list (string * json)).

(** An insertion-ordered [dict] with [str] keys. *)
Definition dict (V : Type) : Type := list (string * V).

Module Dict.
Section Ops.
Context {V : Type}.

(** [d.get(k)] *)
Fixpoint get (k : string) (d : dict V) : option V :=
  match d with
  | [] => None
  | (k', v) :: d' => if String.eqb k k' then Some v else get k d'
  end.

(** [d[k] = v]: an existing key keeps its position, a new one goes last. *)
Fixpoint set (k : string) (v : V) (d : dict V) : dict V :=
  match d with
  | [] => [(k, v)]
  | (k', v') :: d' =>
      if String.eqb k k' then (k', v) :: d' else (k', v') :: set k v d'
  end.

(** [d.pop(k, None)], the dict that is left: no entry under [k] (a Python
    dict has at most one). *)
Fixpoint pop (k : string) (d : dict V) : dict V :=
  match d with
  | [] => []
  | (k', v) :: d' =>
      if String.eqb k k' then pop k d' else (k', v) :: pop k d'
  end.

(** [d.setdefault(k, v)], the dict that is left. *)
Definition setdefault (k : string) (v : V) (d : dict V) : dict V :=
  match get k d with
  | Some _ => d
  | None => set k v d
  end.

Definition keys (d : dict V) : list string := map fst d.
Definition values (d : dict V) : list V := map snd d.

(** [d.update(e)]: [for k in e: d[k] = e[k]] *)
Definition update (d e : dict V) : dict V :=
  fold_left
    (fun acc k => match get k e with Some v => set k v acc | None => acc end)
    (keys e) d.

(** [bool(d)] *)
Definition nonempty (d : dict V) : bool :=
  match d with [] => false | _ => true end.

Definition mem (k : string) (d : dict V) : Prop := get k d <> None.
End Ops.
End Dict.

(** [bool(x)] of a JSON value. *)
Definition truthy (x : json) : bool :=
  match x with
  | JNull => false
  | JBool b => b
  | JNum n => negb (n =? 0)
  | JStr s => PyStr.nonempty s
  | JArr l => match l with [] => false | _ => true end
  | JObj f => Dict.nonempty f
  end.

(** [x or y] *)
Definition py_or (x y : json) : json := if truthy x then x else y.

(** [_as_dict] *)
Definition _as_dict (value : json) : dict json :=
  match value with
  | JObj f => f
  | _ => []
  end.

(** [d.get(k)] on a dict of JSON values: a missing key reads [None]. *)
Definition jget (k : string) (d : dict json) : json :=
  match Dict.get k d with
  | Some v => v
  | None => JNull
  end.

(** [x == s] for a [str] literal [s]. *)
Definition is_str (x : json) (s : string) : bool :=
  match x with
  | JStr s' => String.eqb s' s
  | _ => false
  end.

(** [_safe_json]: a value that came out of [json.loads] always serialises,
    so the [try] branch returns it unchanged. *)
Definition _safe_json (value : json) : json := value.

(* ================================================================== *)
(** * The [datetime] values the hook handles *)

Module datetime.
Local Open Scope list_scope.
Local Open Scope string_scope.
Local Open Scope Z_scope.

(** An aware [datetime]: the instant in microseconds since the epoch and
    the UTC offset of its time zone in microseconds.  Python keeps years
    within 1..9999 and raises outside; the model does not bound them. *)
Record t : Type := mk { instant : Z; utcoffset : Z }.

(** Aware datetimes compare by instant, whatever their zones. *)
Definition ltb (a b : t) : bool := instant a <? instant b.
Definition eqb (a b : t) : bool := instant a =? instant b.

(** [datetime.fromtimestamp(us / 1e6, tz=timezone.utc)] *)
Definition utc (us : Z) : t := mk us 0.

(** What [fromisoformat] yields: the wall-clock fields, as microseconds
    since 1970-01-01T00:00:00 on that wall clock, and the offset when the
    string carries one.  A naive result is read as UTC
    ([dt.replace(tzinfo=timezone.utc)]); a string that ends in an offset
    never reads as naive. *)
Definition of_parsed (r : Z * option Z) : t :=
  match r with
  | (wall, Some off) => mk (wall - off) off
  | (wall, None) => mk wall 0
  end.

(** Gregorian date [(year, month, day)] of a day number (days since
    1970-01-01), proleptic. *)
Definition civil_of_days (days : Z) : Z * Z * Z :=
  let z := days + 719468 in
  let era := z / 146097 in
  let doe := z mod 146097 in
  let yoe := (doe - doe / 1460 + doe / 36524 - doe / 146096) / 365 in
  let doy := doe - (365 * yoe + yoe / 4 - yoe / 100) in
  let mp := (5 * doy + 2) / 153 in
  let d := doy - (153 * mp + 2) / 5 + 1 in
  let m := if mp <? 10 then mp + 3 else mp - 9 in
  let y := yoe + era * 400 in
  (if m <=? 2 then y + 1 else y, m, d).

(** Day number of a Gregorian date. *)
Definition days_of_civil (y m d : Z) : Z :=
  let y' := if m <=? 2 then y - 1 else y in
  let era := y' / 400 in
  let yoe := y' mod 400 in
  let doy := (153 * (if 2 <? m then m - 3 else m + 9) + 2) / 5 + d - 1 in
  let doe := yoe * 365 + yoe / 4 - yoe / 100 + doy in
  era * 146097 + doe - 719468.

(** ["%0<w>d" % z] for [0 <= z]. *)
Definition pad (w : nat) (z : Z) : string :=
  let s := PyStr.of_Z z in
  PyStr.of_bytes (repeat "0"%char (w - String.length s)) ++ s.

Definition us_per_second : Z := 1000000.
Definition us_per_minute : Z := 60 * us_per_second.
Definition us_per_hour : Z := 60 * us_per_minute.
Definition us_per_day : Z := 24 * us_per_hour.

(** The [+HH:MM[:SS[.ffffff]]] suffix of [isoformat]. *)
Definition format_offset (off : Z) : string :=
  let sign := if off <? 0 then "-" else "+" in
  let a := Z.abs off in
  let hh := a / us_per_hour in
  let mm := (a mod us_per_hour) / us_per_minute in
  let ss := (a mod us_per_minute) / us_per_second in
  let us := a mod us_per_second in
  sign ++ pad 2 hh ++ ":" ++ pad 2 mm
    ++ (if (ss =? 0) && (us =? 0) then ""
        else ":" ++ pad 2 ss ++ (if us =? 0 then "" else "." ++ pad 6 us)).

(** [dt.isoformat()] *)
Definition isoformat (dt : t) : string :=
  let wall := instant dt + utcoffset dt in
  let '(y, m, d) := civil_of_days (wall / us_per_day) in
  let r := wall mod us_per_day in
  let us := r mod us_per_second in
  pad 4 y ++ "-" ++ pad 2 m ++ "-" ++ pad 2 d
    ++ "T" ++ pad 2 (r / us_per_hour)
    ++ ":" ++ pad 2 ((r mod us_per_hour) / us_per_minute)
    ++ ":" ++ pad 2 ((r mod us_per_minute) / us_per_second)
    ++ (if us =? 0 then "" else "." ++ pad 6 us)
    ++ format_offset (utcoffset dt).

(** A reader for the strings [isoformat] writes,
    [YYYY-MM-DDTHH:MM:SS[.ffffff][+HH:MM]], which every version of
    [datetime.fromisoformat] accepts.  It instantiates the parser in the
    worked scenarios; the properties are proved for any parser. *)
Definition digit (c : ascii) : option Z :=
  let n := Z.of_nat (PyStr.code c) in
  if (48 <=? n) && (n <=? 57) then Some (n - 48) else None.

Fixpoint number_from (acc : Z) (l : list ascii) : option Z :=
  match l with
  | [] => Some acc
  | c :: l' =>
      match digit c with
      | Some d => number_from (10 * acc + d) l'
      | None => None
      end
  end.

Definition number (l : list ascii) : option Z :=
  match l with
  | [] => None
  | _ => number_from 0 l
  end.

Definition days_in_month (y m : Z) : Z :=
  days_of_civil (if m =? 12 then y + 1 else y) (if m =? 12 then 1 else m + 1) 1
  - days_of_civil y m 1.

Definition read_date (l : list ascii) : option Z :=
  match l with
  | [y1; y2; y3; y4; "-"%char; m1; m2; "-"%char; d1; d2] =>
      match number [y1; y2; y3; y4], number [m1; m2], number [d1; d2] with
      | Some y, Some m, Some d =>
          if (1 <=? y) && (1 <=? m) && (m <=? 12) && (1 <=? d)
             && (d <=? days_in_month y m)
          then Some (days_of_civil y m d * us_per_day) else None
      | _, _, _ => None
      end
  | _ => None
  end.

Definition read_hms (l : list ascii) : option Z :=
  match l with
  | [h1; h2; ":"%char; m1; m2; ":"%char; s1; s2] =>
      match number [h1; h2], number [m1; m2], number [s1; s2] with
      | Some h, Some m, Some s =>
          if (h <? 24) && (m <? 60) && (s <? 60)
          then Some (h * us_per_hour + m * us_per_minute + s * us_per_second)
          else None
      | _, _, _ => None
      end
  | _ => None
  end.

Definition read_offset (l : list ascii) : option (option Z) :=
  match l with
  | [] => Some None
  | [sign; h1; h2; ":"%char; m1; m2] =>
      match number [h1; h2], number [m1; m2] with
      | Some h, Some m =>
          if (h <? 24) && (m <? 60) then
            let off := h * us_per_hour + m * us_per_minute in
            if Ascii.eqb sign "+" then Some (Some off)
            else if Ascii.eqb sign "-" then Some (Some (- off))
            else None
          else None
      | _, _ => None
      end
  | _ => None
  end.

Definition read_fraction (l : list ascii) : option (Z * list ascii) :=
  match l with
  | "."%char :: f1 :: f2 :: f3 :: f4 :: f5 :: f6 :: rest =>
      match number [f1; f2; f3; f4; f5; f6] with
      | Some us => Some (us, rest)
      | None => None
      end
  | _ => Some (0, l)
  end.

Definition read_iso (s : string) : option (Z * option Z) :=
  let l := PyStr.bytes s in
  match read_date (firstn 10 l), skipn 10 l with
  | Some day, "T"%char :: l1 =>
      match read_hms (firstn 8 l1), read_fraction (skipn 8 l1) with
      | Some hms, Some (us, l2) =>
          match read_offset l2 with
          | Some off => Some (day + hms + us, off)
          | None => None
          end
      | _, _ => None
      end
  | _, _ => None
  end.

End datetime.

(* ================================================================== *)
(** * [hashlib.sha256] *)

Module SHA256.
Local Open Scope list_scope.
Local Open Scope N_scope.

Definition mask32 : N := 2 ^ 32 - 1.
Definition w32 (x : N) : N := N.land x mask32.
Definition add32 (x y : N) : N := w32 (x + y).
Definition rotr (n x : N) : N :=
  w32 (N.lor (N.shiftr x n) (N.shiftl x (32 - n))).

Definition Ch (x y z : N) : N :=
  N.lxor (N.land x y) (N.land (N.lxor x mask32) z).
Definition Maj (x y z : N) : N :=
  N.lxor (N.lxor (N.land x y) (N.land x z)) (N.land y z).
Definition Sigma0 (x : N) : N :=
  N.lxor (N.lxor (rotr 2 x) (rotr 13 x)) (rotr 22 x).
Definition Sigma1 (x : N) : N :=
  N.lxor (N.lxor (rotr 6 x) (rotr 11 x)) (rotr 25 x).
Definition sigma0 (x : N) : N :=
  N.lxor (N.lxor (rotr 7 x) (rotr 18 x)) (N.shiftr x 3).
Definition sigma1 (x : N) : N :=
  N.lxor (N.lxor (rotr 17 x) (rotr 19 x)) (N.shiftr x 10).

(** The standard's constants are the leading 32 fractional bits of the
    square roots (initial hash) and cube roots (round constants) of the
    first primes; they are computed here rather than tabulated. *)
Definition is_prime (n : nat) : bool :=
  forallb (fun d => negb (Nat.eqb (Nat.modulo n d) 0)) (seq 2 (n - 2)).

Definition primes : list N :=
  map N.of_nat (firstn 64 (filter is_prime (seq 2 310))).

Definition cube_root (n : N) : N :=
  fold_left
    (fun r b => let c := r + 2 ^ N.of_nat b in if c * c * c <=? n then c else r)
    (rev (seq 0 40)) 0.

Definition initial_hash : list N :=
  Eval vm_compute in
    map (fun p => w32 (N.sqrt (p * 2 ^ 64))) (firstn 8 primes).

Definition round_constants : list N :=
  Eval vm_compute in map (fun p => w32 (cube_root (p * 2 ^ 96))) primes.

(** Message padding: a 1 bit, zeros up to 56 mod 64 bytes, the bit length
    as a 64-bit big-endian integer. *)
Definition be_bytes (width : nat) (x : N) : list N :=
  map (fun i => N.land (N.shiftr x (8 * N.of_nat i)) 255) (rev (seq 0 width)).

Definition pad (msg : list N) : list N :=
  let len := N.of_nat (List.length msg) in
  let zeros := (119 - len mod 64) mod 64 in
  msg ++ [128] ++ repeat 0 (N.to_nat zeros) ++ be_bytes 8 (8 * len).

Fixpoint words (l : list N) : list N :=
  match l with
  | a :: b :: c :: d :: l' =>
      (N.shiftl a 24 + N.shiftl b 16 + N.shiftl c 8 + d) :: words l'
  | _ => []
  end.

Fixpoint blocks (fuel : nat) (ws : list N) : list (list N) :=
  match fuel, ws with
  | S fuel', _ :: _ => firstn 16 ws :: blocks fuel' (skipn 16 ws)
  | _, _ => []
  end.

(** The message schedule, most recent word first. *)
Fixpoint schedule_rev (n : nat) (acc : list N) : list N :=
  match n with
  | O => acc
  | S n' =>
      let w := add32 (add32 (sigma1 (nth 1 acc 0)) (nth 6 acc 0))
                     (add32 (sigma0 (nth 14 acc 0)) (nth 15 acc 0)) in
      schedule_rev n' (w :: acc)
  end.

Definition schedule (block : list N) : list N :=
  rev (schedule_rev 48 (rev block)).

Definition round (s : list N) (kw : N * N) : list N :=
  match s with
  | [a; b; c; d; e; f; g; h] =>
      let t1 := add32 (add32 (add32 h (Sigma1 e)) (Ch e f g))
                      (add32 (fst kw) (snd kw)) in
      let t2 := add32 (Sigma0 a) (Maj a b c) in
      [add32 t1 t2; a; b; c; add32 d t1; e; f; g]
  | _ => s
  end.

Definition compress (h : list N) (block : list N) : list N :=
  let s := fold_left round (combine round_constants (schedule block)) h in
  map (fun xy => add32 (fst xy) (snd xy)) (combine h s).

Definition digest_words (msg : list N) : list N :=
  let ws := words (pad msg) in
  fold_left compress (blocks (List.length ws) ws) initial_hash.

Definition hex_digit (x : N) : ascii :=
  ascii_of_N (if x <? 10 then 48 + x else 87 + x).

Definition hex_word (x : N) : list ascii :=
  map (fun i => hex_digit (N.land (N.shiftr x (4 * N.of_nat i)) 15))
      (rev (seq 0 8)).

(** [hashlib.sha256(s.encode("utf-8")).hexdigest()] *)
Definition hexdigest (s : string) : string :=
  PyStr.of_bytes (flat_map hex_word (digest_words (map N_of_ascii (PyStr.bytes s)))).

End SHA256.

(* ================================================================== *)
(** * Sorting by [(timestamp, id)] *)

Module SortKey.

(** Python compares the key tuples [(timestamp, id)] lexicographically:
    datetimes by instant, then strings by code point (which is the byte
    order of their UTF-8 encodings). *)
Definition leb (a b : datetime.t * string) : bool :=
  datetime.ltb (fst a) (fst b)
  || (datetime.eqb (fst a) (fst b) && String.leb (snd a) (snd b)).

Definition le (a b : datetime.t * string) : Prop := leb a b = true.

Section Sort.
Context {A : Type} (key : A -> datetime.t * string).

Fixpoint insert (x : A) (l : list A) : list A :=
  match l with
  | [] => [x]
  | y :: l' => if leb (key x) (key y) then x :: l else y :: insert x l'
  end.

(** [l.sort(key=key)]: Python's sort is stable, and so is this one (an
    element is inserted before the equal ones that follow it). *)
Definition sort_by (l : list A) : list A := fold_right insert [] l.
End Sort.

End SortKey.

(* ================================================================== *)
(** * The persisted state *)

(** The document [_load_state] returns: every top-level map present.  The
    leaves (message infos, parts, timestamps, markers) are raw JSON. *)
Record State : Type := mkState {
  messages : dict json;
  message_events : dict (list json);
  user_parts : dict (dict json);
  assistant_parts : dict (dict json);
  assistant_finish_seen : dict json;
  pending_parts : dict (dict json);
  message_last_seen : dict json;
  part_last_seen : dict json;
  emitted : dict json;
  session_lifecycle : dict json
}.

(** The state of a missing or unreadable state file. *)
Definition empty_state : State := mkState [] [] [] [] [] [] [] [] [] [].

(** [state["messages"] = f(state["messages"])], and the like for each of
    the other maps. *)
Definition with_messages (f : dict json -> dict json) (s : State) : State :=
  mkState (f (messages s)) (message_events s) (user_parts s)
    (assistant_parts s) (assistant_finish_seen s) (pending_parts s)
    (message_last_seen s) (part_last_seen s) (emitted s) (session_lifecycle s).

Definition with_message_events
    (f : dict (list json) -> dict (list json)) (s : State) : State :=
  mkState (messages s) (f (message_events s)) (user_parts s)
    (assistant_parts s) (assistant_finish_seen s) (pending_parts s)
    (message_last_seen s) (part_last_seen s) (emitted s) (session_lifecycle s).

Definition with_user_parts
    (f : dict (dict json) -> dict (dict json)) (s : State) : State :=
  mkState (messages s) (message_events s) (f (user_parts s))
    (assistant_parts s) (assistant_finish_seen s) (pending_parts s)
    (message_last_seen s) (part_last_seen s) (emitted s) (session_lifecycle s).

Definition with_assistant_parts
    (f : dict (dict json) -> dict (dict json)) (s : State) : State :=
  mkState (messages s) (message_events s) (user_parts s)
    (f (assistant_parts s)) (assistant_finish_seen s) (pending_parts s)
    (message_last_seen s) (part_last_seen s) (emitted s) (session_lifecycle s).

Definition with_assistant_finish_seen
    (f : dict json -> dict json) (s : State) : State :=
  mkState (messages s) (message_events s) (user_parts s)
    (assistant_parts s) (f (assistant_finish_seen s)) (pending_parts s)
    (message_last_seen s) (part_last_seen s) (emitted s) (session_lifecycle s).

Definition with_pending_parts
    (f : dict (dict json) -> dict (dict json)) (s : State) : State :=
  mkState (messages s) (message_events s) (user_parts s)
    (assistant_parts s) (assistant_finish_seen s) (f (pending_parts s))
    (message_last_seen s) (part_last_seen s) (emitted s) (session_lifecycle s).

Definition with_message_last_seen
    (f : dict json -> dict json) (s : State) : State :=
  mkState (messages s) (message_events s) (user_parts s)
    (assistant_parts s) (assistant_finish_seen s) (pending_parts s)
    (f (message_last_seen s)) (part_last_seen s) (emitted s) (session_lifecycle s).

Definition with_part_last_seen
    (f : dict json -> dict json) (s : State) : State :=
  mkState (messages s) (message_events s) (user_parts s)
    (assistant_parts s) (assistant_finish_seen s) (pending_parts s)
    (message_last_seen s) (f (part_last_seen s)) (emitted s) (session_lifecycle s).

Definition with_emitted (f : dict json -> dict json) (s : State) : State :=
  mkState (messages s) (message_events s) (user_parts s)
    (assistant_parts s) (assistant_finish_seen s) (pending_parts s)
    (message_last_seen s) (part_last_seen s) (f (emitted s)) (session_lifecycle s).

Definition with_session_lifecycle
    (f : dict json -> dict json) (s : State) : State :=
  mkState (messages s) (message_events s) (user_parts s)
    (assistant_parts s) (assistant_finish_seen s) (pending_parts s)
    (message_last_seen s) (part_last_seen s) (emitted s) (f (session_lifecycle s)).

(** The two part buckets a resolved role selects between. *)
Inductive Bucket : Type := AssistantParts | UserParts.

(** [state[bucket] = f(state[bucket])] *)
Definition with_bucket (b : Bucket)
    (f : dict (dict json) -> dict (dict json)) (s : State) : State :=
  match b with
  | AssistantParts => with_assistant_parts f s
  | UserParts => with_user_parts f s
  end.

(* ================================================================== *)
(** * What the turn assembler builds and what the sink receives *)

(** A row of [reasoning_rows]. *)
Record ReasoningRow : Type := mkReasoning {
  r_id : string;
  r_text : string;
  r_timestamp : datetime.t;
  r_meta : json
}.

(** A row of [tools]. *)
Record ToolRow : Type := mkTool {
  t_id : string;
  t_name : json;
  t_timestamp : datetime.t;
  t_status : string;
  t_input : string;
  t_output : string;
  t_meta : json
}.

(** A row of [text_rows]: the tuple [(ts, pid, txt)]. *)
Definition TextRow : Type := datetime.t * string * string.

Definition text_key (r : TextRow) : datetime.t * string := (fst (fst r), snd (fst r)).
Definition text_of (r : TextRow) : string := snd r.
Definition reasoning_key (r : ReasoningRow) : datetime.t * string :=
  (r_timestamp r, r_id r).
Definition tool_key (r : ToolRow) : datetime.t * string :=
  (t_timestamp r, t_id r).

(** The arguments [_emit_turn_trace] is called with. *)
Record TurnPayload : Type := mkPayload {
  p_session_id : string;
  p_user_info : dict json;
  p_assistant_info : dict json;
  p_user_message_events : list json;
  p_assistant_message_events : list json;
  p_user_parts_map : dict json;
  p_assistant_parts_map : dict json;
  p_input_text : string;
  p_output_text : string;
  p_reasoning : list ReasoningRow;
  p_tools : list ToolRow
}.

(** A call made to the trace sink.  A turn call is logged with the
    (session id, assistant message id) pair whose emission
    [_maybe_emit_assistant_turn] was attempting, and with its outcome:
    [false] when the client raised inside [_emit_turn_trace]. *)
Inductive SinkCall : Type :=
| TurnCall (session_id message_id : string) (payload : TurnPayload) (ok : bool)
| LifecycleCall (event_name session_id : string) (payload : dict json).

(** The state document together with the two things the hook reaches
    outside of it: the clock (how many readings were taken) and the sink. *)
Record World : Type := mkWorld {
  state : State;
  ticks : nat;
  sink : list SinkCall
}.

(** A change of the state document alone. *)
Definition with_state (f : State -> State) (w : World) : World :=
  mkWorld (f (state w)) (ticks w) (sink w).

(** [_as_dict(d.get(k))] on a map of maps. *)
Definition or_empty {V : Type} (o : option (dict V)) : dict V :=
  match o with
  | Some d => d
  | None => []
  end.

(** [d.get(k, [])] *)
Definition or_nil {A : Type} (o : option (list A)) : list A :=
  match o with
  | Some l => l
  | None => []
  end.

(** [not l] *)
Definition is_nil {A : Type} (l : list A) : bool :=
  match l with [] => true | _ => false end.

(** [l[start:]] with Python's reading of a negative or overlong [start]. *)
Definition slice_from {A : Type} (start : Z) (l : list A) : list A :=
  let len := Z.of_nat (List.length l) in
  let i := if start <? 0 then Z.max (len + start) 0 else Z.min start len in
  skipn (Z.to_nat i) l.

(** [_msg_key] *)
Definition _msg_key (session_id message_id : string) : string :=
  session_id ++ ":" ++ message_id.

(** [_turn_key] *)
Definition _turn_key (session_id message_id : string) : string :=
  let raw := session_id ++ ":" ++ message_id in
  PyStr.take 24 (SHA256.hexdigest raw).

(** [_event_obj] *)
Definition _event_obj (payload : dict json) : dict json :=
  match jget "event" payload with
  | JObj ev => ev
  | _ => payload
  end.

(** [_event_props] *)
Definition _event_props (payload : dict json) : dict json :=
  _as_dict (jget "properties" (_event_obj payload)).

(** [_read_payload]: [parsed] is what [json.loads] made of standard input,
    [None] when the input is blank or not JSON. *)
Definition _read_payload (parsed : option json) : dict json :=
  match parsed with
  | Some (JObj f) => f
  | _ => []
  end.

(** [_cleanup_emitted_message_buffers] *)
Definition _cleanup_emitted_message_buffers
    (st : State) (session_id message_id : string) : State :=
  let key := _msg_key session_id message_id in
  with_assistant_finish_seen (Dict.pop key)
    (with_message_events (Dict.pop key)
       (with_assistant_parts (Dict.pop key) st)).

(** The part types that only assistant messages carry. *)
Definition structural_types : list string :=
  ["reasoning"; "tool"; "step-start"; "step-finish"; "patch"; "agent";
   "retry"; "compaction"].

(** [s in {...}] *)
Definition str_in (s : string) (l : list string) : bool :=
  existsb (String.eqb s) l.

(** The session events that trigger the lifecycle flush. *)
Definition terminal_events : list string :=
  ["session.idle"; "session.error"; "session.compacted"].

(** The session events [main] records and traces. *)
Definition lifecycle_events : list string :=
  "session.created" :: terminal_events.

(** [_emit_lifecycle_trace]: one span handed to the client, failures
    swallowed. *)
Definition _emit_lifecycle_trace
    (w : World) (payload : dict json) (event_name session_id : string) : World :=
  mkWorld (state w) (ticks w)
    (sink w ++ [LifecycleCall event_name session_id (_event_obj payload)]).

(* ================================================================== *)
(** * The hook *)

(** What the interpreter and the environment supply to a run of the hook. *)
Class Env : Type := mkEnv {
  (** [datetime.fromisoformat]: the wall-clock microseconds and the offset
      it reads, [None] when it raises [ValueError].  Which strings it accepts
      depends on the interpreter's version, so it stays a parameter. *)
  fromisoformat : string -> option (Z * option Z);
  (** What [repr] writes between the brackets of a list or a dict. *)
  repr_items : json -> string;
  (** [json.dumps(x, ensure_ascii=False)] *)
  json_dumps : json -> string;
  (** [OPENCODE_LANGFUSE_MAX_MESSAGE_EVENTS_PER_MESSAGE], 30 by default. *)
  MAX_MESSAGE_EVENTS_PER_MESSAGE : Z;
  (** The instant (microseconds) the [n]-th reading of the clock returns. *)
  clock : nat -> Z;
  (** The Langfuse client: whether handing it a turn goes through ([true])
      or raises ([false]), given how many calls it has received before. *)
  client : nat -> TurnPayload -> bool
}.

Section Hook.
Context {env : Env}.

(** ** Values *)

(** [str(x)] *)
Definition py_str (x : json) : string :=
  match x with
  | JNull => "None"
  | JBool true => "True"
  | JBool false => "False"
  | JNum n => PyStr.of_Z n
  | JStr s => s
  | JArr _ => "[" ++ repr_items x ++ "]"
  | JObj _ => "{" ++ repr_items x ++ "}"
  end.

(** [str(x or "")] *)
Definition str_or_empty (x : json) : string := py_str (py_or x (JStr "")).

(** [_parse_dt].  A [bool] is an [int] in Python.  A string ending in [Z]
    is parsed with [+00:00] in its place. *)
Definition _parse_dt (value : json) : option datetime.t :=
  match value with
  | JNull => None
  | JBool b => Some (datetime.utc (if b then 1000000 else 0))
  | JNum n =>
      if 10000000000 <? n then Some (datetime.utc (n * 1000))
      else Some (datetime.utc (n * 1000000))
  | JStr s =>
      let v := PyStr.strip s in
      if negb (PyStr.nonempty v) then None
      else if PyStr.endswith "Z" v
      then option_map datetime.of_parsed
             (fromisoformat (PyStr.drop_last v ++ "+00:00"))
      else option_map datetime.of_parsed (fromisoformat v)
  | _ => None
  end.

(** [datetime.now(timezone.utc)] *)
Definition now (n : nat) : datetime.t * nat := (datetime.utc (clock n), S n).

(** [_iso_now] *)
Definition _iso_now (n : nat) : string * nat :=
  (datetime.isoformat (datetime.utc (clock n)), S n).

(** ** Event normalisation *)

(** [_event_name] *)
Definition _event_name (payload : dict json) : string :=
  let ev := _event_obj payload in
  let name :=
    py_or (jget "type" ev)
      (py_or (jget "event" ev) (py_or (jget "name" ev) (jget "type" payload))) in
  PyStr.lower (PyStr.strip (py_str (py_or name (JStr "unknown")))).

(** [_session_id] *)
Definition _session_id (payload : dict json) : string :=
  let props := _event_props payload in
  let info := _as_dict (jget "info" props) in
  let part := _as_dict (jget "part" props) in
  match find truthy
          [jget "sessionID" props; jget "sessionId" props;
           jget "sessionID" info; jget "sessionId" info; jget "id" info;
           jget "sessionID" part;
           jget "session_id" payload; jget "sessionId" payload] with
  | Some candidate => py_str candidate
  | None => "unknown-session"
  end.

(** [_event_captured_at] *)
Definition _event_captured_at (payload : dict json) (n : nat)
    : datetime.t * nat :=
  match _parse_dt (jget "captured_at" payload) with
  | Some dt => (dt, n)
  | None =>
      match _parse_dt (jget "timestamp" (_event_obj payload)) with
      | Some dt => (dt, n)
      | None => now n
      end
  end.

(** [_is_older_event] *)
Definition _is_older_event
    (last_seen : dict json) (key : string) (event_dt : datetime.t) : bool :=
  match _parse_dt (jget key last_seen) with
  | None => false
  | Some prev => datetime.ltb event_dt prev
  end.

(** ** Turn assembly *)

(** [_parse_dt(time.get("start")) or datetime.now(timezone.utc)] *)
Definition part_ts (p : dict json) (n : nat) : datetime.t * nat :=
  match _parse_dt (jget "start" (_as_dict (jget "time" p))) with
  | Some ts => (ts, n)
  | None => now n
  end.

(** One turn of the loop of [_extract_text_from_parts]. *)
Definition extract_step (acc : list TextRow * nat) (part : json)
    : list TextRow * nat :=
  let '(rows, n) := acc in
  let p := _as_dict part in
  if negb (is_str (jget "type" p) "text") then acc
  else
    match jget "text" p with
    | JStr text =>
        if negb (PyStr.nonempty text) then acc
        else
          let '(ts, n') := part_ts p n in
          ((rows ++ [(ts, str_or_empty (jget "id" p), text)])%list, n')
    | _ => acc
    end.

(** [_extract_text_from_parts] *)
Definition _extract_text_from_parts (parts_map : dict json) (n : nat)
    : string * nat :=
  let '(rows, n') := fold_left extract_step (Dict.values parts_map) ([], n) in
  let rows := SortKey.sort_by text_key rows in
  (PyStr.strip (PyStr.join (String "010" "") (map text_of rows)), n').

(** The three lists [_build_turn_details] fills, and the clock. *)
Record Rows : Type := mkRows {
  text_rows : list TextRow;
  reasoning_rows : list ReasoningRow;
  tools : list ToolRow;
  rows_ticks : nat
}.

(** One turn of the loop of [_build_turn_details]. *)
Definition details_step (acc : Rows) (part : json) : Rows :=
  let p := _as_dict part in
  let ptype := str_or_empty (jget "type" p) in
  let pid := str_or_empty (jget "id" p) in
  let time_obj := _as_dict (jget "time" p) in
  let '(ts, n) := part_ts p (rows_ticks acc) in
  if String.eqb ptype "text" then
    match jget "text" p with
    | JStr txt =>
        if PyStr.nonempty txt
        then mkRows (text_rows acc ++ [(ts, pid, txt)])
               (reasoning_rows acc) (tools acc) n
        else mkRows (text_rows acc) (reasoning_rows acc) (tools acc) n
    | _ => mkRows (text_rows acc) (reasoning_rows acc) (tools acc) n
    end
  else if String.eqb ptype "reasoning" then
    match jget "text" p with
    | JStr txt =>
        if PyStr.nonempty txt
        then mkRows (text_rows acc)
               (reasoning_rows acc
                  ++ [mkReasoning pid txt ts (_safe_json (jget "metadata" p))])
               (tools acc) n
        else mkRows (text_rows acc) (reasoning_rows acc) (tools acc) n
    | _ => mkRows (text_rows acc) (reasoning_rows acc) (tools acc) n
    end
  else if String.eqb ptype "tool" then
    let state := _as_dict (jget "state" p) in
    let status := str_or_empty (jget "status" state) in
    if negb (str_in status ["completed"; "error"])
    then mkRows (text_rows acc) (reasoning_rows acc) (tools acc) n
    else
      let input_obj := jget "input" state in
      let output_txt :=
        if String.eqb status "completed" then jget "output" state
        else jget "error" state in
      mkRows (text_rows acc) (reasoning_rows acc)
        (tools acc
           ++ [mkTool pid (py_or (jget "tool" p) (JStr "tool")) ts status
                 (match input_obj with
                  | JObj _ | JArr _ => json_dumps input_obj
                  | _ => str_or_empty input_obj
                  end)
                 (str_or_empty output_txt)
                 (_safe_json (jget "metadata" state))])
        n
  else mkRows (text_rows acc) (reasoning_rows acc) (tools acc) n.

(** [_build_turn_details] *)
Definition _build_turn_details (parts_map : dict json) (n : nat)
    : (string * list ReasoningRow * list ToolRow) * nat :=
  let acc := fold_left details_step (Dict.values parts_map) (mkRows [] [] [] n) in
  let text_rows := SortKey.sort_by text_key (text_rows acc) in
  let reasoning_rows := SortKey.sort_by reasoning_key (reasoning_rows acc) in
  let tools := SortKey.sort_by tool_key (tools acc) in
  let output_text :=
    PyStr.strip (PyStr.join (String "010" "") (map text_of text_rows)) in
  ((output_text, reasoning_rows, tools), rows_ticks acc).

(** ** Event history *)

(** [_append_message_event] *)
Definition _append_message_event
    (st : State) (key : string) (info : dict json) (n : nat) : State * nat :=
  let '(captured_at, n') := _iso_now n in
  let entry :=
    JObj [("captured_at", JStr captured_at); ("info", _safe_json (JObj info))] in
  let events := (or_nil (Dict.get key (message_events st)) ++ [entry])%list in
  let events :=
    if MAX_MESSAGE_EVENTS_PER_MESSAGE <? Z.of_nat (List.length events)
    then slice_from (- MAX_MESSAGE_EVENTS_PER_MESSAGE) events
    else events in
  (with_message_events (Dict.set key events) st, n').

(** ** The emission gate *)

(** [_emit_turn_trace].  Everything it does with the client (the root
    span, the generation, one span per reasoning block and tool call, the
    flush) sits inside one [try]; an exception there is logged and
    swallowed, and the function returns [None] either way.  The model
    records the call and whether the client raised. *)
Definition _emit_turn_trace
    (w : World) (message_id : string) (p : TurnPayload) : World :=
  mkWorld (state w) (ticks w)
    (sink w
       ++ [TurnCall (p_session_id p) message_id p
             (client (List.length (sink w)) p)]).

(** The key of the user message an assistant message answers, [""] when
    it names no parent. *)
Definition user_key_of (session_id : string) (info : dict json) : string :=
  let parent_id := str_or_empty (jget "parentID" info) in
  if PyStr.nonempty parent_id then _msg_key session_id parent_id else "".

(** What [_maybe_emit_assistant_turn] gathers and assembles before it
    decides: the arguments of [_emit_turn_trace]. *)
Definition assemble_turn
    (st : State) (n : nat) (session_id message_id : string) (info : dict json)
    : TurnPayload * nat :=
  let user_key := user_key_of session_id info in
  let assistant_key := _msg_key session_id message_id in
  let user_info := _as_dict (jget user_key (messages st)) in
  let user_message_events :=
    if PyStr.nonempty user_key
    then or_nil (Dict.get user_key (message_events st)) else [] in
  let assistant_message_events :=
    or_nil (Dict.get assistant_key (message_events st)) in
  let user_parts_map := or_empty (Dict.get user_key (user_parts st)) in
  let assistant_parts_map :=
    or_empty (Dict.get assistant_key (assistant_parts st)) in
  let '(input_text, n1) := _extract_text_from_parts user_parts_map n in
  let '(output_text, reasoning, tools, n2) :=
    _build_turn_details assistant_parts_map n1 in
  (mkPayload session_id user_info info user_message_events
     assistant_message_events user_parts_map assistant_parts_map
     input_text output_text reasoning tools, n2).

(** [not output_text and not reasoning and not tools] *)
Definition not_ready (p : TurnPayload) : bool :=
  negb (PyStr.nonempty (p_output_text p))
  && is_nil (p_reasoning p) && is_nil (p_tools p).

(** The purge that follows an emission ("Keep memory bounded"). *)
Definition purge_buffers (assistant_key user_key : string) (st : State) : State :=
  let st := with_assistant_parts (Dict.pop assistant_key) st in
  let st := with_message_events (Dict.pop assistant_key) st in
  let st := with_assistant_finish_seen (Dict.pop assistant_key) st in
  if PyStr.nonempty user_key
  then with_message_events (Dict.pop user_key)
         (with_user_parts (Dict.pop user_key) st)
  else st.

(** [_maybe_emit_assistant_turn] *)
Definition _maybe_emit_assistant_turn
    (w : World) (session_id message_id : string) (info : dict json) : World :=
  let turn_id := _turn_key session_id message_id in
  if truthy (jget turn_id (emitted (state w))) then w
  else
    let '(turn, n) :=
      assemble_turn (state w) (ticks w) session_id message_id info in
    if not_ready turn then mkWorld (state w) n (sink w)
    else
      let w := _emit_turn_trace (mkWorld (state w) n (sink w)) message_id turn in
      let '(stamp, n) := _iso_now (ticks w) in
      let st := with_emitted (Dict.set turn_id (JStr stamp)) (state w) in
      mkWorld
        (purge_buffers (_msg_key session_id message_id)
           (user_key_of session_id info) st)
        n (sink w).

(** One turn of the loop of [_flush_pending_assistant_turns]. *)
Definition flush_step (session_id : string) (w : World) (key : string)
    : World :=
  let prefix := session_id ++ ":" in
  if negb (PyStr.startswith prefix key) then w
  else
    let message_id := PyStr.drop (String.length prefix) key in
    if negb (PyStr.nonempty message_id) then w
    else
      let turn_id := _turn_key session_id message_id in
      if truthy (jget turn_id (emitted (state w)))
      then with_state
             (fun st => _cleanup_emitted_message_buffers st session_id message_id) w
      else
        let parts_map := or_empty (Dict.get key (assistant_parts (state w))) in
        if negb (Dict.nonempty parts_map) then w
        else
          let info := _as_dict (jget key (messages (state w))) in
          let info :=
            if Dict.nonempty info then info
            else [("id", JStr message_id); ("role", JStr "assistant");
                  ("time", JObj []); ("parentID", JStr "")] in
          _maybe_emit_assistant_turn w session_id message_id info.

(** [_flush_pending_assistant_turns]: the keys are listed before the
    loop, the buffers are read as the loop leaves them. *)
Definition _flush_pending_assistant_turns
    (w : World) (session_id reason : string) : World :=
  if negb (PyStr.nonempty session_id) || String.eqb session_id "unknown-session"
  then w
  else fold_left (flush_step session_id)
         (Dict.keys (assistant_parts (state w))) w.

(** ** The reconciliation engine *)

(** [state[bucket].setdefault(key, {}).update(pending)] *)
Definition merge_pending (key : string) (pending : dict json)
    (parts : dict (dict json)) : dict (dict json) :=
  Dict.set key (Dict.update (or_empty (Dict.get key parts)) pending) parts.

(** [state[bucket].setdefault(key, {}); state[bucket][key][part_id] = part] *)
Definition store_part (key part_id : string) (part : dict json)
    (parts : dict (dict json)) : dict (dict json) :=
  Dict.set key (Dict.set part_id (JObj part) (or_empty (Dict.get key parts))) parts.

(** [_handle_message_updated] *)
Definition _handle_message_updated
    (w : World) (payload : dict json) (session_id : string) : World :=
  let info := _as_dict (jget "info" (_event_props payload)) in
  let message_id := str_or_empty (jget "id" info) in
  if negb (PyStr.nonempty message_id) then w
  else
    let key := _msg_key session_id message_id in
    let '(event_dt, n1) := _event_captured_at payload (ticks w) in
    let st := state w in
    if _is_older_event (message_last_seen st) key event_dt
    then mkWorld st n1 (sink w)
    else
      let st :=
        with_message_last_seen
          (Dict.set key (JStr (datetime.isoformat event_dt))) st in
      let st := with_messages (Dict.set key (JObj info)) st in
      let role := PyStr.lower (str_or_empty (jget "role" info)) in
      if String.eqb role "assistant"
         && truthy (jget (_turn_key session_id message_id) (emitted st))
      then mkWorld (_cleanup_emitted_message_buffers st session_id message_id)
             n1 (sink w)
      else
        let '(st, n2) := _append_message_event st key info n1 in
        (* Reconcile out-of-order message.part.updated events. *)
        let pending := or_empty (Dict.get key (pending_parts st)) in
        let st := with_pending_parts (Dict.pop key) st in
        let st :=
          if Dict.nonempty pending then
            if String.eqb role "assistant"
            then with_assistant_parts (merge_pending key pending) st
            else if String.eqb role "user"
            then with_user_parts (merge_pending key pending) st
            else with_pending_parts (Dict.set key pending) st
          else st in
        if negb (String.eqb role "assistant") then mkWorld st n2 (sink w)
        else
          let completed :=
            truthy (jget "completed" (_as_dict (jget "time" info))) in
          if completed then
            let '(stamp, n3) := _iso_now n2 in
            let st := with_assistant_finish_seen (Dict.set key (JStr stamp)) st in
            _maybe_emit_assistant_turn (mkWorld st n3 (sink w))
              session_id message_id info
          else mkWorld st n2 (sink w).

(** The tail of [_handle_message_part_updated], once the role is
    resolved: bucket the part, note a step-finish, try to emit. *)
Definition bucket_part
    (st : State) (n : nat) (snk : list SinkCall)
    (session_id message_id part_id : string)
    (msg part : dict json) (part_type role : string) : World :=
  let key := _msg_key session_id message_id in
  let bucket := if String.eqb role "assistant" then AssistantParts else UserParts in
  let st := with_bucket bucket (store_part key part_id part) st in
  if String.eqb role "assistant" then
    let '(st, n) :=
      if String.eqb part_type "step-finish" then
        let '(stamp, n') := _iso_now n in
        (with_assistant_finish_seen (Dict.set key (JStr stamp)) st, n')
      else (st, n) in
    let completed :=
      if Dict.nonempty msg
      then truthy (jget "completed" (_as_dict (jget "time" msg)))
      else false in
    let finish_seen := truthy (jget key (assistant_finish_seen st)) in
    if completed || finish_seen then
      _maybe_emit_assistant_turn (mkWorld st n snk) session_id message_id
        (if Dict.nonempty msg then msg
         else [("id", JStr message_id); ("role", JStr "assistant")])
    else mkWorld st n snk
  else mkWorld st n snk.

(** [_handle_message_part_updated] *)
Definition _handle_message_part_updated
    (w : World) (payload : dict json) (session_id : string) : World :=
  let part := _as_dict (jget "part" (_event_props payload)) in
  let message_id := str_or_empty (jget "messageID" part) in
  let part_id := str_or_empty (jget "id" part) in
  if negb (PyStr.nonempty message_id) || negb (PyStr.nonempty part_id) then w
  else
    let key := _msg_key session_id message_id in
    let '(event_dt, n1) := _event_captured_at payload (ticks w) in
    let part_key := key ++ ":" ++ part_id in
    let st := state w in
    if _is_older_event (part_last_seen st) part_key event_dt
    then mkWorld st n1 (sink w)
    else
      let st :=
        with_part_last_seen
          (Dict.set part_key (JStr (datetime.isoformat event_dt))) st in
      if truthy (jget (_turn_key session_id message_id) (emitted st))
      then mkWorld (_cleanup_emitted_message_buffers st session_id message_id)
             n1 (sink w)
      else
        let msg := _as_dict (jget key (messages st)) in
        let role := PyStr.lower (str_or_empty (jget "role" msg)) in
        let part_type := str_or_empty (jget "type" part) in
        (* Fallback inference when message.updated has not arrived yet. *)
        if negb (PyStr.nonempty role) then
          if str_in part_type structural_types
          then bucket_part st n1 (sink w) session_id message_id part_id
                 msg part part_type "assistant"
          else if String.eqb part_type "text"
          then
            (* Keep text parts pending until the role is known. *)
            mkWorld (with_pending_parts (store_part key part_id part) st)
              n1 (sink w)
          else bucket_part st n1 (sink w) session_id message_id part_id
                 msg part part_type role
        else bucket_part st n1 (sink w) session_id message_id part_id
               msg part part_type role.

(** ** One invocation *)

(** The lifecycle bookkeeping of [main]: last write wins by timestamp. *)
Definition note_lifecycle
    (w : World) (payload : dict json) (event_name session_id : string)
    : World :=
  let '(event_dt, n) := _event_captured_at payload (ticks w) in
  let prev := _as_dict (jget session_id (session_lifecycle (state w))) in
  let accept :=
    match _parse_dt (jget "at" prev) with
    | None => true
    | Some prev_dt => negb (datetime.ltb event_dt prev_dt)
    end in
  if accept
  then mkWorld
         (with_session_lifecycle
            (Dict.set session_id
               (JObj [("event", JStr event_name);
                      ("at", JStr (datetime.isoformat event_dt))]))
            (state w))
         n (sink w)
  else mkWorld (state w) n (sink w).

(** [main], with tracing enabled and a client at hand: the body run under
    the state lock, from the state loaded to the state saved. *)
Definition main (stdin : option json) (w : World) : World :=
  let payload := _read_payload stdin in
  if negb (Dict.nonempty payload) then w
  else
    let event_name := _event_name payload in
    let session_id := _session_id payload in
    let w :=
      if String.eqb event_name "message.updated"
      then _handle_message_updated w payload session_id
      else if String.eqb event_name "message.part.updated"
      then
        let w := _handle_message_part_updated w payload session_id in
        let last := _as_dict (jget session_id (session_lifecycle (state w))) in
        let last_event := str_or_empty (jget "event" last) in
        if str_in last_event terminal_events
        then _flush_pending_assistant_turns w session_id
               (last_event ++ ":post-part")
        else w
      else w in
    let w :=
      if str_in event_name lifecycle_events
      then note_lifecycle w payload event_name session_id else w in
    let w :=
      if str_in event_name terminal_events
      then _flush_pending_assistant_turns w session_id event_name else w in
    if str_in event_name lifecycle_events
    then _emit_lifecycle_trace w payload event_name session_id
    else w.

(** A run of the hook: one invocation per event, each starting from the
    state the previous one saved. *)
Definition run (inputs : list (option json)) (w : World) : World :=
  fold_left (fun w i => main i w) inputs w.


(* ================================================================ *)
(** * Vocabulary of the properties *)

(** The emitted marker of a turn id is set. *)
Definition marked (turn_id : string) (st : State) : bool :=
  truthy (jget turn_id (emitted st)).

(** Turn payloads the sink was handed for a (session, assistant message)
    pair. *)
Definition is_call_for (session_id message_id : string) (c : SinkCall) : bool :=
  match c with
  | TurnCall s m _ _ => String.eqb s session_id && String.eqb m message_id
  | LifecycleCall _ _ _ => false
  end.

Definition calls_for (session_id message_id : string) (l : list SinkCall) : nat :=
  List.length (filter (is_call_for session_id message_id) l).

(** The part buffered under a message key and a part id. *)
Definition part_at (key part_id : string) (parts : dict (dict json))
    : option json :=
  Dict.get part_id (or_empty (Dict.get key parts)).

(** What is true of the buffers once an emission was attempted. *)
Definition purged (session_id message_id : string) (info : dict json)
    (st : State) : Prop :=
  let akey := _msg_key session_id message_id in
  let ukey := user_key_of session_id info in
  Dict.get akey (assistant_parts st) = None
  /\ Dict.get akey (message_events st) = None
  /\ Dict.get akey (assistant_finish_seen st) = None
  /\ (ukey <> "" ->
      Dict.get ukey (user_parts st) = None
      /\ Dict.get ukey (message_events st) = None).

(** No key of [d] is missing from [d']. *)
Definition keeps {V : Type} (d d' : dict V) : Prop :=
  forall k, Dict.mem k d -> Dict.mem k d'.

(** The watermarks and records that are never evicted. *)
Definition watermarks_kept (st st' : State) : Prop :=
  keeps (message_last_seen st) (message_last_seen st')
  /\ keeps (part_last_seen st) (part_last_seen st')
  /\ keeps (messages st) (messages st')
  /\ keeps (emitted st) (emitted st').

(** The emission guard, between a world and a later one: for every
    (session, message) pair the sink received at most one more turn
    payload; none if the pair's marker was already set, and the marker
    stays set; and a pair that did receive one has its marker set. *)
Definition guarded (w w' : World) : Prop :=
  forall s m,
    (calls_for s m (sink w) <= calls_for s m (sink w')
     /\ calls_for s m (sink w') <= S (calls_for s m (sink w)))%nat
    /\ (marked (_turn_key s m) (state w) = true ->
        marked (_turn_key s m) (state w') = true
        /\ calls_for s m (sink w') = calls_for s m (sink w))
    /\ ((calls_for s m (sink w) < calls_for s m (sink w'))%nat ->
        marked (_turn_key s m) (state w') = true).

(** Both at once: what every operation of the hook does to a world. *)
Definition orderly (w w' : World) : Prop :=
  watermarks_kept (state w) (state w') /\ guarded w w'.


(** The two event families the reconciliation engine handles. *)
Inductive EventKind : Type := MessageUpdated | MessagePartUpdated.

(** The handler of an event family. *)
Definition handle (k : EventKind)
    : World -> dict json -> string -> World :=
  match k with
  | MessageUpdated => _handle_message_updated
  | MessagePartUpdated => _handle_message_part_updated
  end.

(** The last-seen map a handler consults. *)
Definition last_seen (k : EventKind) (st : State) : dict json :=
  match k with
  | MessageUpdated => message_last_seen st
  | MessagePartUpdated => part_last_seen st
  end.

(** The key an event is checked under: the message key, or the composite
    message-part key; [None] for an event without the ids, which the
    handler drops before any check. *)
Definition watermark_key (k : EventKind) (payload : dict json)
    (session_id : string) : option string :=
  match k with
  | MessageUpdated =>
      let info := _as_dict (jget "info" (_event_props payload)) in
      let message_id := str_or_empty (jget "id" info) in
      if PyStr.nonempty message_id
      then Some (_msg_key session_id message_id) else None
  | MessagePartUpdated =>
      let part := _as_dict (jget "part" (_event_props payload)) in
      let message_id := str_or_empty (jget "messageID" part) in
      let part_id := str_or_empty (jget "id" part) in
      if PyStr.nonempty message_id && PyStr.nonempty part_id
      then Some (_msg_key session_id message_id ++ ":" ++ part_id) else None
  end.

(** The timestamp the loop of [_build_turn_details] gives each part, in
    iteration order: its start time, or a reading of the clock when it has
    none that parses. *)
Fixpoint stamp_all (parts : list json) (n : nat)
    : list (dict json * datetime.t) :=
  match parts with
  | [] => []
  | part :: rest =>
      let p := _as_dict part in
      (p, fst (part_ts p n)) :: stamp_all rest (snd (part_ts p n))
  end.

(** The text of a part, [""] when it has none. *)
Definition text_string (p : dict json) : string :=
  match jget "text" p with
  | JStr t => t
  | _ => ""
  end.

(** A part of type text with non-empty text, as [_build_turn_details]
    reads the type. *)
Definition is_text_part (p : dict json) : bool :=
  String.eqb (str_or_empty (jget "type" p)) "text"
  && PyStr.nonempty (text_string p).

(** The same, as [_extract_text_from_parts] reads the type. *)
Definition is_text_part_strict (p : dict json) : bool :=
  is_str (jget "type" p) "text" && PyStr.nonempty (text_string p).

(** [_extract_text_from_parts] reads the time of the text parts only. *)
Fixpoint stamp_text (parts : list json) (n : nat)
    : list (dict json * datetime.t) :=
  match parts with
  | [] => []
  | part :: rest =>
      let p := _as_dict part in
      if is_text_part_strict p
      then (p, fst (part_ts p n)) :: stamp_text rest (snd (part_ts p n))
      else stamp_text rest n
  end.

(** The row [(ts, pid, txt)] a text part is reported as. *)
Definition text_row (pt : dict json * datetime.t) : TextRow :=
  (snd pt, str_or_empty (jget "id" (fst pt)), text_string (fst pt)).

(** The status of a tool part's state. *)
Definition tool_status (p : dict json) : string :=
  str_or_empty (jget "status" (_as_dict (jget "state" p))).

(** A part of type tool whose state is terminal. *)
Definition is_terminal_tool (p : dict json) : bool :=
  String.eqb (str_or_empty (jget "type" p)) "tool"
  && str_in (tool_status p) ["completed"; "error"].

(** The invocation a terminal tool part is reported as. *)
Definition tool_row (pt : dict json * datetime.t) : ToolRow :=
  let p := fst pt in
  let st := _as_dict (jget "state" p) in
  mkTool (str_or_empty (jget "id" p))
    (py_or (jget "tool" p) (JStr "tool"))
    (snd pt)
    (tool_status p)
    (match jget "input" st with
     | JObj _ | JArr _ => json_dumps (jget "input" st)
     | _ => str_or_empty (jget "input" st)
     end)
    (str_or_empty
       (if String.eqb (tool_status p) "completed"
        then jget "output" st else jget "error" st))
    (_safe_json (jget "metadata" st)).

(** The text rows in [(timestamp, id)] order, as the spec words the
    assembled text: joined by newlines, nothing more. *)
Definition joined_text (rows : list TextRow) : string :=
  PyStr.join (String "010" "") (map text_of (SortKey.sort_by text_key rows)).

(** Sorted by the key, every element against all that follow it. *)
Definition ascending {A : Type} (key : A -> datetime.t * string)
    (l : list A) : Prop :=
  StronglySorted (fun a b => SortKey.le (key a) (key b)) l.

End Hook.

(* ================================================================== *)
(** * More of Python's strings: code points, case, lines *)

Module PyText.
Local Open Scope list_scope.
Local Open Scope nat_scope.

(** A byte that continues a UTF-8 sequence ([10xxxxxx]). *)
Definition is_continuation (c : ascii) : bool :=
  (128 <=? PyStr.code c) && (PyStr.code c <? 192).

(** [len(s)]: the number of code points, one per byte that starts a
    sequence. *)
Definition len (s : string) : nat :=
  List.length (filter (fun c => negb (is_continuation c)) (PyStr.bytes s)).

(** The bytes of the first [n] code points. *)
Fixpoint take_chars (n : nat) (l : list ascii) : list ascii :=
  match l with
  | [] => []
  | c :: l' =>
      if is_continuation c then c :: take_chars n l'
      else
        match n with
        | O => []
        | S n' => c :: take_chars n' l'
        end
  end.

(** [s[:stop]], with Python's reading of a negative or overlong [stop]. *)
Definition slice_to (stop : Z) (s : string) : string :=
  let n := Z.of_nat (len s) in
  let i := if (stop <? 0)%Z then Z.max (n + stop) 0 else Z.min stop n in
  PyStr.of_bytes (take_chars (Z.to_nat i) (PyStr.bytes s)).

Definition upper_ascii (c : ascii) : ascii :=
  let n := PyStr.code c in
  if (97 <=? n) && (n <=? 122) then ascii_of_nat (n - 32) else c.

(** The characters outside ASCII that [str.upper] turns into ASCII
    letters: U+00DF, U+0131, U+017F and the ligatures U+FB00..U+FB06. *)
Definition upper_special : list (list nat * string) :=
  [([195; 159], "SS"); ([196; 177], "I"); ([197; 191], "S");
   ([239; 172; 128], "FF"); ([239; 172; 129], "FI"); ([239; 172; 130], "FL");
   ([239; 172; 131], "FFI"); ([239; 172; 132], "FFL");
   ([239; 172; 133], "ST"); ([239; 172; 134], "ST")].

Fixpoint upper_from (skip : nat) (l : list ascii) : list ascii :=
  match l with
  | [] => []
  | c :: l' =>
      match skip with
      | S k => upper_from k l'
      | O =>
          match find (fun e => PyStr.is_prefix (fst e) (map PyStr.code l))
                  upper_special with
          | Some e =>
              PyStr.bytes (snd e) ++ upper_from (List.length (fst e) - 1) l'
          | None => upper_ascii c :: upper_from O l'
          end
      end
  end.

(** [s.upper()].  The letters a..z and the characters of [upper_special]
    are mapped; every other character outside ASCII is left as it is,
    where Python maps it to characters outside ASCII again.  The hook only
    looks the result up among ASCII names (the log levels), and every such
    lookup has the same outcome. *)
Definition upper (s : string) : string :=
  PyStr.of_bytes (upper_from 0 (PyStr.bytes s)).

(** The line boundaries of [str.splitlines]: CR LF, LF, CR, VT, FF, FS, GS,
    RS, U+0085, U+2028 and U+2029. *)
Definition linebreaks : list (list nat) :=
  [[13; 10]; [10]; [13]; [11]; [12]; [28]; [29]; [30];
   [194; 133]; [226; 128; 168]; [226; 128; 169]].

Fixpoint lines_from (skip : nat) (cur : list ascii) (l : list ascii)
    : list string :=
  match l with
  | [] =>
      match cur with
      | [] => []
      | _ => [PyStr.of_bytes (rev cur)]
      end
  | c :: l' =>
      match skip with
      | S k => lines_from k cur l'
      | O =>
          match PyStr.match_len linebreaks l with
          | O => lines_from O (c :: cur) l'
          | S k => PyStr.of_bytes (rev cur) :: lines_from k [] l'
          end
      end
  end.

(** [s.splitlines()] *)
Definition splitlines (s : string) : list string :=
  lines_from 0 [] (PyStr.bytes s).

Fixpoint lstrip_in (chars : list ascii) (l : list ascii) : list ascii :=
  match l with
  | [] => []
  | c :: l' => if existsb (Ascii.eqb c) chars then lstrip_in chars l' else l
  end.

(** [s.strip(chars)] for ASCII [chars]. *)
Definition strip_chars (chars : list ascii) (s : string) : string :=
  PyStr.of_bytes
    (rev (lstrip_in chars (rev (lstrip_in chars (PyStr.bytes s))))).

Fixpoint split_at (sep : ascii) (l : list ascii)
    : option (list ascii * list ascii) :=
  match l with
  | [] => None
  | c :: l' =>
      if Ascii.eqb c sep then Some ([], l')
      else
        match split_at sep l' with
        | Some (a, b) => Some (c :: a, b)
        | None => None
        end
  end.

(** [s.split(sep, 1)] for a one-character ASCII [sep]: the two halves
    around its first occurrence, [None] when [sep not in s]. *)
Definition split_once (sep : ascii) (s : string) : option (string * string) :=
  match split_at sep (PyStr.bytes s) with
  | Some (a, b) => Some (PyStr.of_bytes a, PyStr.of_bytes b)
  | None => None
  end.

(** Whether the string holds a NUL character. *)
Definition has_nul (s : string) : bool :=
  existsb (Ascii.eqb zero) (PyStr.bytes s).

End PyText.

(* ================================================================== *)
(** * Configuration: the [.env] file, the gate, the log levels *)

(** [os.environ.get(k, default)] *)
Definition environ_get (k default : string) (environ : dict string) : string :=
  match Dict.get k environ with
  | Some v => v
  | None => default
  end.

(** [k in os.environ] *)
Definition environ_has (k : string) (environ : dict string) : bool :=
  match Dict.get k environ with
  | Some _ => true
  | None => false
  end.

(** The characters the value is stripped of: the single and the double
    quote. *)
Definition quote_chars : list ascii := ["039"%char; "034"%char].

(** One turn of the loop of [_load_dotenv]: the environment it leaves,
    [None] when [os.environ[key] = value] raises (a NUL in the name or the
    value), which ends the loop in the [except] clause. *)
Definition dotenv_step (environ : dict string) (line : string)
    : option (dict string) :=
  let line := PyStr.strip line in
  if negb (PyStr.nonempty line) || PyStr.startswith "#" line then Some environ
  else
    match PyText.split_once "="%char line with
    | None => Some environ
    | Some (key, value) =>
        let key := PyStr.strip key in
        let value := PyText.strip_chars quote_chars (PyStr.strip value) in
        if PyStr.nonempty key && negb (environ_has key environ)
        then
          if PyText.has_nul key || PyText.has_nul value then None
          else Some (Dict.set key value environ)
        else Some environ
    end.

Fixpoint dotenv_lines (lines : list string) (environ : dict string)
    : dict string :=
  match lines with
  | [] => environ
  | line :: rest =>
      match dotenv_step environ line with
      | Some environ' => dotenv_lines rest environ'
      | None => environ
      end
  end.

(** [_load_dotenv], on a POSIX environment: [text] is what
    [env_path.read_text] returns, [None] when the file is missing or
    cannot be read as UTF-8. *)
Definition _load_dotenv (text : option string) (environ : dict string)
    : dict string :=
  match text with
  | None => environ
  | Some t => dotenv_lines (PyText.splitlines t) environ
  end.

(** The gate at the top of [main]:
    [os.environ.get("TRACE_TO_LANGFUSE", "").strip().lower() == "true"]. *)
Definition tracing_enabled (environ : dict string) : bool :=
  String.eqb
    (PyStr.lower (PyStr.strip (environ_get "TRACE_TO_LANGFUSE" "" environ)))
    "true".

Definition _LOG_LEVELS : dict Z :=
  [("DEBUG", 10); ("INFO", 20); ("WARN", 30); ("WARNING", 30); ("ERROR", 40)].

(** [_LOG_LEVELS.get(name, _LOG_LEVELS["INFO"])] *)
Definition level_value (name : string) : Z :=
  match Dict.get name _LOG_LEVELS with
  | Some v => v
  | None => 20
  end.

(** [_log]: [log] holds the messages written to the log file so far (each
    line also carries the local time and the level name).  A failure to
    write is swallowed. *)
Definition _log (environ : dict string) (level message : string)
    (log : list string) : list string :=
  let level_name :=
    PyText.upper (PyStr.strip (if PyStr.nonempty level then level else "INFO")) in
  let level := level_value level_name in
  let env_level :=
    PyText.upper
      (PyStr.strip (environ_get "OPENCODE_LANGFUSE_LOG_LEVEL" "INFO" environ)) in
  let env_value := level_value env_level in
  let debug_enabled :=
    str_in
      (PyStr.lower (PyStr.strip (environ_get "OPENCODE_LANGFUSE_DEBUG" "" environ)))
      ["1"; "true"; "yes"; "on"] in
  let env_value := if debug_enabled then level_value "DEBUG" else env_value in
  if level <? env_value then log else (log ++ [message])%list.

(* ================================================================== *)
(** * The state file *)

(** The ten maps of the state document. *)
Definition state_keys : list string :=
  ["messages"; "message_events"; "user_parts"; "assistant_parts";
   "assistant_finish_seen"; "pending_parts"; "message_last_seen";
   "part_last_seen"; "emitted"; "session_lifecycle"].

(** [_load_state]: [file] is what [json.loads] made of the state file,
    [None] when the file is missing or reading it raised. *)
Definition _load_state (file : option json) : dict json :=
  match file with
  | Some (JObj data) =>
      fold_left (fun d k => Dict.setdefault k (JObj []) d) state_keys data
  | _ => map (fun k => (k, JObj [])) state_keys
  end.

(* ================================================================== *)
(** * What is reported about the parts *)

(** [_truncate] *)
Definition _truncate (value : json) (limit : Z) : json :=
  match value with
  | JStr s =>
      let n := Z.of_nat (PyText.len s) in
      if n <=? limit then value
      else
        JStr (PyText.slice_to limit s
              ++ String "010" "...[truncated " ++ PyStr.of_Z (n - limit)
              ++ " chars]")
  | _ => value
  end.

(** [_serialize_part], with [MAX_CHARS] as [limit]. *)
Definition _serialize_part (limit : Z) (part : json) : dict json :=
  let p := _as_dict part in
  let time_obj := _as_dict (jget "time" p) in
  let state_obj := _as_dict (jget "state" p) in
  let out :=
    [("id", jget "id" p);
     ("message_id", jget "messageID" p);
     ("type", jget "type" p);
     ("time",
      if Dict.nonempty time_obj then _safe_json (JObj time_obj) else JObj [])] in
  let out :=
    match jget "text" p with
    | JStr _ => Dict.set "text" (_truncate (jget "text" p) limit) out
    | _ => out
    end in
  let out :=
    if truthy (jget "tool" p) then Dict.set "tool" (jget "tool" p) out else out in
  let out :=
    match jget "metadata" p with
    | JNull => out
    | _ => Dict.set "metadata" (_safe_json (jget "metadata" p)) out
    end in
  if Dict.nonempty state_obj then
    Dict.set "state"
      (JObj
         [("status", jget "status" state_obj);
          ("input", _safe_json (jget "input" state_obj));
          ("output",
           match jget "output" state_obj with
           | JStr _ => _truncate (jget "output" state_obj) limit
           | _ => _safe_json (jget "output" state_obj)
           end);
          ("error",
           match jget "error" state_obj with
           | JStr _ => _truncate (jget "error" state_obj) limit
           | _ => _safe_json (jget "error" state_obj)
           end);
          ("metadata", _safe_json (jget "metadata" state_obj))])
      out
  else out.

Section Reporting.
Context {env : Env}.

(** One turn of the loop of [_parts_type_counts]. *)
Definition count_step (counts : dict Z) (part : json) : dict Z :=
  let ptype := py_str (py_or (jget "type" (_as_dict part)) (JStr "unknown")) in
  Dict.set ptype
    (match Dict.get ptype counts with Some c => c | None => 0 end + 1) counts.

(** [_parts_type_counts] *)
Definition _parts_type_counts (parts_map : dict json) : dict Z :=
  fold_left count_step (Dict.values parts_map) [].

(** ** The child spans of a turn *)

(** An entry of the timeline of [_emit_turn_trace]: a reasoning block with
    its index, or a tool call. *)
Inductive TimelineItem : Type :=
| ReasoningItem (index : nat) (row : ReasoningRow)
| ToolItem (row : ToolRow).

Definition item_ts (x : TimelineItem) : datetime.t :=
  match x with
  | ReasoningItem _ r => r_timestamp r
  | ToolItem t => t_timestamp t
  end.

Definition item_kind (x : TimelineItem) : string :=
  match x with
  | ReasoningItem _ _ => "reasoning"
  | ToolItem _ => "tool"
  end.

Definition item_id (x : TimelineItem) : string :=
  match x with
  | ReasoningItem _ r => r_id r
  | ToolItem t => t_id t
  end.

(** The order of the sort key [(x[0], x[1], str(x[2].get("id") or ""))]:
    tuples compare lexicographically. *)
Definition timeline_leb (a b : TimelineItem) : bool :=
  datetime.ltb (item_ts a) (item_ts b)
  || (datetime.eqb (item_ts a) (item_ts b)
      && (String.ltb (item_kind a) (item_kind b)
          || (String.eqb (item_kind a) (item_kind b)
              && String.leb (item_id a) (item_id b)))).

Fixpoint timeline_insert (x : TimelineItem) (l : list TimelineItem)
    : list TimelineItem :=
  match l with
  | [] => [x]
  | y :: l' =>
      if timeline_leb x y then x :: l else y :: timeline_insert x l'
  end.

(** [enumerate(reasoning, start=i)] *)
Fixpoint enumerate_from (i : nat) (l : list ReasoningRow) : list TimelineItem :=
  match l with
  | [] => []
  | r :: l' => ReasoningItem i r :: enumerate_from (S i) l'
  end.

(** The timeline, sorted (the sort is stable). *)
Definition timeline (reasoning : list ReasoningRow) (tools : list ToolRow)
    : list TimelineItem :=
  fold_right timeline_insert []
    (enumerate_from 1 reasoning ++ map ToolItem tools)%list.

(** [timedelta(milliseconds=1)], in microseconds. *)
Definition step : Z := 1000.

(** [dt + delta] *)
Definition plus (dt : datetime.t) (delta : Z) : datetime.t :=
  datetime.mk (datetime.instant dt + delta) (datetime.utcoffset dt).

(** The loop over the timeline: the start time each span is given. *)
Fixpoint span_starts (t_cursor : datetime.t) (items : list TimelineItem)
    : list (TimelineItem * datetime.t) :=
  match items with
  | [] => []
  | item :: rest =>
      let ts := item_ts item in
      let span_start :=
        if datetime.ltb t_cursor ts then ts else plus t_cursor step in
      (item, span_start) :: span_starts (plus span_start step) rest
  end.

(** [_parse_dt(time.get("created")) or datetime.now(timezone.utc)] *)
Definition created_at (assistant_info : dict json) (n : nat) : datetime.t :=
  match _parse_dt (jget "created" (_as_dict (jget "time" assistant_info))) with
  | Some dt => dt
  | None => fst (now n)
  end.

(** The child spans [_emit_turn_trace] opens under the root span of a
    turn, each with its start time, when no call to the client raises.
    [generation] tells whether the generation was recorded, which moves
    the cursor one step further. *)
Definition turn_spans (p : TurnPayload) (n : nat) (generation : bool)
    : list (TimelineItem * datetime.t) :=
  let t_cursor := plus (created_at (p_assistant_info p) n) step in
  let t_cursor := if generation then plus t_cursor step else t_cursor in
  span_starts t_cursor (timeline (p_reasoning p) (p_tools p)).

(** ** Vocabulary of the properties *)

(** The type a part is counted under. *)
Definition part_type_name (part : json) : string :=
  py_str (py_or (jget "type" (_as_dict part)) (JStr "unknown")).

(** [sum(counts.values())] *)
Definition total (counts : dict Z) : Z :=
  fold_right Z.add 0 (Dict.values counts).

(** The key is one of the session's: it starts with [session_id:], as
    every message key and part key of the session does. *)
Definition own_key (session_id key : string) : bool :=
  PyStr.startswith (session_id ++ ":") key.

(** The two states hold the same under a key in every map that is keyed
    by message or by part. *)
Definition same_entries (k : string) (st st' : State) : Prop :=
  Dict.get k (messages st') = Dict.get k (messages st)
  /\ Dict.get k (message_events st') = Dict.get k (message_events st)
  /\ Dict.get k (user_parts st') = Dict.get k (user_parts st)
  /\ Dict.get k (assistant_parts st') = Dict.get k (assistant_parts st)
  /\ Dict.get k (assistant_finish_seen st') = Dict.get k (assistant_finish_seen st)
  /\ Dict.get k (pending_parts st') = Dict.get k (pending_parts st)
  /\ Dict.get k (message_last_seen st') = Dict.get k (message_last_seen st)
  /\ Dict.get k (part_last_seen st') = Dict.get k (part_last_seen st).

(** The session a sink call is made for. *)
Definition call_session (c : SinkCall) : string :=
  match c with
  | TurnCall s _ _ _ => s
  | LifecycleCall _ s _ => s
  end.

Definition is_turn_call (c : SinkCall) : bool :=
  match c with
  | TurnCall _ _ _ _ => true
  | LifecycleCall _ _ _ => false
  end.

(** The call hands the sink something to show: a lifecycle event, or a
    turn with an output text, a reasoning block or a finished tool call. *)
Definition call_shows (c : SinkCall) : bool :=
  match c with
  | TurnCall _ _ p _ => negb (not_ready p)
  | LifecycleCall _ _ _ => true
  end.

(** What the handlers, the emission gate and the flush do for a session
    stays within the session: entries under the keys of other sessions
    are as before, the lifecycle map is as before, the sink received turn
    payloads of the session only, each with something to show, the markers
    that were set hold the same value, and a marker that changed is one of
    the session's turns. *)
Definition confined (s : string) (w w' : World) : Prop :=
  (forall k, own_key s k = false -> same_entries k (state w) (state w'))
  /\ session_lifecycle (state w') = session_lifecycle (state w)
  /\ (exists added,
        sink w' = (sink w ++ added)%list
        /\ Forall
             (fun c =>
                is_turn_call c = true /\ call_session c = s
                /\ call_shows c = true) added)
  /\ (forall t,
        marked t (state w) = true ->
        Dict.get t (emitted (state w')) = Dict.get t (emitted (state w)))
  /\ (forall t,
        Dict.get t (emitted (state w')) = Dict.get t (emitted (state w))
        \/ exists m, t = _turn_key s m).

(** A parts map that assembles to a turn with nothing to show, whenever
    the clock is read: no output text, no reasoning block, no finished
    tool call. *)
Definition nothing_to_show (parts_map : dict json) : Prop :=
  parts_map = []
  \/ exists n, fst (_build_turn_details parts_map n) = ("", [], []).

(** Between two worlds, the assistant parts of a message are kept until
    its turn is emitted: a marker that is set stays set, and a part id
    that is buffered is still buffered unless the marker is set. *)
Definition kept_until_emitted (s m : string) (w w' : World) : Prop :=
  (marked (_turn_key s m) (state w) = true ->
   marked (_turn_key s m) (state w') = true)
  /\ (forall pid,
        part_at (_msg_key s m) pid (assistant_parts (state w)) <> None ->
        part_at (_msg_key s m) pid (assistant_parts (state w')) <> None
        \/ marked (_turn_key s m) (state w') = true).

(** The part has a start time that [_parse_dt] reads, so that the clock
    is not consulted for it. *)
Definition has_start_time (part : json) : bool :=
  match _parse_dt (jget "start" (_as_dict (jget "time" (_as_dict part)))) with
  | Some _ => true
  | None => false
  end.

(** The id a part is reported under. *)
Definition reported_id (part : json) : string :=
  str_or_empty (jget "id" (_as_dict part)).

(** The string holds no colon. *)
Definition colon_free (s : string) : bool :=
  forallb (fun c => negb (Ascii.eqb c ":")) (PyStr.bytes s).

(** A part of type reasoning with non-empty text. *)
Definition is_reasoning_part (p : dict json) : bool :=
  String.eqb (str_or_empty (jget "type" p)) "reasoning"
  && PyStr.nonempty (text_string p).

(** The block a reasoning part is reported as. *)
Definition reasoning_row (pt : dict json * datetime.t) : ReasoningRow :=
  mkReasoning (str_or_empty (jget "id" (fst pt))) (text_string (fst pt))
    (snd pt) (_safe_json (jget "metadata" (fst pt))).

(** The lifecycle events the sink was handed, with their sessions. *)
Definition lifecycle_calls (l : list SinkCall) : list (string * string) :=
  flat_map
    (fun c =>
       match c with
       | LifecycleCall e s _ => [(e, s)]
       | TurnCall _ _ _ _ => []
       end) l.

End Reporting.

(* ================================================================== *)
(** * Worked scenarios *)

(** The scenarios run the hook with the ISO reader of [datetime], the
    default cap on the event history, and a clock that starts at
    2023-11-14T22:13:21Z and advances one microsecond per reading.  None of
    them prints or serialises a list or a dict, so what stands for [repr]
    and [json.dumps] is never consulted. *)
Definition ex_repr (x : json) : string := "".
Definition ex_dumps (x : json) : string := "".
Definition ex_clock (n : nat) : Z := 1700000001000000 + Z.of_nat n.

(** A client that records every turn, and one that always raises. *)
Definition accepting (n : nat) (p : TurnPayload) : bool := true.
Definition failing (n : nat) (p : TurnPayload) : bool := false.

(** The environment of the scenarios, for a given client. *)
Definition ex_env (client : nat -> TurnPayload -> bool) : Env :=
  mkEnv datetime.read_iso ex_repr ex_dumps 30 ex_clock client.

Definition ex_run (client : nat -> TurnPayload -> bool) := @run (ex_env client).
Definition ex_message_updated (client : nat -> TurnPayload -> bool) :=
  @_handle_message_updated (ex_env client).
Definition ex_part_updated (client : nat -> TurnPayload -> bool) :=
  @_handle_message_part_updated (ex_env client).
Definition ex_maybe_emit (client : nat -> TurnPayload -> bool) :=
  @_maybe_emit_assistant_turn (ex_env client).
Definition ex_assemble := @assemble_turn (ex_env accepting).

(** The payload the plugin forwards for an event of session [s1], captured
    at [captured_at] (epoch milliseconds). *)
Definition ex_event (type : string) (captured_at : Z) (properties : dict json)
    : dict json :=
  [("source", JStr "opencode-plugin");
   ("captured_at", JNum captured_at);
   ("event",
    JObj [("type", JStr type);
          ("properties", JObj (("sessionID", JStr "s1") :: properties))])].

Definition ex_info (id role parent : string) (completed : bool) : dict json :=
  [("id", JStr id); ("role", JStr role); ("parentID", JStr parent);
   ("time",
    JObj (("created", JNum 1700000000000)
          :: (if completed then [("completed", JNum 1700000000500)] else [])))].

Definition ex_text_part (message_id part_id text : string) : dict json :=
  [("id", JStr part_id); ("messageID", JStr message_id); ("type", JStr "text");
   ("text", JStr text); ("time", JObj [("start", JNum 1700000000100)])].

Definition ex_tool_part (message_id part_id status : string) : dict json :=
  [("id", JStr part_id); ("messageID", JStr message_id); ("type", JStr "tool");
   ("tool", JStr "bash");
   ("state",
    JObj [("status", JStr status); ("input", JStr "ls"); ("output", JStr "a.txt")]);
   ("time", JObj [("start", JNum 1700000000200)])].

(** A part of a type the hook does not know. *)
Definition ex_file_part (message_id part_id : string) : dict json :=
  [("id", JStr part_id); ("messageID", JStr message_id); ("type", JStr "file")].

Definition ex_message (captured_at : Z) (info : dict json) : dict json :=
  ex_event "message.updated" captured_at [("info", JObj info)].

Definition ex_part (captured_at : Z) (part : dict json) : dict json :=
  ex_event "message.part.updated" captured_at [("part", JObj part)].

(** A fresh state file, no clock reading, no sink call yet. *)
Definition ex_w0 : World := mkWorld empty_state 0 [].

(** The spec's scenario: a user message with its text, an assistant message
    with its text, and the completion of the assistant message. *)
Definition ex_conversation : list (option json) :=
  map (fun p => Some (JObj p))
    [ex_message 1700000000001 (ex_info "u1" "user" "" false);
     ex_part 1700000000002 (ex_text_part "u1" "p1" "hi");
     ex_message 1700000000003 (ex_info "a1" "assistant" "u1" false);
     ex_part 1700000000004 (ex_text_part "a1" "p2" "hello");
     ex_message 1700000000005 (ex_info "a1" "assistant" "u1" true)].

(** The state before the completion arrives: both texts are buffered. *)
Definition ex_w_ready : World :=
  Eval vm_compute in ex_run accepting (firstn 4 ex_conversation) ex_w0.

(** An assistant message whose only part is a tool call still running. *)
Definition ex_w_running : World :=
  Eval vm_compute in
    ex_part_updated accepting ex_w0
      (ex_part 1700000000002 (ex_tool_part "a1" "t1" "running")) "s1".

(** An assistant message that was emitted on its parts alone (a finished
    tool call, then a step-finish marker), no message.updated event having
    told its role. *)
Definition ex_w_inferred : World :=
  Eval vm_compute in
    ex_run accepting
      (map (fun p => Some (JObj p))
         [ex_part 1700000000002 (ex_tool_part "a1" "t1" "completed");
          ex_part 1700000000003
            [("id", JStr "sf1"); ("messageID", JStr "a1");
             ("type", JStr "step-finish")]])
      ex_w0.

(** A parts map whose one text part starts with a blank. *)
Definition ex_blank_parts : dict json :=
  [("p1", JObj (ex_text_part "a1" "p1" " hi"))].

(** The record the lifecycle flush makes up for a message it has no record
    of. *)
Definition ex_flush_info : dict json :=
  [("id", JStr "a1"); ("role", JStr "assistant"); ("time", JObj []);
   ("parentID", JStr "")].

(** The state after the conversation: the turn of [a1] is emitted. *)
Definition ex_w_emitted : World :=
  Eval vm_compute in ex_run accepting ex_conversation ex_w0.

(** The state after the first event: [u1] is known as a user message. *)
Definition ex_w_user : World :=
  Eval vm_compute in ex_run accepting (firstn 1 ex_conversation) ex_w0.

(** The event that completes the assistant message. *)
Definition ex_completion : dict json :=
  ex_message 1700000000005 (ex_info "a1" "assistant" "u1" true).

(** The parts of a message as they arrived, and in the reverse order. *)
Definition ex_parts_arrived : dict json :=
  [("p2", JObj (ex_text_part "a1" "p2" "hello"));
   ("t1", JObj (ex_tool_part "a1" "t1" "completed"))].
Definition ex_parts_reversed : dict json :=
  [("t1", JObj (ex_tool_part "a1" "t1" "completed"));
   ("p2", JObj (ex_text_part "a1" "p2" "hello"))].


(* ================================================================== *)
(** * Properties *)

Section Properties.
Context {env : Env}.

(* ================================================================ *)
(** * Facts about dicts *)

Lemma get_set_eq {V : Type} (k : string) (v : V) (d : dict V) :
  Dict.get k (Dict.set k v d) = Some v.
Proof.
  induction d as [|[k' v'] d IH]; simpl.
  - now rewrite String.eqb_refl.
  - destruct (String.eqb_spec k k') as [->|Hne]; simpl.
    + now rewrite String.eqb_refl.
    + destruct (String.eqb_spec k k'); [contradiction|exact IH].
Qed.

Lemma get_set_neq {V : Type} (k k' : string) (v : V) (d : dict V) :
  k' <> k -> Dict.get k' (Dict.set k v d) = Dict.get k' d.
Proof.
  intros Hne. induction d as [|[k0 v0] d IH]; simpl.
  - destruct (String.eqb_spec k' k); [contradiction|reflexivity].
  - destruct (String.eqb_spec k k0) as [->|Hk]; simpl.
    + destruct (String.eqb_spec k' k0); [contradiction|reflexivity].
    + destruct (String.eqb_spec k' k0); [reflexivity|exact IH].
Qed.

Lemma get_pop_eq {V : Type} (k : string) (d : dict V) :
  Dict.get k (Dict.pop k d) = None.
Proof.
  induction d as [|[k' v'] d IH]; simpl; [reflexivity|].
  destruct (String.eqb_spec k k') as [->|Hne]; simpl; [exact IH|].
  destruct (String.eqb_spec k k'); [contradiction|exact IH].
Qed.

Lemma get_pop_neq {V : Type} (k k' : string) (d : dict V) :
  k' <> k -> Dict.get k' (Dict.pop k d) = Dict.get k' d.
Proof.
  intros Hne. induction d as [|[k0 v0] d IH]; simpl; [reflexivity|].
  destruct (String.eqb_spec k k0) as [->|Hk]; simpl.
  - destruct (String.eqb_spec k' k0); [contradiction|exact IH].
  - destruct (String.eqb_spec k' k0); [reflexivity|exact IH].
Qed.

Lemma get_pop_none {V : Type} (k k' : string) (d : dict V) :
  Dict.get k' d = None -> Dict.get k' (Dict.pop k d) = None.
Proof.
  intros H. destruct (String.eqb_spec k' k) as [->|Hne].
  - apply get_pop_eq.
  - now rewrite get_pop_neq.
Qed.

Lemma mem_set {V : Type} (k k' : string) (v : V) (d : dict V) :
  Dict.mem k' d -> Dict.mem k' (Dict.set k v d).
Proof.
  unfold Dict.mem. intros H. destruct (String.eqb_spec k' k) as [->|Hne].
  - now rewrite get_set_eq.
  - now rewrite get_set_neq.
Qed.

Lemma jget_set_eq (k : string) (v : json) (d : dict json) :
  jget k (Dict.set k v d) = v.
Proof. unfold jget. now rewrite get_set_eq. Qed.

Lemma jget_set_neq (k k' : string) (v : json) (d : dict json) :
  k' <> k -> jget k' (Dict.set k v d) = jget k' d.
Proof. intros H. unfold jget. now rewrite get_set_neq. Qed.


(* ================================================================ *)
(** * Facts about strings and timestamps *)

Lemma nonempty_app_char (a b : string) (c : ascii) :
  PyStr.nonempty (a ++ String c b) = true.
Proof. destruct a; reflexivity. Qed.

Lemma nonempty_true (s : string) : PyStr.nonempty s = true <-> s <> "".
Proof. destruct s; simpl; split; congruence. Qed.

(** An ISO timestamp is never the empty string, so a marker or flag that
    holds one is truthy. *)
Lemma isoformat_truthy (dt : datetime.t) :
  truthy (JStr (datetime.isoformat dt)) = true.
Proof.
  unfold datetime.isoformat.
  destruct (datetime.civil_of_days _) as [[y m] d].
  cbn [truthy]. apply nonempty_app_char.
Qed.

Lemma msg_key_nonempty (s m : string) : PyStr.nonempty (_msg_key s m) = true.
Proof. apply nonempty_app_char. Qed.

(* ================================================================ *)
(** * The emission gate, case by case *)

Lemma assemble_session (st : State) (n : nat) (s m : string) (info : dict json) :
  p_session_id (fst (assemble_turn st n s m info)) = s.
Proof.
  unfold assemble_turn.
  destruct (_extract_text_from_parts _ _) as [input_text n1].
  destruct (_build_turn_details _ _) as [[[output_text reasoning] tls] n2].
  reflexivity.
Qed.

Lemma assemble_assistant_parts
    (st : State) (n : nat) (s m : string) (info : dict json) :
  p_assistant_parts_map (fst (assemble_turn st n s m info))
  = or_empty (Dict.get (_msg_key s m) (assistant_parts st)).
Proof.
  unfold assemble_turn.
  destruct (_extract_text_from_parts _ _) as [input_text n1].
  destruct (_build_turn_details _ _) as [[[output_text reasoning] tls] n2].
  reflexivity.
Qed.

(** Already emitted: nothing happens. *)
Lemma maybe_emit_marked (w : World) (s m : string) (info : dict json) :
  marked (_turn_key s m) (state w) = true ->
  _maybe_emit_assistant_turn w s m info = w.
Proof.
  unfold _maybe_emit_assistant_turn, marked. now intros ->.
Qed.

(** Not ready: only the clock has been read. *)
Lemma maybe_emit_not_ready (w : World) (s m : string) (info : dict json) :
  not_ready (fst (assemble_turn (state w) (ticks w) s m info)) = true ->
  _maybe_emit_assistant_turn w s m info = w
  \/ _maybe_emit_assistant_turn w s m info
     = mkWorld (state w)
         (snd (assemble_turn (state w) (ticks w) s m info)) (sink w).
Proof.
  unfold _maybe_emit_assistant_turn. intros H.
  destruct (truthy _); [now left|right].
  destruct (assemble_turn _ _ _ _ _) as [turn n]. simpl in *. now rewrite H.
Qed.

(** Ready and not yet emitted: the sink is called once, the marker is
    written, the buffers are purged, whatever the client answers. *)
Lemma maybe_emit_emits (w : World) (s m : string) (info : dict json) :
  marked (_turn_key s m) (state w) = false ->
  not_ready (fst (assemble_turn (state w) (ticks w) s m info)) = false ->
  let turn := fst (assemble_turn (state w) (ticks w) s m info) in
  let n := snd (assemble_turn (state w) (ticks w) s m info) in
  _maybe_emit_assistant_turn w s m info
  = mkWorld
      (purge_buffers (_msg_key s m) (user_key_of s info)
         (with_emitted
            (Dict.set (_turn_key s m)
               (JStr (datetime.isoformat (datetime.utc (clock n)))))
            (state w)))
      (S n)
      (sink w ++ [TurnCall s m turn (client (List.length (sink w)) turn)]).
Proof.
  unfold _maybe_emit_assistant_turn, marked. intros -> Hready.
  pose proof (assemble_session (state w) (ticks w) s m info) as Hs.
  destruct (assemble_turn _ _ _ _ _) as [turn n]. simpl in *.
  rewrite Hready. unfold _emit_turn_trace. simpl. now rewrite Hs.
Qed.

Lemma purge_emitted (ak uk : string) (st : State) :
  emitted (purge_buffers ak uk st) = emitted st.
Proof. unfold purge_buffers. now destruct (PyStr.nonempty uk). Qed.

Lemma purge_assistant_parts (ak uk : string) (st : State) :
  assistant_parts (purge_buffers ak uk st) = Dict.pop ak (assistant_parts st).
Proof. unfold purge_buffers. now destruct (PyStr.nonempty uk). Qed.

Lemma purge_finish_seen (ak uk : string) (st : State) :
  assistant_finish_seen (purge_buffers ak uk st)
  = Dict.pop ak (assistant_finish_seen st).
Proof. unfold purge_buffers. now destruct (PyStr.nonempty uk). Qed.

Lemma purge_message_events_assistant (ak uk : string) (st : State) :
  Dict.get ak (message_events (purge_buffers ak uk st)) = None.
Proof.
  unfold purge_buffers. destruct (PyStr.nonempty uk); simpl.
  - apply get_pop_none, get_pop_eq.
  - apply get_pop_eq.
Qed.

Lemma purge_user (ak uk : string) (st : State) :
  uk <> "" ->
  Dict.get uk (user_parts (purge_buffers ak uk st)) = None
  /\ Dict.get uk (message_events (purge_buffers ak uk st)) = None.
Proof.
  intros H. apply nonempty_true in H. unfold purge_buffers. rewrite H. simpl.
  split; apply get_pop_eq.
Qed.

Lemma purge_frame (ak uk : string) (st : State) :
  messages (purge_buffers ak uk st) = messages st
  /\ pending_parts (purge_buffers ak uk st) = pending_parts st
  /\ message_last_seen (purge_buffers ak uk st) = message_last_seen st
  /\ part_last_seen (purge_buffers ak uk st) = part_last_seen st
  /\ session_lifecycle (purge_buffers ak uk st) = session_lifecycle st.
Proof. unfold purge_buffers. now destruct (PyStr.nonempty uk). Qed.

Lemma purge_buffers_purged (s m : string) (info : dict json) (st : State) :
  purged s m info (purge_buffers (_msg_key s m) (user_key_of s info) st).
Proof.
  unfold purged. repeat split.
  - rewrite purge_assistant_parts. apply get_pop_eq.
  - apply purge_message_events_assistant.
  - rewrite purge_finish_seen. apply get_pop_eq.
  - now apply purge_user.
  - now apply purge_user.
Qed.

(** C4 (empty-turn suppression): when the turn assembled for an assistant
    message has empty output text, no reasoning block and no terminal tool
    call, the emission attempt makes no sink call and leaves the whole
    state document as it was: no emitted marker is written and every
    buffer stays in place. *)
Theorem C4_empty_turn_suppression
    (w : World) (session_id message_id : string) (info : dict json) :
  let turn := fst (assemble_turn (state w) (ticks w) session_id message_id info) in
  p_output_text turn = "" ->
  p_reasoning turn = [] ->
  p_tools turn = [] ->
  let w' := _maybe_emit_assistant_turn w session_id message_id info in
  sink w' = sink w
  /\ emitted (state w') = emitted (state w)
  /\ state w' = state w.
Proof.
  intros turn Ho Hr Ht w'.
  assert (H : not_ready turn = true).
  { unfold not_ready. now rewrite Ho, Hr, Ht. }
  subst w'. destruct (maybe_emit_not_ready w session_id message_id info H)
    as [-> | ->]; simpl; auto.
Qed.

(** C5 (post-emission purge): right after a successful turn emission no
    entry remains for the assistant message key in assistant_parts,
    message_events or assistant_finish_seen, and, when the message links a
    user message, none remains for that user key in user_parts or
    message_events. *)
Theorem C5_post_emission_purge
    (w : World) (session_id message_id : string) (info : dict json) :
  let turn := fst (assemble_turn (state w) (ticks w) session_id message_id info) in
  marked (_turn_key session_id message_id) (state w) = false ->
  not_ready turn = false ->
  client (List.length (sink w)) turn = true ->
  let w' := _maybe_emit_assistant_turn w session_id message_id info in
  let akey := _msg_key session_id message_id in
  let ukey := user_key_of session_id info in
  sink w' = (sink w ++ [TurnCall session_id message_id turn true])%list
  /\ Dict.get akey (assistant_parts (state w')) = None
  /\ Dict.get akey (message_events (state w')) = None
  /\ Dict.get akey (assistant_finish_seen (state w')) = None
  /\ (ukey <> "" ->
      Dict.get ukey (user_parts (state w')) = None
      /\ Dict.get ukey (message_events (state w')) = None).
Proof.
  intros turn Hm Hr Hok w' akey ukey. subst w'.
  rewrite (maybe_emit_emits w session_id message_id info Hm Hr).
  cbn [state sink]. fold turn. rewrite Hok. split; [reflexivity|].
  apply purge_buffers_purged.
Qed.

(** C2, as the code has it (sink failure is swallowed, not retried): when
    the trace-sink call of an emission attempt fails, the failure stays
    inside the emit routine; the emitted marker for the turn id is recorded
    and the buffers of the involved message keys are purged exactly as
    after a successful call, so no later attempt for the pair reaches the
    sink again. *)
Theorem C2_sink_failure_swallowed
    (w : World) (session_id message_id : string) (info : dict json) :
  let turn := fst (assemble_turn (state w) (ticks w) session_id message_id info) in
  marked (_turn_key session_id message_id) (state w) = false ->
  not_ready turn = false ->
  client (List.length (sink w)) turn = false ->
  let w' := _maybe_emit_assistant_turn w session_id message_id info in
  sink w' = (sink w ++ [TurnCall session_id message_id turn false])%list
  /\ marked (_turn_key session_id message_id) (state w') = true
  /\ purged session_id message_id info (state w')
  /\ (forall info',
        _maybe_emit_assistant_turn w' session_id message_id info' = w').
Proof.
  intros turn Hm Hr Hfail w'. subst w'.
  rewrite (maybe_emit_emits w session_id message_id info Hm Hr).
  cbn [state sink]. fold turn. rewrite Hfail.
  assert (Hmarked :
    marked (_turn_key session_id message_id)
      (purge_buffers (_msg_key session_id message_id)
         (user_key_of session_id info)
         (with_emitted
            (Dict.set (_turn_key session_id message_id)
               (JStr (datetime.isoformat
                  (datetime.utc
                     (clock (snd (assemble_turn (state w) (ticks w)
                                    session_id message_id info)))))))
            (state w))) = true).
  { unfold marked. rewrite purge_emitted. cbn [emitted with_emitted].
    rewrite jget_set_eq. apply isoformat_truthy. }
  split; [reflexivity|]. split; [exact Hmarked|].
  split; [apply purge_buffers_purged|].
  intros info'. now apply maybe_emit_marked.
Qed.

(* ================================================================ *)
(** * The part handler: routing *)

Lemma lower_empty : PyStr.lower "" = "".
Proof. reflexivity. Qed.

(** C9, as the code has it (default bucket when the role is unknown): a
    message.part.updated event that is accepted (it carries a message id
    and a part id, is not older than the last-seen timestamp of its part
    key, and the turn of its message has not been emitted), whose owning
    message has no stored role and whose part type is neither text nor one
    of the structural assistant types, has its part stored in user_parts
    under the message key; pending_parts and assistant_parts are not
    touched. *)
Theorem C9_unknown_role_default_bucket
    (w : World) (payload : dict json) (session_id : string) :
  let part := _as_dict (jget "part" (_event_props payload)) in
  let message_id := str_or_empty (jget "messageID" part) in
  let part_id := str_or_empty (jget "id" part) in
  let key := _msg_key session_id message_id in
  let part_type := str_or_empty (jget "type" part) in
  let event_dt := fst (_event_captured_at payload (ticks w)) in
  message_id <> "" ->
  part_id <> "" ->
  _is_older_event (part_last_seen (state w)) (key ++ ":" ++ part_id) event_dt
    = false ->
  marked (_turn_key session_id message_id) (state w) = false ->
  str_or_empty (jget "role" (_as_dict (jget key (messages (state w))))) = "" ->
  part_type <> "text" ->
  str_in part_type structural_types = false ->
  let w' := _handle_message_part_updated w payload session_id in
  part_at key part_id (user_parts (state w')) = Some (JObj part)
  /\ pending_parts (state w') = pending_parts (state w)
  /\ assistant_parts (state w') = assistant_parts (state w)
  /\ sink w' = sink w.
Proof.
  intros part message_id part_id key part_type event_dt
    Hm Hp Hfresh Hmark Hrole Htext Hstruct w'.
  subst w'. unfold _handle_message_part_updated.
  fold part. fold message_id. fold part_id. fold key. fold part_type.
  apply nonempty_true in Hm. apply nonempty_true in Hp. rewrite Hm, Hp.
  cbn [negb orb].
  subst event_dt.
  destruct (_event_captured_at payload (ticks w)) as [event_dt n1].
  cbn [fst] in Hfresh. rewrite Hfresh.
  unfold marked in Hmark. cbn [emitted with_part_last_seen messages].
  rewrite Hmark, Hrole, lower_empty. cbn [PyStr.nonempty negb].
  rewrite Hstruct.
  destruct (String.eqb_spec part_type "text") as [E|_]; [contradiction|].
  unfold bucket_part. cbn. unfold part_at, store_part.
  fold key. rewrite !get_set_eq. cbn [or_empty]. rewrite get_set_eq.
  repeat split; reflexivity.
Qed.

(* ================================================================ *)
(** * What every operation preserves *)

Lemma keeps_refl {V : Type} (d : dict V) : keeps d d.
Proof. intros k H. exact H. Qed.

Lemma keeps_set {V : Type} (k : string) (v : V) (d : dict V) :
  keeps d (Dict.set k v d).
Proof. intros k' H. now apply mem_set. Qed.

Lemma keeps_trans {V : Type} (a b c : dict V) :
  keeps a b -> keeps b c -> keeps a c.
Proof. intros H1 H2 k H. auto. Qed.

Lemma watermarks_refl (st : State) : watermarks_kept st st.
Proof. repeat split; apply keeps_refl. Qed.

Lemma watermarks_trans (a b c : State) :
  watermarks_kept a b -> watermarks_kept b c -> watermarks_kept a c.
Proof.
  intros (A1 & A2 & A3 & A4) (B1 & B2 & B3 & B4).
  repeat split; eapply keeps_trans; eassumption.
Qed.

Lemma guarded_refl (w : World) : guarded w w.
Proof. intros s m. split; [split|split]; auto; lia. Qed.

Lemma guarded_trans (a b c : World) : guarded a b -> guarded b c -> guarded a c.
Proof.
  intros Hab Hbc s m.
  destruct (Hab s m) as ((A1 & A2) & A3 & A4).
  destruct (Hbc s m) as ((B1 & B2) & B3 & B4).
  assert (Hcase : calls_for s m (sink b) = calls_for s m (sink a)
                  \/ (calls_for s m (sink a) < calls_for s m (sink b))%nat) by lia.
  split; [split|split].
  - lia.
  - destruct Hcase as [E|L]; [lia|].
    destruct (B3 (A4 L)) as [_ E]. lia.
  - intros H. destruct (A3 H) as [Hb E]. destruct (B3 Hb) as [Hc E'].
    split; [exact Hc|lia].
  - intros L. destruct Hcase as [E|L'].
    + apply B4. lia.
    + now destruct (B3 (A4 L')).
Qed.

Lemma orderly_refl (w : World) : orderly w w.
Proof. split; [apply watermarks_refl|apply guarded_refl]. Qed.

Lemma orderly_trans (a b c : World) : orderly a b -> orderly b c -> orderly a c.
Proof.
  intros [A1 A2] [B1 B2]. split;
    [eapply watermarks_trans|eapply guarded_trans]; eassumption.
Qed.

(** A step that touches neither the markers nor the sink. *)
Lemma orderly_quiet (w : World) (st' : State) (n : nat) :
  emitted st' = emitted (state w) ->
  watermarks_kept (state w) st' ->
  orderly w (mkWorld st' n (sink w)).
Proof.
  intros He Hw. split; [exact Hw|].
  intros s m. unfold marked. cbn [state sink]. rewrite He.
  split; [split|split]; auto; lia.
Qed.

Lemma calls_for_snoc (s m : string) (l : list SinkCall) (c : SinkCall) :
  calls_for s m (l ++ [c])
  = (calls_for s m l + (if is_call_for s m c then 1 else 0))%nat.
Proof.
  unfold calls_for. rewrite filter_app, length_app. simpl.
  now destruct (is_call_for s m c).
Qed.

Lemma maybe_emit_orderly (w : World) (s0 m0 : string) (info : dict json) :
  orderly w (_maybe_emit_assistant_turn w s0 m0 info).
Proof.
  destruct (marked (_turn_key s0 m0) (state w)) eqn:Hm.
  { rewrite maybe_emit_marked by exact Hm. apply orderly_refl. }
  destruct (not_ready (fst (assemble_turn (state w) (ticks w) s0 m0 info)))
    eqn:Hr.
  { destruct (maybe_emit_not_ready w s0 m0 info Hr) as [-> | ->].
    - apply orderly_refl.
    - apply orderly_quiet; [reflexivity|apply watermarks_refl]. }
  rewrite (maybe_emit_emits w s0 m0 info Hm Hr).
  set (turn := fst (assemble_turn (state w) (ticks w) s0 m0 info)).
  set (n := snd (assemble_turn (state w) (ticks w) s0 m0 info)).
  set (stamp := JStr (datetime.isoformat (datetime.utc (clock n)))).
  destruct (purge_frame (_msg_key s0 m0) (user_key_of s0 info)
              (with_emitted (Dict.set (_turn_key s0 m0) stamp) (state w)))
    as (F1 & _ & F3 & F4 & _).
  split.
  - unfold watermarks_kept. cbn [state].
    rewrite F1, F3, F4, purge_emitted. cbn.
    repeat split; try apply keeps_refl. apply keeps_set.
  - intros s m. unfold marked. cbn [state sink].
    rewrite purge_emitted, calls_for_snoc. cbn [emitted with_emitted is_call_for].
    assert (Hset : forall t,
               truthy (jget t (emitted (state w))) = true ->
               truthy (jget t (Dict.set (_turn_key s0 m0) stamp
                                 (emitted (state w)))) = true).
    { intros t Ht. destruct (String.eqb_spec t (_turn_key s0 m0)) as [->|Hne].
      - rewrite jget_set_eq. apply isoformat_truthy.
      - now rewrite jget_set_neq. }
    destruct (String.eqb_spec s0 s) as [->|Hs];
      [destruct (String.eqb_spec m0 m) as [->|Hmm]|]; cbn [andb].
    + split; [split; lia|split].
      * intros H. unfold marked in Hm. congruence.
      * intros _. rewrite jget_set_eq. apply isoformat_truthy.
    + split; [split; lia|split]; [intros H; split; [auto|lia]|lia].
    + split; [split; lia|split]; [intros H; split; [auto|lia]|lia].
Qed.

(** An emission attempt leaves the watermarks, the message records and
    the pending parts as they were. *)
Lemma maybe_emit_frame (w : World) (s m : string) (info : dict json) :
  let st' := state (_maybe_emit_assistant_turn w s m info) in
  message_last_seen st' = message_last_seen (state w)
  /\ part_last_seen st' = part_last_seen (state w)
  /\ messages st' = messages (state w)
  /\ pending_parts st' = pending_parts (state w).
Proof.
  intros st'. subst st'.
  destruct (marked (_turn_key s m) (state w)) eqn:Hm.
  { rewrite maybe_emit_marked by exact Hm. auto. }
  destruct (not_ready (fst (assemble_turn (state w) (ticks w) s m info))) eqn:Hr.
  { destruct (maybe_emit_not_ready w s m info Hr) as [-> | ->]; auto. }
  rewrite (maybe_emit_emits w s m info Hm Hr). cbn [state].
  match goal with
  | |- context [purge_buffers ?a ?u ?st] =>
      destruct (purge_frame a u st) as (F1 & F2 & F3 & F4 & _)
  end.
  rewrite F1, F2, F3, F4. auto.
Qed.

Lemma maybe_emit_message_last_seen (w : World) (s m : string) (info : dict json) :
  message_last_seen (state (_maybe_emit_assistant_turn w s m info))
  = message_last_seen (state w).
Proof. apply maybe_emit_frame. Qed.

Lemma maybe_emit_part_last_seen (w : World) (s m : string) (info : dict json) :
  part_last_seen (state (_maybe_emit_assistant_turn w s m info))
  = part_last_seen (state w).
Proof. apply maybe_emit_frame. Qed.


Lemma cleanup_frame (st : State) (s m : string) :
  messages (_cleanup_emitted_message_buffers st s m) = messages st
  /\ user_parts (_cleanup_emitted_message_buffers st s m) = user_parts st
  /\ pending_parts (_cleanup_emitted_message_buffers st s m) = pending_parts st
  /\ message_last_seen (_cleanup_emitted_message_buffers st s m)
     = message_last_seen st
  /\ part_last_seen (_cleanup_emitted_message_buffers st s m) = part_last_seen st
  /\ emitted (_cleanup_emitted_message_buffers st s m) = emitted st
  /\ session_lifecycle (_cleanup_emitted_message_buffers st s m)
     = session_lifecycle st.
Proof. repeat split. Qed.

Lemma cleanup_watermarks (st : State) (s m : string) :
  watermarks_kept st (_cleanup_emitted_message_buffers st s m).
Proof. repeat split; apply keeps_refl. Qed.

(* ================================================================ *)
(** * The handlers, branch by branch *)

Ltac fields :=
  cbn [state sink ticks messages message_events user_parts assistant_parts
       assistant_finish_seen pending_parts message_last_seen part_last_seen
       emitted session_lifecycle with_messages with_message_events
       with_user_parts with_assistant_parts with_assistant_finish_seen
       with_pending_parts with_message_last_seen with_part_last_seen
       with_emitted with_session_lifecycle with_state with_bucket
       _cleanup_emitted_message_buffers fst snd] in *.

Ltac branch :=
  match goal with
  | |- context [if ?b then _ else _] => destruct b eqn:?
  | |- context [match ?x with (_, _) => _ end] => destruct x eqn:?
  end.

Ltac open_handler :=
  cbv zeta; unfold _append_message_event, _iso_now;
  cbv beta iota zeta; repeat branch.

Ltac kept :=
  unfold watermarks_kept; fields;
  repeat split; auto using keeps_refl, keeps_set.

Ltac quiet := apply orderly_quiet; [fields; reflexivity | kept].

Ltac orderly_branch :=
  first
    [ apply orderly_refl
    | quiet
    | eapply orderly_trans; [|apply maybe_emit_orderly]; quiet ].

Lemma message_updated_orderly (w : World) (payload : dict json) (s : string) :
  orderly w (_handle_message_updated w payload s).
Proof. unfold _handle_message_updated. open_handler; orderly_branch. Qed.

Lemma part_updated_orderly (w : World) (payload : dict json) (s : string) :
  orderly w (_handle_message_part_updated w payload s).
Proof.
  unfold _handle_message_part_updated, bucket_part.
  open_handler; orderly_branch.
Qed.

Lemma flush_step_orderly (s : string) (w : World) (key : string) :
  orderly w (flush_step s w key).
Proof.
  unfold flush_step. open_handler;
    first [apply orderly_refl | quiet | apply maybe_emit_orderly].
Qed.

Lemma flush_orderly (w : World) (s reason : string) :
  orderly w (_flush_pending_assistant_turns w s reason).
Proof.
  unfold _flush_pending_assistant_turns.
  destruct (_ || _); [apply orderly_refl|].
  generalize (Dict.keys (assistant_parts (state w))). intros keys.
  revert w. induction keys as [|k keys IH]; intros w; simpl.
  - apply orderly_refl.
  - eapply orderly_trans; [apply flush_step_orderly|apply IH].
Qed.

Lemma lifecycle_trace_orderly (w : World) (p : dict json) (e s : string) :
  orderly w (_emit_lifecycle_trace w p e s).
Proof.
  split; [apply watermarks_refl|].
  intros s0 m0. unfold _emit_lifecycle_trace. cbn [state sink].
  rewrite calls_for_snoc. cbn [is_call_for].
  split; [split|split]; auto; lia.
Qed.

Lemma note_lifecycle_orderly (w : World) (p : dict json) (e s : string) :
  orderly w (note_lifecycle w p e s).
Proof. unfold note_lifecycle. open_handler; quiet. Qed.

Ltac chain :=
  repeat first
    [ apply orderly_refl
    | eapply orderly_trans;
      [| first [ apply lifecycle_trace_orderly
               | apply flush_orderly
               | apply note_lifecycle_orderly
               | apply message_updated_orderly
               | apply part_updated_orderly ] ] ].

Lemma main_orderly (stdin : option json) (w : World) : orderly w (main stdin w).
Proof. unfold main. cbv zeta. repeat branch; chain. Qed.


(** C10 (watermarks survive emission): the emission gate with its purge,
    the cleanup of an emitted message's buffers, both event handlers, the
    lifecycle flush and a whole invocation never remove a key from
    message_last_seen, part_last_seen, messages or emitted; and an
    emission attempt leaves message_last_seen, part_last_seen, messages
    and pending_parts exactly as they were. *)
Theorem C10_watermarks_survive :
  (forall w s m info,
      watermarks_kept (state w) (state (_maybe_emit_assistant_turn w s m info)))
  /\ (forall st s m,
      watermarks_kept st (_cleanup_emitted_message_buffers st s m))
  /\ (forall w payload s,
      watermarks_kept (state w) (state (_handle_message_updated w payload s)))
  /\ (forall w payload s,
      watermarks_kept (state w)
        (state (_handle_message_part_updated w payload s)))
  /\ (forall w s reason,
      watermarks_kept (state w)
        (state (_flush_pending_assistant_turns w s reason)))
  /\ (forall stdin w, watermarks_kept (state w) (state (main stdin w)))
  /\ (forall w s m info,
      let st' := state (_maybe_emit_assistant_turn w s m info) in
      message_last_seen st' = message_last_seen (state w)
      /\ part_last_seen st' = part_last_seen (state w)
      /\ messages st' = messages (state w)
      /\ pending_parts st' = pending_parts (state w)).
Proof.
  split; [intros; apply maybe_emit_orderly|].
  split; [intros; apply cleanup_watermarks|].
  split; [intros; apply message_updated_orderly|].
  split; [intros; apply part_updated_orderly|].
  split; [intros; apply flush_orderly|].
  split; [intros; apply main_orderly|].
  intros w s m info. apply maybe_emit_frame.
Qed.

(* ================================================================ *)
(** * At-most-once emission *)





(* ================================================================ *)
(** * Monotonic acceptance *)


Lemma message_updated_accepts (w : World) (payload : dict json) (s : string) :
  let info := _as_dict (jget "info" (_event_props payload)) in
  let message_id := str_or_empty (jget "id" info) in
  let key := _msg_key s message_id in
  let event_dt := fst (_event_captured_at payload (ticks w)) in
  PyStr.nonempty message_id = true ->
  _is_older_event (message_last_seen (state w)) key event_dt = false ->
  message_last_seen (state (_handle_message_updated w payload s))
  = Dict.set key (JStr (datetime.isoformat event_dt)) (message_last_seen (state w)).
Proof.
  intros info message_id key event_dt Hid Hfresh.
  unfold _handle_message_updated. cbv zeta.
  fold info. fold message_id. fold key. rewrite Hid. cbn [negb].
  subst event_dt.
  destruct (_event_captured_at payload (ticks w)) as [event_dt n1].
  cbn [fst] in Hfresh. rewrite Hfresh.
  open_handler; rewrite ?maybe_emit_message_last_seen; fields; reflexivity.
Qed.

Lemma bucket_part_part_last_seen
    (st : State) (n : nat) (snk : list SinkCall) (s m pid : string)
    (msg part : dict json) (ptype role : string) :
  part_last_seen (state (bucket_part st n snk s m pid msg part ptype role))
  = part_last_seen st.
Proof.
  unfold bucket_part.
  open_handler; rewrite ?maybe_emit_part_last_seen; fields; reflexivity.
Qed.

Lemma part_updated_accepts (w : World) (payload : dict json) (s : string) :
  let part := _as_dict (jget "part" (_event_props payload)) in
  let message_id := str_or_empty (jget "messageID" part) in
  let part_id := str_or_empty (jget "id" part) in
  let key := _msg_key s message_id ++ ":" ++ part_id in
  let event_dt := fst (_event_captured_at payload (ticks w)) in
  PyStr.nonempty message_id && PyStr.nonempty part_id = true ->
  _is_older_event (part_last_seen (state w)) key event_dt = false ->
  part_last_seen (state (_handle_message_part_updated w payload s))
  = Dict.set key (JStr (datetime.isoformat event_dt)) (part_last_seen (state w)).
Proof.
  intros part message_id part_id key event_dt Hid Hfresh.
  unfold _handle_message_part_updated. cbv zeta.
  fold part. fold message_id. fold part_id. fold key.
  apply andb_true_iff in Hid. destruct Hid as [Hm Hp]. rewrite Hm, Hp.
  cbn [negb orb].
  subst event_dt.
  destruct (_event_captured_at payload (ticks w)) as [event_dt n1].
  cbn [fst] in Hfresh. rewrite Hfresh.
  repeat branch; rewrite ?bucket_part_part_last_seen; fields; reflexivity.
Qed.


(* ================================================================ *)
(** * The turn assembler *)

(** ** What the assembled lists are expected to hold *)

(** ** The order *)

Lemma ascii_compare_trans_lt (x y z : ascii) :
  Ascii.compare x y = Lt -> Ascii.compare y z = Lt -> Ascii.compare x z = Lt.
Proof.
  unfold Ascii.compare. rewrite !N.compare_lt_iff. lia.
Qed.

Lemma ascii_compare_refl (x : ascii) : Ascii.compare x x = Eq.
Proof. unfold Ascii.compare. apply N.compare_refl. Qed.

Lemma string_leb_trans (a b c : string) :
  String.leb a b = true -> String.leb b c = true -> String.leb a c = true.
Proof.
  unfold String.leb. revert b c.
  induction a as [|x a IH]; intros [|y b] [|z c]; simpl; try easy.
  destruct (Ascii.compare x y) eqn:Exy; destruct (Ascii.compare y z) eqn:Eyz;
    try easy.
  - apply Ascii.compare_eq_iff in Exy, Eyz. subst.
    rewrite ascii_compare_refl. apply IH.
  - apply Ascii.compare_eq_iff in Exy. subst. now rewrite Eyz.
  - apply Ascii.compare_eq_iff in Eyz. subst. now rewrite Exy.
  - now rewrite (ascii_compare_trans_lt x y z Exy Eyz).
Qed.

Lemma key_leb_total (a b : datetime.t * string) :
  SortKey.leb a b = false -> SortKey.leb b a = true.
Proof.
  unfold SortKey.leb, datetime.ltb, datetime.eqb.
  destruct a as [ta sa], b as [tb sb]; simpl.
  destruct (Z.ltb_spec (datetime.instant ta) (datetime.instant tb)); [easy|].
  destruct (Z.eqb_spec (datetime.instant ta) (datetime.instant tb)) as [E|N]; simpl.
  - intros Hs. rewrite E, Z.ltb_irrefl, Z.eqb_refl. simpl.
    destruct (String.leb_total sa sb) as [L|L]; congruence.
  - intros _. destruct (Z.ltb_spec (datetime.instant tb) (datetime.instant ta));
      [reflexivity|lia].
Qed.

Lemma key_leb_trans (a b c : datetime.t * string) :
  SortKey.leb a b = true -> SortKey.leb b c = true -> SortKey.leb a c = true.
Proof.
  unfold SortKey.leb, datetime.ltb, datetime.eqb.
  destruct a as [ta sa], b as [tb sb], c as [tc sc]; simpl.
  rewrite !orb_true_iff, !andb_true_iff, !Z.ltb_lt, !Z.eqb_eq.
  intros [L1|[E1 S1]] [L2|[E2 S2]].
  - left. lia.
  - left. lia.
  - left. lia.
  - right. split; [lia|]. eapply string_leb_trans; eassumption.
Qed.

Section SortFacts.
Context {A : Type} (key : A -> datetime.t * string).

Lemma insert_perm (x : A) (l : list A) :
  Permutation (SortKey.insert key x l) (x :: l).
Proof.
  induction l as [|y l IH]; simpl; [reflexivity|].
  destruct (SortKey.leb (key x) (key y)); [reflexivity|].
  rewrite IH. apply perm_swap.
Qed.

Lemma sort_by_perm (l : list A) : Permutation (SortKey.sort_by key l) l.
Proof.
  induction l as [|x l IH]; simpl; [reflexivity|].
  rewrite insert_perm. now apply perm_skip.
Qed.

Lemma insert_ascending (x : A) (l : list A) :
  ascending key l -> ascending key (SortKey.insert key x l).
Proof.
  unfold ascending. induction l as [|y l IH]; intros Hl; simpl.
  - constructor; constructor.
  - destruct (SortKey.leb (key x) (key y)) eqn:E.
    + constructor; [exact Hl|]. constructor; [exact E|].
      inversion Hl as [|? ? _ Hall]; subst.
      eapply Forall_impl; [|exact Hall]. intros z Hz.
      eapply key_leb_trans; eassumption.
    + inversion Hl as [|? ? Hl' Hall]; subst.
      constructor; [now apply IH|].
      assert (Hp : Permutation (SortKey.insert key x l) (x :: l))
        by apply insert_perm.
      eapply Permutation_Forall; [symmetry; exact Hp|].
      constructor; [now apply key_leb_total|exact Hall].
Qed.

Lemma sort_by_ascending (l : list A) : ascending key (SortKey.sort_by key l).
Proof.
  induction l as [|x l IH]; simpl; [constructor|].
  now apply insert_ascending.
Qed.
End SortFacts.

(** ** The loops *)

Lemma details_step_spec (acc : Rows) (part : json) :
  let p := _as_dict part in
  let pt := (p, fst (part_ts p (rows_ticks acc))) in
  let acc' := details_step acc part in
  text_rows acc'
  = (text_rows acc ++ (if is_text_part p then [text_row pt] else []))%list
  /\ tools acc'
     = (tools acc ++ (if is_terminal_tool p then [tool_row pt] else []))%list
  /\ rows_ticks acc' = snd (part_ts p (rows_ticks acc)).
Proof.
  intros p pt acc'. subst acc' pt.
  unfold details_step, is_text_part, is_terminal_tool, text_row, tool_row,
    text_string, tool_status.
  fold p. destruct (part_ts p (rows_ticks acc)) as [ts n]. cbn [fst snd].
  destruct (String.eqb_spec (str_or_empty (jget "type" p)) "text") as [E|_].
  { rewrite E. cbn [String.eqb Ascii.eqb Bool.eqb andb].
    destruct (jget "text" p); cbn [PyStr.nonempty text_rows tools rows_ticks];
      rewrite ?app_nil_r; auto.
    destruct (PyStr.nonempty s); cbn [text_rows tools rows_ticks];
      rewrite ?app_nil_r; auto. }
  cbn [andb].
  destruct (String.eqb_spec (str_or_empty (jget "type" p)) "reasoning") as [E|_].
  { rewrite E. cbn [String.eqb Ascii.eqb Bool.eqb andb].
    destruct (jget "text" p); cbn [text_rows tools rows_ticks];
      rewrite ?app_nil_r; auto.
    destruct (PyStr.nonempty s); cbn [text_rows tools rows_ticks];
      rewrite ?app_nil_r; auto. }
  destruct (String.eqb (str_or_empty (jget "type" p)) "tool"); cbn [andb].
  - destruct (str_in _ _); cbn [negb text_rows tools rows_ticks];
      rewrite ?app_nil_r; auto.
  - cbn [text_rows tools rows_ticks]. rewrite ?app_nil_r; auto.
Qed.

Lemma fold_details (parts : list json) (acc : Rows) :
  let acc' := fold_left details_step parts acc in
  let stamped := stamp_all parts (rows_ticks acc) in
  text_rows acc'
  = (text_rows acc
     ++ map text_row (filter (fun pt => is_text_part (fst pt)) stamped))%list
  /\ tools acc'
     = (tools acc
        ++ map tool_row (filter (fun pt => is_terminal_tool (fst pt)) stamped))%list.
Proof.
  revert acc. induction parts as [|part rest IH]; intros acc; simpl.
  - rewrite !app_nil_r. auto.
  - destruct (details_step_spec acc part) as (Ht & Hl & Hn).
    destruct (IH (details_step acc part)) as [IHt IHl].
    rewrite IHt, IHl, Ht, Hl, Hn. cbn [fst].
    split.
    + destruct (is_text_part (_as_dict part)); simpl;
        rewrite <- ?app_assoc; reflexivity.
    + destruct (is_terminal_tool (_as_dict part)); simpl;
        rewrite <- ?app_assoc; reflexivity.
Qed.

Lemma extract_step_spec (rows : list TextRow) (n : nat) (part : json) :
  let p := _as_dict part in
  extract_step (rows, n) part
  = if is_text_part_strict p
    then ((rows ++ [text_row (p, fst (part_ts p n))])%list, snd (part_ts p n))
    else (rows, n).
Proof.
  intros p. unfold extract_step, is_text_part_strict, text_row, text_string.
  fold p. cbn [fst snd].
  destruct (is_str (jget "type" p) "text"); cbn [negb andb]; [|reflexivity].
  destruct (jget "text" p); try reflexivity.
  destruct (PyStr.nonempty s); cbn [negb]; [|reflexivity].
  now destruct (part_ts p n).
Qed.

Lemma fold_extract (parts : list json) (rows : list TextRow) (n : nat) :
  fst (fold_left extract_step parts (rows, n))
  = (rows ++ map text_row (stamp_text parts n))%list.
Proof.
  revert rows n. induction parts as [|part rest IH]; intros rows n;
    cbn [fold_left stamp_text].
  - cbn [map fst]. now rewrite app_nil_r.
  - rewrite extract_step_spec.
    destruct (is_text_part_strict (_as_dict part)).
    + rewrite IH. cbn [map]. now rewrite <- app_assoc.
    + apply IH.
Qed.

Lemma stamp_all_parts (parts : list json) (n : nat) :
  map fst (stamp_all parts n) = map _as_dict parts.
Proof.
  revert n. induction parts as [|part rest IH]; intros n; simpl;
    [reflexivity|now rewrite IH].
Qed.

Lemma filter_stamped (f : dict json -> bool) (l : list (dict json * datetime.t)) :
  map fst (filter (fun pt => f (fst pt)) l) = filter f (map fst l).
Proof.
  induction l as [|pt l IH]; simpl; [reflexivity|].
  destruct (f (fst pt)); simpl; now rewrite IH.
Qed.

Lemma stamp_text_parts (parts : list json) (n : nat) :
  map fst (stamp_text parts n) = filter is_text_part_strict (map _as_dict parts).
Proof.
  revert n. induction parts as [|part rest IH]; intros n; simpl; [reflexivity|].
  destruct (is_text_part_strict (_as_dict part)); simpl; now rewrite IH.
Qed.

(** C7, as the code has it (assembled text order): the assembled output
    text is the newline-joined text of exactly the parts of type text with
    non-empty text, in ascending (timestamp, part id) order, with leading
    and trailing whitespace stripped from the joined string; a part
    without a start time that parses is ordered by the clock reading taken
    when it is visited.  The input text is built from the user message's
    parts by the same rule. *)
Theorem C7_assembled_text_order (parts_map : dict json) (n : nat) :
  let parts := Dict.values parts_map in
  let out_parts := filter (fun pt => is_text_part (fst pt)) (stamp_all parts n) in
  let in_parts := stamp_text parts n in
  fst (fst (fst (_build_turn_details parts_map n)))
  = PyStr.strip (joined_text (map text_row out_parts))
  /\ fst (_extract_text_from_parts parts_map n)
     = PyStr.strip (joined_text (map text_row in_parts))
  /\ map fst out_parts = filter is_text_part (map _as_dict parts)
  /\ map fst in_parts = filter is_text_part_strict (map _as_dict parts)
  /\ (forall rows : list TextRow,
        Permutation (SortKey.sort_by text_key rows) rows
        /\ ascending text_key (SortKey.sort_by text_key rows)).
Proof.
  intros parts out_parts in_parts. subst parts out_parts in_parts.
  split; [|split; [|split; [|split]]].
  - unfold _build_turn_details. cbn [fst].
    destruct (fold_details (Dict.values parts_map) (mkRows [] [] [] n)) as [Ht _].
    rewrite Ht. reflexivity.
  - unfold _extract_text_from_parts.
    pose proof (fold_extract (Dict.values parts_map) [] n) as H.
    destruct (fold_left extract_step (Dict.values parts_map) ([], n)) as [rows n'].
    cbn [fst] in *. rewrite H. reflexivity.
  - rewrite filter_stamped, stamp_all_parts. reflexivity.
  - apply stamp_text_parts.
  - intros rows. split; [apply sort_by_perm|apply sort_by_ascending].
Qed.

(** C8 (terminal-tool filtering): the assembled tool list holds exactly
    the parts of type tool whose state status is completed or error, one
    invocation each, in ascending (timestamp, part id) order; an
    invocation carries the part id, the tool name, the timestamp, the
    status, the serialised input, and as output text the state's output
    when the status is completed and the state's error when it is error. *)
Theorem C8_terminal_tool_filtering (parts_map : dict json) (n : nat) :
  let parts := Dict.values parts_map in
  let terminal :=
    filter (fun pt => is_terminal_tool (fst pt)) (stamp_all parts n) in
  let tools := snd (fst (_build_turn_details parts_map n)) in
  Permutation tools (map tool_row terminal)
  /\ ascending tool_key tools
  /\ map fst terminal = filter is_terminal_tool (map _as_dict parts)
  /\ (forall p,
        is_terminal_tool p = true <->
        str_or_empty (jget "type" p) = "tool"
        /\ (tool_status p = "completed" \/ tool_status p = "error"))
  /\ (forall p ts,
        let row := tool_row (p, ts) in
        let st := _as_dict (jget "state" p) in
        t_id row = str_or_empty (jget "id" p)
        /\ t_name row = py_or (jget "tool" p) (JStr "tool")
        /\ t_timestamp row = ts
        /\ t_status row = tool_status p
        /\ t_input row
           = match jget "input" st with
             | JObj _ | JArr _ => json_dumps (jget "input" st)
             | _ => str_or_empty (jget "input" st)
             end
        /\ (tool_status p = "completed" ->
            t_output row = str_or_empty (jget "output" st))
        /\ (tool_status p = "error" ->
            t_output row = str_or_empty (jget "error" st))).
Proof.
  intros parts terminal tls. subst parts terminal tls.
  assert (Htools :
    snd (fst (_build_turn_details parts_map n))
    = SortKey.sort_by tool_key
        (map tool_row
           (filter (fun pt => is_terminal_tool (fst pt))
              (stamp_all (Dict.values parts_map) n)))).
  { unfold _build_turn_details. cbn [fst snd].
    destruct (fold_details (Dict.values parts_map) (mkRows [] [] [] n)) as [_ Hl].
    rewrite Hl. reflexivity. }
  rewrite Htools.
  split; [apply sort_by_perm|].
  split; [apply sort_by_ascending|].
  split; [rewrite filter_stamped, stamp_all_parts; reflexivity|].
  split.
  - intros p. unfold is_terminal_tool, str_in. cbn [existsb].
    rewrite andb_true_iff, !orb_true_iff, !String.eqb_eq. intuition congruence.
  - intros p ts row st. subst row st. unfold tool_row. cbn [fst snd t_id t_name
      t_timestamp t_status t_input t_output].
    repeat split.
    + intros ->. reflexivity.
    + intros ->. reflexivity.
Qed.

(* ================================================================ *)
(** * Role disambiguation *)







End Properties.

(* ================================================================== *)
(** * Further properties of the hook *)

Section Coverage.
Context {env : Env}.

(* ================================================================ *)
(** * Truncation *)

Lemma bytes_app (a b : string) :
  PyStr.bytes (a ++ b) = (PyStr.bytes a ++ PyStr.bytes b)%list.
Proof.
  unfold PyStr.bytes. induction a as [|c a IH]; simpl; [reflexivity|].
  now rewrite IH.
Qed.


Lemma bytes_of_bytes (l : list ascii) : PyStr.bytes (PyStr.of_bytes l) = l.
Proof. apply list_ascii_of_string_of_list_ascii. Qed.

Lemma of_bytes_bytes (s : string) : PyStr.of_bytes (PyStr.bytes s) = s.
Proof. apply string_of_list_ascii_of_string. Qed.




(* ================================================================ *)
(** * Counting the parts by type *)

Lemma total_set (k : string) (v : Z) (d : dict Z) :
  total (Dict.set k v d)
  = total d - match Dict.get k d with Some c => c | None => 0 end + v.
Proof.
  unfold total, Dict.values.
  induction d as [|[k' v'] d IH]; simpl; [lia|].
  destruct (String.eqb k k'); simpl; [lia|]. rewrite IH. lia.
Qed.

Lemma count_step_get (counts : dict Z) (part : json) (t : string) :
  Dict.get t (count_step counts part)
  = if String.eqb (part_type_name part) t
    then Some (match Dict.get t counts with Some c => c | None => 0 end + 1)
    else Dict.get t counts.
Proof.
  unfold count_step. fold (part_type_name part).
  destruct (String.eqb_spec (part_type_name part) t) as [->|Hne].
  - apply get_set_eq.
  - apply get_set_neq. congruence.
Qed.

Lemma fold_count_get (parts : list json) (counts : dict Z) (t : string) :
  let k := Z.of_nat
             (List.length
                (filter (fun p => String.eqb (part_type_name p) t) parts)) in
  Dict.get t (fold_left count_step parts counts)
  = if k =? 0 then Dict.get t counts
    else Some (match Dict.get t counts with Some c => c | None => 0 end + k).
Proof.
  revert counts. induction parts as [|part rest IH]; intros counts; cbv zeta.
  - reflexivity.
  - cbn [fold_left filter]. cbv zeta in IH. rewrite IH, count_step_get.
    set (k := List.length
                (filter (fun p => String.eqb (part_type_name p) t) rest)).
    destruct (String.eqb (part_type_name part) t); cbn [List.length];
      fold k; [|reflexivity].
    destruct (Z.eqb_spec (Z.of_nat k) 0) as [E|E];
      destruct (Z.eqb_spec (Z.of_nat (S k)) 0); try lia.
    + f_equal. lia.
    + f_equal. lia.
Qed.

Lemma fold_count_total (parts : list json) (counts : dict Z) :
  total (fold_left count_step parts counts)
  = total counts + Z.of_nat (List.length parts).
Proof.
  revert counts. induction parts as [|part rest IH]; intros counts.
  - simpl. lia.
  - cbn [fold_left List.length]. rewrite IH. unfold count_step.
    rewrite total_set. lia.
Qed.

(** X2 (parts counted by type): the counts [_parts_type_counts] reports
    are exact: a type is listed when some part has it, with the number of
    parts that have it (a part without a type counts as [unknown]); and
    the counts add up to the number of parts. *)
Theorem X2_type_counts_exact (parts_map : dict json) :
  let counts := _parts_type_counts parts_map in
  (forall t,
      let k := List.length
                 (filter (fun p => String.eqb (part_type_name p) t)
                    (Dict.values parts_map)) in
      Dict.get t counts = if Nat.eqb k 0 then None else Some (Z.of_nat k))
  /\ total counts = Z.of_nat (List.length parts_map).
Proof.
  intros counts. subst counts. unfold _parts_type_counts. split.
  - intros t. cbv zeta.
    pose proof (fold_count_get (Dict.values parts_map) [] t) as H.
    cbv zeta in H. rewrite H. cbn [Dict.get].
    destruct (List.length _) as [|k]; [reflexivity|].
    destruct (Z.eqb_spec (Z.of_nat (S k)) 0); [lia|reflexivity].
  - rewrite fold_count_total. unfold Dict.values, total. cbn [map fold_right].
    now rewrite length_map.
Qed.

(* ================================================================ *)
(** * Loading the state *)

Lemma get_setdefault {V : Type} (k k' : string) (v : V) (d : dict V) :
  Dict.get k (Dict.setdefault k' v d)
  = match Dict.get k d with
    | Some x => Some x
    | None => if String.eqb k k' then Some v else None
    end.
Proof.
  unfold Dict.setdefault. destruct (Dict.get k' d) as [x|] eqn:E.
  - destruct (Dict.get k d) as [y|] eqn:Ek; [reflexivity|].
    destruct (String.eqb_spec k k'); [congruence|reflexivity].
  - destruct (String.eqb_spec k k') as [->|Hne].
    + now rewrite get_set_eq, E.
    + rewrite get_set_neq by exact Hne. now destruct (Dict.get k d).
Qed.

Lemma get_setdefaults {V : Type} (keys : list string) (v : V) (k : string)
    (d : dict V) :
  Dict.get k (fold_left (fun d k => Dict.setdefault k v d) keys d)
  = match Dict.get k d with
    | Some x => Some x
    | None => if str_in k keys then Some v else None
    end.
Proof.
  revert d. induction keys as [|k' keys IH]; intros d; cbn [fold_left str_in existsb].
  - now destruct (Dict.get k d).
  - rewrite IH, get_setdefault.
    destruct (Dict.get k d); [reflexivity|].
    destruct (String.eqb k k'); [reflexivity|]. reflexivity.
Qed.

Lemma setdefaults_present {V : Type} (keys : list string) (v : V) (d : dict V) :
  (forall k, In k keys -> Dict.mem k d) ->
  fold_left (fun d k => Dict.setdefault k v d) keys d = d.
Proof.
  revert d. induction keys as [|k' keys IH]; intros d H; cbn [fold_left];
    [reflexivity|].
  assert (E : Dict.setdefault k' v d = d).
  { unfold Dict.setdefault. specialize (H k' (or_introl eq_refl)).
    unfold Dict.mem in H. now destruct (Dict.get k' d). }
  rewrite E. apply IH. intros k Hk. apply H. now right.
Qed.

Lemma str_in_In (k : string) (l : list string) : str_in k l = true <-> In k l.
Proof.
  unfold str_in. rewrite existsb_exists. split.
  - intros (x & Hx & E). apply String.eqb_eq in E. now subst.
  - intros H. exists k. split; [exact H|apply String.eqb_refl].
Qed.

(** X3 (loading the state): whatever the state file holds, the document
    [_load_state] returns has each of the ten maps; a file that is missing,
    unreadable or not a JSON object gives ten empty maps; from a JSON
    object every entry is kept as it is, a missing map is added empty and
    nothing else is added; and a document that was loaded (or any that has
    the ten maps) loads back unchanged. *)
Theorem X3_load_state_total (file : option json) :
  let st := _load_state file in
  (forall k, In k state_keys -> Dict.mem k st)
  /\ (forall data k,
        file = Some (JObj data) ->
        Dict.get k st
        = match Dict.get k data with
          | Some v => Some v
          | None => if str_in k state_keys then Some (JObj []) else None
          end)
  /\ ((forall data, file <> Some (JObj data)) ->
      forall k,
        Dict.get k st = if str_in k state_keys then Some (JObj []) else None)
  /\ _load_state (Some (JObj st)) = st.
Proof.
  intros st.
  assert (Hget : forall data k,
    file = Some (JObj data) ->
    Dict.get k st
    = match Dict.get k data with
      | Some v => Some v
      | None => if str_in k state_keys then Some (JObj []) else None
      end).
  { intros data k ->. subst st. unfold _load_state. apply get_setdefaults. }
  assert (Hfresh : (forall data, file <> Some (JObj data)) ->
    forall k,
      Dict.get k st = if str_in k state_keys then Some (JObj []) else None).
  { intros Hno k. subst st.
    assert (E : _load_state file = map (fun k => (k, JObj [])) state_keys).
    { destruct file as [[| | | | |data]|]; try reflexivity.
      now destruct (Hno data). }
    rewrite E. cbn. repeat (destruct (String.eqb k _); [reflexivity|]).
    reflexivity. }
  assert (Hall : forall k, In k state_keys -> Dict.mem k st).
  { intros k Hk. unfold Dict.mem. apply str_in_In in Hk.
    destruct file as [[| | | | |data]|];
      try (rewrite Hfresh by (intros d; discriminate); rewrite Hk; discriminate).
    rewrite (Hget data k eq_refl), Hk. now destruct (Dict.get k data). }
  split; [exact Hall|]. split; [exact Hget|]. split; [exact Hfresh|].
  unfold _load_state at 1. now apply setdefaults_present.
Qed.

(* ================================================================ *)
(** * The [.env] file *)

Lemma dotenv_step_keeps (environ environ' : dict string) (line k v : string) :
  dotenv_step environ line = Some environ' ->
  Dict.get k environ = Some v -> Dict.get k environ' = Some v.
Proof.
  unfold dotenv_step. cbv zeta. intros Hstep Hk.
  destruct (negb _ || _); [injection Hstep as <-; exact Hk|].
  destruct (PyText.split_once _ _) as [[key value]|];
    [|injection Hstep as <-; exact Hk].
  destruct (PyStr.nonempty _ && negb (environ_has _ environ)) eqn:Hnew;
    [|injection Hstep as <-; exact Hk].
  destruct (_ || _); [discriminate|]. injection Hstep as <-.
  apply andb_true_iff in Hnew. destruct Hnew as [_ Hnew].
  rewrite get_set_neq; [exact Hk|].
  intros ->. unfold environ_has in Hnew. now rewrite Hk in Hnew.
Qed.

Lemma dotenv_lines_keep (lines : list string) (environ : dict string)
    (k v : string) :
  Dict.get k environ = Some v -> Dict.get k (dotenv_lines lines environ) = Some v.
Proof.
  revert environ. induction lines as [|line rest IH]; intros environ Hk;
    cbn [dotenv_lines]; [exact Hk|].
  destruct (dotenv_step environ line) as [environ'|] eqn:E; [|exact Hk].
  apply IH. eapply dotenv_step_keeps; eassumption.
Qed.

Lemma dotenv_lines_app (l1 l2 : list string) (environ : dict string) :
  dotenv_lines (l1 ++ l2) environ = dotenv_lines l1 environ
  \/ dotenv_lines (l1 ++ l2) environ = dotenv_lines l2 (dotenv_lines l1 environ).
Proof.
  revert environ. induction l1 as [|line rest IH]; intros environ;
    cbn [dotenv_lines app]; [now right|].
  destruct (dotenv_step environ line) as [environ'|]; [apply IH|now left].
Qed.

(** X4 (the .env file never overrides): [_load_dotenv] leaves every
    variable the process environment already has with the value it has;
    among the lines of the file the first one that sets a name wins, as
    later lines find the name set; so a TRACE_TO_LANGFUSE of the process
    environment decides the gate of [main] whatever the file says. *)
Theorem X4_dotenv_never_overrides (text : option string) (environ : dict string) :
  let environ' := _load_dotenv text environ in
  (forall k v, Dict.get k environ = Some v -> Dict.get k environ' = Some v)
  /\ (forall l1 l2 k v,
        Dict.get k (dotenv_lines l1 environ) = Some v ->
        Dict.get k (dotenv_lines (l1 ++ l2) environ) = Some v)
  /\ (environ_has "TRACE_TO_LANGFUSE" environ = true ->
      tracing_enabled environ' = tracing_enabled environ).
Proof.
  intros environ'.
  assert (Hkeep : forall k v,
    Dict.get k environ = Some v -> Dict.get k environ' = Some v).
  { intros k v Hk. subst environ'. destruct text as [t|]; [|exact Hk].
    now apply dotenv_lines_keep. }
  split; [exact Hkeep|]. split.
  - intros l1 l2 k v Hk.
    destruct (dotenv_lines_app l1 l2 environ) as [-> | ->]; [exact Hk|].
    now apply dotenv_lines_keep.
  - unfold environ_has, tracing_enabled, environ_get. intros Hset.
    destruct (Dict.get "TRACE_TO_LANGFUSE" environ) as [v|] eqn:E;
      [|discriminate].
    now rewrite (Hkeep _ _ E).
Qed.

(* ================================================================ *)
(** * The log levels *)

Lemma level_value_range (name : string) : 10 <= level_value name <= 40.
Proof.
  unfold level_value, _LOG_LEVELS. cbn [Dict.get].
  repeat (destruct (String.eqb name _); [lia|]). lia.
Qed.

(** X5 (what is logged): a message of level ERROR is written whatever
    the environment sets as the log level; and when OPENCODE_LANGFUSE_DEBUG
    is one of 1, true, yes, on (in any case, blanks around it ignored),
    every message is written, whatever its level and the log level set. *)
Theorem X5_log_levels (environ : dict string) (message : string)
    (log : list string) :
  _log environ "ERROR" message log = (log ++ [message])%list
  /\ (str_in
        (PyStr.lower
           (PyStr.strip (environ_get "OPENCODE_LANGFUSE_DEBUG" "" environ)))
        ["1"; "true"; "yes"; "on"] = true ->
      forall level, _log environ level message log = (log ++ [message])%list).
Proof.
  split.
  - unfold _log. cbv zeta.
    change (PyText.upper (PyStr.strip (if PyStr.nonempty "ERROR" then "ERROR" else "INFO")))
      with "ERROR".
    change (level_value "ERROR") with 40.
    change (level_value "DEBUG") with 10.
    destruct (str_in _ _); [reflexivity|].
    pose proof (level_value_range
                  (PyText.upper
                     (PyStr.strip
                        (environ_get "OPENCODE_LANGFUSE_LOG_LEVEL" "INFO" environ)))).
    destruct (Z.ltb_spec 40
                (level_value
                   (PyText.upper
                      (PyStr.strip
                         (environ_get "OPENCODE_LANGFUSE_LOG_LEVEL" "INFO" environ)))));
      [lia|reflexivity].
  - intros Hdebug level. unfold _log. cbv zeta. rewrite Hdebug.
    change (level_value "DEBUG") with 10.
    pose proof (level_value_range
                  (PyText.upper
                     (PyStr.strip (if PyStr.nonempty level then level else "INFO")))).
    destruct (Z.ltb_spec
                (level_value
                   (PyText.upper
                      (PyStr.strip (if PyStr.nonempty level then level else "INFO"))))
                10); [lia|reflexivity].
Qed.

(* ================================================================ *)
(** * The child spans of a turn *)

Lemma timeline_leb_total (a b : TimelineItem) :
  timeline_leb a b = false -> timeline_leb b a = true.
Proof.
  unfold timeline_leb, datetime.ltb, datetime.eqb.
  destruct (Z.ltb_spec (datetime.instant (item_ts a)) (datetime.instant (item_ts b)));
    [easy|].
  destruct (Z.eqb_spec (datetime.instant (item_ts a)) (datetime.instant (item_ts b)))
    as [E|N]; cbn [orb andb].
  - rewrite E, Z.ltb_irrefl, Z.eqb_refl. cbn [orb andb].
    destruct a, b; cbn [item_kind item_id];
      change (String.ltb "reasoning" "reasoning") with false;
      change (String.ltb "tool" "tool") with false;
      change (String.ltb "reasoning" "tool") with true;
      change (String.ltb "tool" "reasoning") with false;
      change (String.eqb "reasoning" "reasoning") with true;
      change (String.eqb "tool" "tool") with true;
      change (String.eqb "reasoning" "tool") with false;
      change (String.eqb "tool" "reasoning") with false;
      cbn [orb andb]; try easy.
    + intros Hs. destruct (String.leb_total (r_id row) (r_id row0)); congruence.
    + intros Hs. destruct (String.leb_total (t_id row) (t_id row0)); congruence.
  - intros _.
    destruct (Z.ltb_spec (datetime.instant (item_ts b)) (datetime.instant (item_ts a)));
      [reflexivity|lia].
Qed.

Lemma timeline_leb_trans (a b c : TimelineItem) :
  timeline_leb a b = true -> timeline_leb b c = true -> timeline_leb a c = true.
Proof.
  unfold timeline_leb, datetime.ltb, datetime.eqb.
  rewrite !orb_true_iff, !andb_true_iff, !Z.ltb_lt, !Z.eqb_eq.
  intros [L1|[E1 K1]] [L2|[E2 K2]]; try (left; lia).
  right. split; [lia|].
  rewrite !orb_true_iff, !andb_true_iff in *.
  destruct a, b, c; cbn [item_kind item_id] in *;
    change (String.ltb "reasoning" "reasoning") with false in *;
    change (String.ltb "tool" "tool") with false in *;
    change (String.ltb "reasoning" "tool") with true in *;
    change (String.ltb "tool" "reasoning") with false in *;
    change (String.eqb "reasoning" "reasoning") with true in *;
    change (String.eqb "tool" "tool") with true in *;
    change (String.eqb "reasoning" "tool") with false in *;
    change (String.eqb "tool" "reasoning") with false in *;
    try (now left);
    try (destruct K1 as [K1|[K1 _]]; discriminate);
    try (destruct K2 as [K2|[K2 _]]; discriminate).
  - right. split; [reflexivity|].
    destruct K1 as [K1|[_ K1]]; [discriminate|].
    destruct K2 as [K2|[_ K2]]; [discriminate|].
    eapply string_leb_trans; eassumption.
  - right. split; [reflexivity|].
    destruct K1 as [K1|[_ K1]]; [discriminate|].
    destruct K2 as [K2|[_ K2]]; [discriminate|].
    eapply string_leb_trans; eassumption.
Qed.

Lemma timeline_insert_perm (x : TimelineItem) (l : list TimelineItem) :
  Permutation (timeline_insert x l) (x :: l).
Proof.
  induction l as [|y l IH]; simpl; [reflexivity|].
  destruct (timeline_leb x y); [reflexivity|].
  rewrite IH. apply perm_swap.
Qed.

Lemma timeline_perm (l : list TimelineItem) :
  Permutation (fold_right timeline_insert [] l) l.
Proof.
  induction l as [|x l IH]; simpl; [reflexivity|].
  rewrite timeline_insert_perm. now apply perm_skip.
Qed.

Lemma timeline_insert_sorted (x : TimelineItem) (l : list TimelineItem) :
  StronglySorted (fun a b => timeline_leb a b = true) l ->
  StronglySorted (fun a b => timeline_leb a b = true) (timeline_insert x l).
Proof.
  induction l as [|y l IH]; intros Hl; simpl.
  - constructor; constructor.
  - destruct (timeline_leb x y) eqn:E.
    + constructor; [exact Hl|]. constructor; [exact E|].
      inversion Hl as [|? ? _ Hall]; subst.
      eapply Forall_impl; [|exact Hall]. intros z Hz.
      eapply timeline_leb_trans; eassumption.
    + inversion Hl as [|? ? Hl' Hall]; subst.
      constructor; [now apply IH|].
      eapply Permutation_Forall; [symmetry; apply timeline_insert_perm|].
      constructor; [now apply timeline_leb_total|exact Hall].
Qed.

Lemma timeline_sorted (l : list TimelineItem) :
  StronglySorted (fun a b => timeline_leb a b = true)
    (fold_right timeline_insert [] l).
Proof.
  induction l as [|x l IH]; simpl; [constructor|].
  now apply timeline_insert_sorted.
Qed.

Lemma span_starts_items (t_cursor : datetime.t) (items : list TimelineItem) :
  map fst (span_starts t_cursor items) = items.
Proof.
  revert t_cursor. induction items as [|x items IH]; intros t_cursor; simpl;
    [reflexivity|now rewrite IH].
Qed.

Lemma span_starts_after (t_cursor : datetime.t) (items : list TimelineItem) :
  Forall
    (fun x =>
       datetime.instant t_cursor < datetime.instant (snd x)
       /\ datetime.instant (item_ts (fst x)) <= datetime.instant (snd x))
    (span_starts t_cursor items).
Proof.
  revert t_cursor. induction items as [|x items IH]; intros t_cursor;
    cbn [span_starts]; [constructor|]. cbv zeta.
  set (start := if datetime.ltb t_cursor (item_ts x) then item_ts x
                else plus t_cursor step).
  assert (H : datetime.instant t_cursor < datetime.instant start
              /\ datetime.instant (item_ts x) <= datetime.instant start).
  { subst start. unfold datetime.ltb, plus, step.
    destruct (Z.ltb_spec (datetime.instant t_cursor) (datetime.instant (item_ts x)));
      cbn [datetime.instant]; lia. }
  constructor; [exact H|].
  eapply Forall_impl; [|apply IH]. intros y [Hy1 Hy2].
  split; [|exact Hy2]. unfold plus, step in Hy1. cbn [datetime.instant] in Hy1. lia.
Qed.

Lemma span_starts_apart (t_cursor : datetime.t) (items : list TimelineItem) :
  StronglySorted
    (fun a b => datetime.instant (snd a) + step < datetime.instant (snd b))
    (span_starts t_cursor items).
Proof.
  revert t_cursor. induction items as [|x items IH]; intros t_cursor; simpl;
    [constructor|].
  constructor; [apply IH|].
  eapply Forall_impl; [|apply span_starts_after]. intros y [Hy _].
  cbn [snd]. unfold plus in Hy. cbn [datetime.instant] in Hy. exact Hy.
Qed.

(** X6 (the child spans of a turn): [_emit_turn_trace] opens one span per
    reasoning block and per tool call, visiting them in ascending
    (timestamp, kind, id) order; every span starts later than one
    millisecond after the turn was created and no earlier than its own
    timestamp; and the start times strictly increase, any two of them more
    than a millisecond apart. *)
Theorem X6_turn_spans_ordered (p : TurnPayload) (n : nat) (generation : bool) :
  let spans := turn_spans p n generation in
  let created := created_at (p_assistant_info p) n in
  Permutation (map fst spans)
    (enumerate_from 1 (p_reasoning p) ++ map ToolItem (p_tools p))%list
  /\ StronglySorted (fun a b => timeline_leb a b = true) (map fst spans)
  /\ Forall
       (fun x =>
          datetime.instant created + step < datetime.instant (snd x)
          /\ datetime.instant (item_ts (fst x)) <= datetime.instant (snd x))
       spans
  /\ StronglySorted
       (fun a b => datetime.instant (snd a) + step < datetime.instant (snd b))
       spans.
Proof.
  intros spans created. subst spans. unfold turn_spans. fold created.
  rewrite span_starts_items.
  split; [apply timeline_perm|]. split; [apply timeline_sorted|].
  split; [|apply span_starts_apart].
  eapply Forall_impl; [|apply span_starts_after]. intros x [H1 H2].
  split; [|exact H2].
  destruct generation; unfold plus, step in *; cbn [datetime.instant] in H1; lia.
Qed.

(* ================================================================ *)
(** * Keys *)

Lemma prefix_app (a b : string) : String.prefix a (a ++ b) = true.
Proof.
  induction a as [|c a IH]; simpl; [now destruct b|].
  destruct (ascii_dec c c); [exact IH|contradiction].
Qed.

Lemma append_assoc (a b c : string) : (a ++ b) ++ c = a ++ b ++ c.
Proof. induction a as [|x a IH]; simpl; [reflexivity|now rewrite IH]. Qed.

Lemma own_msg_key (s m : string) : own_key s (_msg_key s m) = true.
Proof.
  unfold own_key, _msg_key, PyStr.startswith.
  rewrite <- append_assoc. apply prefix_app.
Qed.

Lemma own_part_key (s m pid : string) :
  own_key s (_msg_key s m ++ ":" ++ pid) = true.
Proof.
  unfold own_key, _msg_key, PyStr.startswith.
  rewrite <- (append_assoc s ":" m), append_assoc. apply prefix_app.
Qed.

(* ================================================================ *)
(** * What stays within the session *)

Lemma same_entries_refl (k : string) (st : State) : same_entries k st st.
Proof. repeat split. Qed.

Lemma same_entries_trans (k : string) (a b c : State) :
  same_entries k a b -> same_entries k b c -> same_entries k a c.
Proof.
  unfold same_entries.
  intros (A1 & A2 & A3 & A4 & A5 & A6 & A7 & A8)
         (B1 & B2 & B3 & B4 & B5 & B6 & B7 & B8).
  repeat split; congruence.
Qed.

Lemma confined_refl (s : string) (w : World) : confined s w w.
Proof.
  split; [intros; apply same_entries_refl|]. split; [reflexivity|].
  split; [exists []; split; [now rewrite app_nil_r|constructor]|].
  split; [reflexivity|now left].
Qed.

Lemma confined_trans (s : string) (a b c : World) :
  confined s a b -> confined s b c -> confined s a c.
Proof.
  intros (A1 & A2 & (xs & A3 & A3') & A4 & A5) (B1 & B2 & (ys & B3 & B3') & B4 & B5).
  split; [intros k Hk; eapply same_entries_trans; eauto|].
  split; [congruence|].
  split.
  { exists (xs ++ ys)%list. split.
    - rewrite B3, A3. now rewrite app_assoc.
    - apply Forall_app. now split. }
  split.
  - intros t Ht. rewrite <- (A4 t Ht). apply B4.
    unfold marked, jget in *. now rewrite (A4 t Ht).
  - intros t. destruct (A5 t) as [E|R]; [|now right].
    destruct (B5 t) as [E'|R]; [left; congruence|now right].
Qed.

(** A step that touches neither the markers, nor the lifecycle map, nor the
    sink, nor the entries of other sessions. *)
Lemma confined_quiet (s : string) (w : World) (st' : State) (n : nat) :
  (forall k, own_key s k = false -> same_entries k (state w) st') ->
  session_lifecycle st' = session_lifecycle (state w) ->
  emitted st' = emitted (state w) ->
  confined s w (mkWorld st' n (sink w)).
Proof.
  intros Hk Hl He. split; [exact Hk|]. split; [exact Hl|].
  split; [exists []; split; [now rewrite app_nil_r|constructor]|].
  cbn [state]. rewrite He. split; [reflexivity|now left].
Qed.

Ltac fields' :=
  cbn [state sink ticks messages message_events user_parts assistant_parts
       assistant_finish_seen pending_parts message_last_seen part_last_seen
       emitted session_lifecycle with_messages with_message_events
       with_user_parts with_assistant_parts with_assistant_finish_seen
       with_pending_parts with_message_last_seen with_part_last_seen
       with_emitted with_session_lifecycle with_state with_bucket
       _cleanup_emitted_message_buffers fst snd] in *.

Ltac branch' :=
  match goal with
  | |- context [if ?b then _ else _] => destruct b eqn:?
  | |- context [match ?x with (_, _) => _ end] => destruct x eqn:?
  end.

Ltac open_handler' :=
  cbv zeta; unfold _append_message_event, _iso_now;
  cbv beta iota zeta; repeat branch'.

(** The key at hand is not one of the session's. *)
Ltac other_key :=
  match goal with
  | H : own_key ?s ?k = false |- ?k <> _ =>
      let E := fresh "E" in
      intros E; rewrite E in H;
      rewrite ?own_msg_key, ?own_part_key in H; discriminate
  end.

Ltac untouched :=
  unfold same_entries, merge_pending, store_part; fields';
  repeat split;
  repeat first [ rewrite get_set_neq by other_key
               | rewrite get_pop_neq by other_key ];
  reflexivity.

Lemma user_key_cases (s : string) (info : dict json) :
  PyStr.nonempty (user_key_of s info) = false
  \/ exists parent, user_key_of s info = _msg_key s parent.
Proof.
  unfold user_key_of. destruct (PyStr.nonempty (str_or_empty _)).
  - right. eexists. reflexivity.
  - now left.
Qed.

Lemma purge_same_entries (s m : string) (info : dict json) (st : State) (k : string) :
  own_key s k = false ->
  same_entries k st (purge_buffers (_msg_key s m) (user_key_of s info) st).
Proof.
  intros Hk. unfold purge_buffers.
  destruct (user_key_cases s info) as [E|[parent E]].
  - rewrite E. untouched.
  - rewrite E. destruct (PyStr.nonempty _); untouched.
Qed.

Lemma maybe_emit_confined (w : World) (s m : string) (info : dict json) :
  confined s w (_maybe_emit_assistant_turn w s m info).
Proof.
  destruct (marked (_turn_key s m) (state w)) eqn:Hm.
  { rewrite maybe_emit_marked by exact Hm. apply confined_refl. }
  destruct (not_ready (fst (assemble_turn (state w) (ticks w) s m info))) eqn:Hr.
  { destruct (maybe_emit_not_ready w s m info Hr) as [-> | ->].
    - apply confined_refl.
    - apply confined_quiet; [intros; apply same_entries_refl|reflexivity|reflexivity]. }
  rewrite (maybe_emit_emits w s m info Hm Hr).
  set (turn := fst (assemble_turn (state w) (ticks w) s m info)).
  set (n := snd (assemble_turn (state w) (ticks w) s m info)).
  set (stamp := JStr (datetime.isoformat (datetime.utc (clock n)))).
  split; [|split; [|split; [|split]]]; cbn [state sink].
  - intros k Hk.
    eapply same_entries_trans; [|apply purge_same_entries; exact Hk].
    repeat split.
  - destruct (purge_frame (_msg_key s m) (user_key_of s info)
                (with_emitted (Dict.set (_turn_key s m) stamp) (state w)))
      as (_ & _ & _ & _ & F). rewrite F. reflexivity.
  - eexists. split; [reflexivity|]. constructor; [|constructor].
    cbn [is_turn_call call_session call_shows]. subst turn. now rewrite Hr.
  - intros t Ht. rewrite purge_emitted. cbn [emitted with_emitted].
    apply get_set_neq. intros ->. congruence.
  - intros t. rewrite purge_emitted. cbn [emitted with_emitted].
    destruct (String.eqb_spec t (_turn_key s m)) as [->|Hne].
    + right. now exists m.
    + left. now apply get_set_neq.
Qed.

Ltac confined_quiet_step :=
  apply confined_quiet; [intros; untouched | fields'; reflexivity | fields'; reflexivity].

Ltac confined_branch :=
  first
    [ apply confined_refl
    | confined_quiet_step
    | eapply confined_trans; [|apply maybe_emit_confined]; confined_quiet_step ].

Lemma message_updated_confined (w : World) (payload : dict json) (s : string) :
  confined s w (_handle_message_updated w payload s).
Proof. unfold _handle_message_updated. open_handler'; confined_branch. Qed.

Lemma part_updated_confined (w : World) (payload : dict json) (s : string) :
  confined s w (_handle_message_part_updated w payload s).
Proof.
  unfold _handle_message_part_updated, bucket_part.
  open_handler'; confined_branch.
Qed.

Lemma flush_step_confined (s : string) (w : World) (key : string) :
  confined s w (flush_step s w key).
Proof.
  unfold flush_step, with_state. open_handler';
    first [apply confined_refl | confined_quiet_step | apply maybe_emit_confined].
Qed.

Lemma flush_confined (w : World) (s reason : string) :
  confined s w (_flush_pending_assistant_turns w s reason).
Proof.
  unfold _flush_pending_assistant_turns.
  destruct (_ || _); [apply confined_refl|].
  generalize (Dict.keys (assistant_parts (state w))). intros keys.
  revert w. induction keys as [|k keys IH]; intros w; simpl.
  - apply confined_refl.
  - eapply confined_trans; [apply flush_step_confined|apply IH].
Qed.

(* ================================================================ *)
(** * One invocation, stage by stage *)

(** [main] runs the handler of the event (and the flush that follows a
    late part), then notes a lifecycle event, then flushes, then traces
    the lifecycle event. *)
Lemma main_stages (stdin : option json) (w : World) :
  let payload := _read_payload stdin in
  let e := _event_name payload in
  let s := _session_id payload in
  Dict.nonempty payload = true ->
  exists w1 w3,
    confined s w w1
    /\ (str_in e lifecycle_events = true -> w1 = w)
    /\ confined s
         (if str_in e lifecycle_events then note_lifecycle w1 payload e s else w1)
         w3
    /\ main stdin w
       = if str_in e lifecycle_events
         then _emit_lifecycle_trace w3 payload e s else w3.
Proof.
  intros payload e s Hp. unfold main. fold payload. rewrite Hp. cbn [negb].
  fold e. fold s.
  set (w1 :=
    if String.eqb e "message.updated"
    then _handle_message_updated w payload s
    else if String.eqb e "message.part.updated"
    then
      let w0 := _handle_message_part_updated w payload s in
      let last := _as_dict (jget s (session_lifecycle (state w0))) in
      let last_event := str_or_empty (jget "event" last) in
      if str_in last_event terminal_events
      then _flush_pending_assistant_turns w0 s (last_event ++ ":post-part")
      else w0
    else w).
  set (w2 := if str_in e lifecycle_events then note_lifecycle w1 payload e s else w1).
  exists w1,
    (if str_in e terminal_events then _flush_pending_assistant_turns w2 s e else w2).
  split; [|split; [|split]].
  - subst w1. destruct (String.eqb e "message.updated");
      [apply message_updated_confined|].
    destruct (String.eqb e "message.part.updated"); [|apply confined_refl].
    cbv zeta. destruct (str_in _ terminal_events).
    + eapply confined_trans; [apply part_updated_confined|apply flush_confined].
    + apply part_updated_confined.
  - intros Hl. subst w1.
    destruct (String.eqb_spec e "message.updated") as [E|_].
    { rewrite E in Hl. discriminate. }
    destruct (String.eqb_spec e "message.part.updated") as [E|_].
    { rewrite E in Hl. discriminate. }
    reflexivity.
  - destruct (str_in e terminal_events);
      [apply flush_confined|apply confined_refl].
  - reflexivity.
Qed.

Lemma note_lifecycle_frame (w : World) (payload : dict json) (e s : string) :
  let w' := note_lifecycle w payload e s in
  sink w' = sink w
  /\ emitted (state w') = emitted (state w)
  /\ (forall k, same_entries k (state w) (state w'))
  /\ (forall s', s' <> s ->
        Dict.get s' (session_lifecycle (state w'))
        = Dict.get s' (session_lifecycle (state w))).
Proof.
  intros w'. subst w'. unfold note_lifecycle.
  destruct (_event_captured_at payload (ticks w)) as [event_dt n].
  destruct (match _parse_dt _ with Some _ => _ | None => _ end);
    cbn [state sink emitted with_session_lifecycle session_lifecycle];
    (split; [reflexivity|]); (split; [reflexivity|]);
    (split; [intros; unfold same_entries; fields'; repeat split|]); intros s' Hs';
    [now apply get_set_neq|reflexivity].
Qed.

(** X7 (session isolation): one invocation of the hook, for an event of
    session S, leaves every entry under a key that does not start with
    [S:] as it was, in each of the eight maps keyed by message or part:
    the records, buffers and watermarks of the other sessions.  It leaves
    the lifecycle entry of every other session as it was, hands the sink
    calls for session S only, and writes no marker but those of turns of
    session S. *)
Theorem X7_session_isolation (stdin : option json) (w : World) :
  let s := _session_id (_read_payload stdin) in
  let w' := main stdin w in
  (forall k, own_key s k = false -> same_entries k (state w) (state w'))
  /\ (forall s', s' <> s ->
        Dict.get s' (session_lifecycle (state w'))
        = Dict.get s' (session_lifecycle (state w)))
  /\ (exists added,
        sink w' = (sink w ++ added)%list
        /\ Forall (fun c => call_session c = s) added)
  /\ (forall t,
        Dict.get t (emitted (state w')) = Dict.get t (emitted (state w))
        \/ exists m, t = _turn_key s m).
Proof.
  intros s w'. subst w'.
  destruct (Dict.nonempty (_read_payload stdin)) eqn:Hp.
  2:{ unfold main. rewrite Hp. cbn [negb].
      split; [intros; apply same_entries_refl|]. split; [reflexivity|].
      split; [exists []; split; [now rewrite app_nil_r|constructor]|].
      now left. }
  destruct (main_stages stdin w Hp) as (w1 & w3 & C1 & _ & C3 & ->).
  fold s in C1, C3.
  set (payload := _read_payload stdin) in *.
  set (e := _event_name payload) in *.
  change (_session_id payload) with s.
  set (w2 := if str_in e lifecycle_events
             then note_lifecycle w1 payload e s else w1) in *.
  destruct C1 as (A1 & A2 & (xs & A3 & A3') & _ & A5).
  destruct C3 as (B1 & B2 & (ys & B3 & B3') & _ & B5).
  assert (N : sink w2 = sink w1
              /\ emitted (state w2) = emitted (state w1)
              /\ (forall k, same_entries k (state w1) (state w2))
              /\ (forall s', s' <> s ->
                    Dict.get s' (session_lifecycle (state w2))
                    = Dict.get s' (session_lifecycle (state w1)))).
  { subst w2. destruct (str_in e lifecycle_events).
    - apply note_lifecycle_frame.
    - repeat split. }
  destruct N as (N1 & N2 & N3 & N4).
  assert (Hstate : state (if str_in e lifecycle_events
                          then _emit_lifecycle_trace w3 payload e s else w3)
                   = state w3)
    by now destruct (str_in e lifecycle_events).
  rewrite Hstate. split; [|split; [|split]].
  - intros k Hk.
    eapply same_entries_trans; [apply A1; exact Hk|].
    eapply same_entries_trans; [apply N3|apply B1; exact Hk].
  - intros s' Hs'. rewrite B2, N4 by exact Hs'. now rewrite A2.
  - destruct (str_in e lifecycle_events).
    + exists (xs ++ ys ++ [LifecycleCall e s (_event_obj payload)])%list.
      unfold _emit_lifecycle_trace. cbn [sink].
      rewrite B3, N1, A3, <- !app_assoc. split; [reflexivity|].
      rewrite !Forall_app. repeat split.
      * eapply Forall_impl; [|exact A3']. now intros c (_ & Hc & _).
      * eapply Forall_impl; [|exact B3']. now intros c (_ & Hc & _).
      * constructor; [reflexivity|constructor].
    + exists (xs ++ ys)%list. rewrite B3, N1, A3, <- !app_assoc.
      split; [reflexivity|]. rewrite Forall_app. split.
      * eapply Forall_impl; [|exact A3']. now intros c (_ & Hc & _).
      * eapply Forall_impl; [|exact B3']. now intros c (_ & Hc & _).
  - intros t. destruct (B5 t) as [E|R]; [|now right].
    rewrite E, N2. apply A5.
Qed.

Lemma main_marker_fixed (stdin : option json) (w : World) (t : string) :
  marked t (state w) = true ->
  Dict.get t (emitted (state (main stdin w))) = Dict.get t (emitted (state w)).
Proof.
  intros Hm.
  destruct (Dict.nonempty (_read_payload stdin)) eqn:Hp.
  2:{ unfold main. now rewrite Hp. }
  destruct (main_stages stdin w Hp) as (w1 & w3 & C1 & _ & C3 & ->).
  set (payload := _read_payload stdin) in *.
  set (e := _event_name payload) in *.
  set (s := _session_id payload) in *.
  destruct C1 as (_ & _ & _ & A4 & _).
  destruct C3 as (_ & _ & _ & B4 & _).
  assert (Hstate : state (if str_in e lifecycle_events
                          then _emit_lifecycle_trace w3 payload e s else w3)
                   = state w3)
    by now destruct (str_in e lifecycle_events).
  rewrite Hstate, <- (A4 t Hm).
  assert (N : emitted (state (if str_in e lifecycle_events
                              then note_lifecycle w1 payload e s else w1))
              = emitted (state w1)).
  { destruct (str_in e lifecycle_events); [|reflexivity].
    apply note_lifecycle_frame. }
  rewrite <- N. apply B4. unfold marked, jget in *. now rewrite N, (A4 t Hm).
Qed.

(** X8 (a marker is written once): once the emitted marker of a turn id
    is set, no run of the hook rewrites it: the entry keeps the very value
    it has, the time of the emission. *)
Theorem X8_marker_never_rewritten
    (inputs : list (option json)) (w : World) (t : string) :
  marked t (state w) = true ->
  Dict.get t (emitted (state (run inputs w))) = Dict.get t (emitted (state w)).
Proof.
  unfold run. revert w. induction inputs as [|i inputs IH]; intros w Hm;
    cbn [fold_left]; [reflexivity|].
  rewrite IH.
  - now apply main_marker_fixed.
  - unfold marked, jget in *. now rewrite main_marker_fixed.
Qed.



(* ================================================================ *)
(** * Completion signals *)

Lemma assemble_info (st : State) (n : nat) (s m : string) (info : dict json) :
  p_assistant_info (fst (assemble_turn st n s m info)) = info.
Proof.
  unfold assemble_turn.
  destruct (_extract_text_from_parts _ _) as [input_text n1].
  destruct (_build_turn_details _ _) as [[[output_text reasoning] tls] n2].
  reflexivity.
Qed.

(** The two outcomes of an emission attempt for a turn that is not yet
    emitted. *)
Lemma maybe_emit_outcome (w : World) (s m : string) (info : dict json) :
  marked (_turn_key s m) (state w) = false ->
  let w' := _maybe_emit_assistant_turn w s m info in
  (exists turn ok,
      sink w' = (sink w ++ [TurnCall s m turn ok])%list
      /\ turn = fst (assemble_turn (state w) (ticks w) s m info)
      /\ not_ready turn = false
      /\ marked (_turn_key s m) (state w') = true
      /\ purged s m info (state w')
      /\ messages (state w') = messages (state w))
  \/ (sink w' = sink w
      /\ state w' = state w
      /\ not_ready (fst (assemble_turn (state w) (ticks w) s m info)) = true).
Proof.
  intros Hm w'. subst w'.
  destruct (not_ready (fst (assemble_turn (state w) (ticks w) s m info))) eqn:Hr.
  - right. destruct (maybe_emit_not_ready w s m info Hr) as [-> | ->]; auto.
  - left. rewrite (maybe_emit_emits w s m info Hm Hr). cbn [state sink].
    eexists. eexists. split; [reflexivity|]. split; [reflexivity|].
    split; [exact Hr|]. split; [|split].
    + unfold marked. rewrite purge_emitted. cbn [emitted with_emitted].
      rewrite jget_set_eq. apply isoformat_truthy.
    + apply purge_buffers_purged.
    + match goal with
      | |- context [purge_buffers ?a ?u ?st] =>
          destruct (purge_frame a u st) as (F1 & _)
      end.
      rewrite F1. reflexivity.
Qed.

(** X11 (completion leads to an emission attempt): an accepted
    message.updated event that marks an assistant message completed, the
    turn not being emitted yet, stores the message record and attempts the
    emission.  Either the turn has something to show: then the sink
    receives exactly one call, for this session and message, with the
    event's record as the assistant info; the marker is set and the
    buffers of the turn are purged.  Or it has nothing to show: then no
    call is made, no marker is set, and the finish flag of the message is
    set, so that a later part can trigger the emission. *)
Theorem X11_completion_attempts_emission
    (w : World) (payload : dict json) (session_id : string) :
  let info := _as_dict (jget "info" (_event_props payload)) in
  let message_id := str_or_empty (jget "id" info) in
  let key := _msg_key session_id message_id in
  message_id <> "" ->
  _is_older_event (message_last_seen (state w)) key
    (fst (_event_captured_at payload (ticks w))) = false ->
  PyStr.lower (str_or_empty (jget "role" info)) = "assistant" ->
  truthy (jget "completed" (_as_dict (jget "time" info))) = true ->
  marked (_turn_key session_id message_id) (state w) = false ->
  let w' := _handle_message_updated w payload session_id in
  jget key (messages (state w')) = JObj info
  /\ ((exists turn ok,
         sink w' = (sink w ++ [TurnCall session_id message_id turn ok])%list
         /\ not_ready turn = false
         /\ p_assistant_info turn = info
         /\ marked (_turn_key session_id message_id) (state w') = true
         /\ purged session_id message_id info (state w'))
      \/ (sink w' = sink w
          /\ marked (_turn_key session_id message_id) (state w') = false
          /\ truthy (jget key (assistant_finish_seen (state w'))) = true
          /\ Dict.get key (pending_parts (state w')) = None)).
Proof.
  intros info message_id key Hm Hfresh Hrole Hdone Hmark w'. subst w'.
  unfold _handle_message_updated. cbv zeta.
  fold info. fold message_id. fold key.
  apply nonempty_true in Hm. rewrite Hm. cbn [negb].
  destruct (_event_captured_at payload (ticks w)) as [event_dt n1].
  cbn [fst] in Hfresh. rewrite Hfresh, Hrole, Hdone.
  unfold marked in Hmark. fields'. rewrite Hmark.
  cbn [String.eqb Ascii.eqb Bool.eqb andb negb].
  unfold _append_message_event, _iso_now. cbv beta iota zeta. fields'.
  match goal with
  | |- context [_maybe_emit_assistant_turn ?x _ _ _] => set (wX := x)
  end.
  assert (HmX : marked (_turn_key session_id message_id) (state wX) = false).
  { subst wX. unfold marked. repeat branch'; fields'; exact Hmark. }
  assert (HpX : Dict.get key (pending_parts (state wX)) = None).
  { subst wX. repeat branch'; fields'; apply get_pop_eq. }
  assert (HfX : truthy (jget key (assistant_finish_seen (state wX))) = true).
  { subst wX. repeat branch'; fields'; rewrite jget_set_eq;
      apply isoformat_truthy. }
  assert (HiX : jget key (messages (state wX)) = JObj info).
  { subst wX. repeat branch'; fields'; apply jget_set_eq. }
  assert (HsX : sink wX = sink w).
  { subst wX. repeat branch'; reflexivity. }
  clearbody wX.
  destruct (maybe_emit_outcome wX session_id message_id info HmX)
    as [(turn & ok & Hs & Ht & Hr & Hk & Hp & Hmsg)|(Hs & Hst & Hr)].
  - split; [rewrite Hmsg; exact HiX|]. left. exists turn, ok.
    rewrite Hs, HsX. split; [reflexivity|]. split; [exact Hr|].
    split; [rewrite Ht; apply assemble_info|]. split; assumption.
  - rewrite Hst. split; [exact HiX|]. right.
    rewrite Hs, HsX. unfold marked in *. auto.
Qed.

(* ================================================================ *)
(** * Where a part goes *)

Lemma part_at_store (key pid : string) (part : dict json)
    (parts : dict (dict json)) :
  part_at key pid (store_part key pid part parts) = Some (JObj part).
Proof.
  unfold part_at, store_part. rewrite get_set_eq. cbn [or_empty].
  apply get_set_eq.
Qed.

Lemma bucket_part_assistant
    (st : State) (n : nat) (snk : list SinkCall) (s m pid : string)
    (msg part : dict json) (ptype : string) :
  marked (_turn_key s m) st = false ->
  let key := _msg_key s m in
  let w' := bucket_part st n snk s m pid msg part ptype "assistant" in
  (part_at key pid (assistant_parts (state w')) = Some (JObj part)
   /\ sink w' = snk
   /\ marked (_turn_key s m) (state w') = false
   /\ user_parts (state w') = user_parts st
   /\ pending_parts (state w') = pending_parts st
   /\ (ptype = "step-finish" ->
       truthy (jget key (assistant_finish_seen (state w'))) = true))
  \/ (exists turn ok,
        sink w' = (snk ++ [TurnCall s m turn ok])%list
        /\ not_ready turn = false
        /\ Dict.get pid (p_assistant_parts_map turn) = Some (JObj part)
        /\ marked (_turn_key s m) (state w') = true
        /\ Dict.get key (assistant_parts (state w')) = None).
Proof.
  intros Hmark key w'. subst w'. unfold bucket_part. fold key.
  cbn [String.eqb Ascii.eqb Bool.eqb with_bucket].
  set (st1 := with_assistant_parts (store_part key pid part) st).
  set (stn :=
    if String.eqb ptype "step-finish"
    then
      let '(stamp, n') := _iso_now n in
      (with_assistant_finish_seen (Dict.set key (JStr stamp)) st1, n')
    else (st1, n)).
  assert (Hst : part_at key pid (assistant_parts (fst stn)) = Some (JObj part)
                /\ marked (_turn_key s m) (fst stn) = false
                /\ user_parts (fst stn) = user_parts st
                /\ pending_parts (fst stn) = pending_parts st
                /\ (ptype = "step-finish" ->
                    truthy (jget key (assistant_finish_seen (fst stn))) = true)).
  { subst stn st1. unfold _iso_now, marked in *.
    destruct (String.eqb_spec ptype "step-finish") as [E|N]; fields'.
    - repeat split; auto using part_at_store;
        try (intros _; rewrite jget_set_eq; apply isoformat_truthy).
    - repeat split; auto using part_at_store; try contradiction. }
  destruct stn as [st2 n2]. cbn [fst] in Hst.
  destruct Hst as (Hpart & Hm2 & Hu & Hp & Hf).
  destruct (_ || _).
  - destruct (maybe_emit_outcome (mkWorld st2 n2 snk) s m
                (if Dict.nonempty msg then msg
                 else [("id", JStr m); ("role", JStr "assistant")]) Hm2)
      as [(turn & ok & Hs & Ht & Hr & Hk & Hpg & _)|(Hs & Hstate & _)].
    + right. exists turn, ok. split; [exact Hs|]. split; [exact Hr|].
      split; [|split; [exact Hk|apply Hpg]].
      rewrite Ht, assemble_assistant_parts. exact Hpart.
    + left. rewrite Hs, Hstate. cbn [state sink]. auto 10.
  - left. cbn [state sink]. auto 10.
Qed.

(** X12 (parts of an assistant message): an accepted message.part.updated
    event for a message whose stored role is assistant, or that has no
    stored role while the part is of a structural type (the role is then
    inferred), the turn not being emitted yet, buffers the part in
    assistant_parts under the message key and the part id.  The part stays
    there, with no sink call, and the finish flag of the message set when
    the part is a step-finish; or the event triggers the emission, and
    then the part is among the assistant parts of the one turn the sink
    receives, the marker is set and the buffer is gone. *)
Theorem X12_assistant_part_routing
    (w : World) (payload : dict json) (session_id : string) :
  let part := _as_dict (jget "part" (_event_props payload)) in
  let message_id := str_or_empty (jget "messageID" part) in
  let part_id := str_or_empty (jget "id" part) in
  let key := _msg_key session_id message_id in
  let part_type := str_or_empty (jget "type" part) in
  let role :=
    PyStr.lower
      (str_or_empty (jget "role" (_as_dict (jget key (messages (state w)))))) in
  message_id <> "" ->
  part_id <> "" ->
  _is_older_event (part_last_seen (state w)) (key ++ ":" ++ part_id)
    (fst (_event_captured_at payload (ticks w))) = false ->
  marked (_turn_key session_id message_id) (state w) = false ->
  role = "assistant"
  \/ (role = "" /\ str_in part_type structural_types = true) ->
  let w' := _handle_message_part_updated w payload session_id in
  (part_at key part_id (assistant_parts (state w')) = Some (JObj part)
   /\ sink w' = sink w
   /\ marked (_turn_key session_id message_id) (state w') = false
   /\ user_parts (state w') = user_parts (state w)
   /\ pending_parts (state w') = pending_parts (state w)
   /\ (part_type = "step-finish" ->
       truthy (jget key (assistant_finish_seen (state w'))) = true))
  \/ (exists turn ok,
        sink w' = (sink w ++ [TurnCall session_id message_id turn ok])%list
        /\ not_ready turn = false
        /\ Dict.get part_id (p_assistant_parts_map turn) = Some (JObj part)
        /\ marked (_turn_key session_id message_id) (state w') = true
        /\ Dict.get key (assistant_parts (state w')) = None).
Proof.
  intros part message_id part_id key part_type role Hm Hp Hfresh Hmark Hrole w'.
  subst w'. unfold _handle_message_part_updated.
  fold part. fold message_id. fold part_id. fold key. fold part_type.
  apply nonempty_true in Hm. apply nonempty_true in Hp. rewrite Hm, Hp.
  cbn [negb orb].
  destruct (_event_captured_at payload (ticks w)) as [event_dt n1].
  cbn [fst] in Hfresh. rewrite Hfresh.
  unfold marked in Hmark. cbn [emitted with_part_last_seen messages].
  rewrite Hmark. fold role.
  set (st1 := with_part_last_seen _ (state w)).
  assert (Hm1 : marked (_turn_key session_id message_id) st1 = false)
    by exact Hmark.
  pose proof (bucket_part_assistant st1 n1 (sink w) session_id message_id
                part_id (_as_dict (jget key (messages (state w)))) part
                part_type Hm1) as H.
  cbv zeta in H. fold key in H.
  destruct Hrole as [Hr|[Hr Hs]].
  - rewrite Hr. cbn [PyStr.nonempty negb]. exact H.
  - rewrite Hr, Hs. cbn [PyStr.nonempty negb]. exact H.
Qed.

(** X13 (any other role is bucketed as user): an accepted
    message.part.updated event for a message whose stored role is neither
    empty nor assistant (user, or any other) buffers the part in user_parts
    under the message key and the part id, whatever the type of the part;
    nothing else is buffered, no emission is attempted, no marker is
    written. *)
Theorem X13_other_roles_go_to_user
    (w : World) (payload : dict json) (session_id : string) :
  let part := _as_dict (jget "part" (_event_props payload)) in
  let message_id := str_or_empty (jget "messageID" part) in
  let part_id := str_or_empty (jget "id" part) in
  let key := _msg_key session_id message_id in
  let role :=
    PyStr.lower
      (str_or_empty (jget "role" (_as_dict (jget key (messages (state w)))))) in
  message_id <> "" ->
  part_id <> "" ->
  _is_older_event (part_last_seen (state w)) (key ++ ":" ++ part_id)
    (fst (_event_captured_at payload (ticks w))) = false ->
  marked (_turn_key session_id message_id) (state w) = false ->
  role <> "" ->
  role <> "assistant" ->
  let w' := _handle_message_part_updated w payload session_id in
  part_at key part_id (user_parts (state w')) = Some (JObj part)
  /\ (forall pid, pid <> part_id ->
        part_at key pid (user_parts (state w'))
        = part_at key pid (user_parts (state w)))
  /\ assistant_parts (state w') = assistant_parts (state w)
  /\ pending_parts (state w') = pending_parts (state w)
  /\ assistant_finish_seen (state w') = assistant_finish_seen (state w)
  /\ emitted (state w') = emitted (state w)
  /\ sink w' = sink w.
Proof.
  intros part message_id part_id key role Hm Hp Hfresh Hmark Hr Hna w'.
  subst w'. unfold _handle_message_part_updated.
  fold part. fold message_id. fold part_id. fold key.
  apply nonempty_true in Hm. apply nonempty_true in Hp. rewrite Hm, Hp.
  cbn [negb orb].
  destruct (_event_captured_at payload (ticks w)) as [event_dt n1].
  cbn [fst] in Hfresh. rewrite Hfresh.
  unfold marked in Hmark. cbn [emitted with_part_last_seen messages].
  rewrite Hmark. fold role.
  apply nonempty_true in Hr. rewrite Hr. cbn [negb].
  unfold bucket_part. fold key.
  destruct (String.eqb_spec role "assistant") as [E|_]; [contradiction|].
  fields'. split; [apply part_at_store|]. split; [|auto 10].
  intros pid Hpid. unfold part_at, store_part. rewrite get_set_eq.
  cbn [or_empty]. now apply get_set_neq.
Qed.

(** X14 (a role that tells nothing): an accepted message.updated event
    whose role is neither assistant nor user (none, or any other) stores
    the message record and leaves the parts where they are: what is
    pending for the message stays pending, nothing is moved to user_parts
    or assistant_parts, and no emission is attempted. *)
Theorem X14_unknown_role_keeps_pending
    (w : World) (payload : dict json) (session_id : string) :
  let info := _as_dict (jget "info" (_event_props payload)) in
  let message_id := str_or_empty (jget "id" info) in
  let key := _msg_key session_id message_id in
  let role := PyStr.lower (str_or_empty (jget "role" info)) in
  message_id <> "" ->
  _is_older_event (message_last_seen (state w)) key
    (fst (_event_captured_at payload (ticks w))) = false ->
  role <> "assistant" ->
  role <> "user" ->
  let w' := _handle_message_updated w payload session_id in
  (forall pid,
      part_at key pid (pending_parts (state w'))
      = part_at key pid (pending_parts (state w)))
  /\ (forall k, k <> key ->
        Dict.get k (pending_parts (state w')) = Dict.get k (pending_parts (state w)))
  /\ user_parts (state w') = user_parts (state w)
  /\ assistant_parts (state w') = assistant_parts (state w)
  /\ jget key (messages (state w')) = JObj info
  /\ emitted (state w') = emitted (state w)
  /\ sink w' = sink w.
Proof.
  intros info message_id key role Hm Hfresh Hna Hnu w'. subst w'.
  unfold _handle_message_updated. cbv zeta.
  fold info. fold message_id. fold key. fold role.
  apply nonempty_true in Hm. rewrite Hm. cbn [negb].
  destruct (_event_captured_at payload (ticks w)) as [event_dt n1].
  cbn [fst] in Hfresh. rewrite Hfresh.
  destruct (String.eqb_spec role "assistant") as [E|_]; [contradiction|].
  destruct (String.eqb_spec role "user") as [E|_]; [contradiction|].
  cbn [andb negb].
  unfold _append_message_event, _iso_now. cbv beta iota zeta. fields'.
  unfold part_at.
  destruct (or_empty (Dict.get key (pending_parts (state w)))) as [|kv rest] eqn:Ep;
    destruct (_ <? _); cbn [Dict.nonempty]; fields';
    repeat split; try apply jget_set_eq.
  - intros pid. rewrite get_pop_eq. reflexivity.
  - intros k Hk. now apply get_pop_neq.
  - intros pid. rewrite get_pop_eq. reflexivity.
  - intros k Hk. now apply get_pop_neq.
  - intros pid. rewrite get_set_eq. reflexivity.
  - intros k Hk. rewrite get_set_neq by exact Hk. now apply get_pop_neq.
  - intros pid. rewrite get_set_eq. reflexivity.
  - intros k Hk. rewrite get_set_neq by exact Hk. now apply get_pop_neq.
Qed.

(* ================================================================ *)
(** * The event history *)

Lemma slice_last {A : Type} (cap : Z) (old : list A) (x : A) :
  1 <= cap ->
  cap < Z.of_nat (List.length (old ++ [x])) ->
  exists dropped kept,
    old = (dropped ++ kept)%list
    /\ slice_from (- cap) (old ++ [x]) = (kept ++ [x])%list
    /\ Z.of_nat (List.length (kept ++ [x])) = cap.
Proof.
  intros Hcap Hlen. rewrite length_app in Hlen. cbn [List.length] in Hlen.
  unfold slice_from. rewrite length_app. cbn [List.length].
  destruct (Z.ltb_spec (- cap) 0) as [_|H]; [|lia].
  set (i := Z.to_nat (Z.max (Z.of_nat (List.length old + 1) + - cap) 0)).
  assert (Hi : (i <= List.length old)%nat) by (subst i; lia).
  exists (firstn i old), (skipn i old).
  split; [symmetry; apply firstn_skipn|].
  rewrite skipn_app.
  replace (i - List.length old)%nat with O by lia. cbn [skipn].
  split; [reflexivity|].
  rewrite length_app, length_skipn. cbn [List.length]. subst i. lia.
Qed.

(** X15 (the event history is capped): with a cap of at least one,
    [_append_message_event] leaves under the key the most recent entries
    of the history followed by the new entry, the cap at most in all:
    the oldest entries are the ones dropped, and the new entry, which
    holds the time of the append and the message record, is always the
    last.  With a cap of zero nothing is dropped at all.  The histories of
    the other keys are as before. *)
Theorem X15_history_is_capped
    (st : State) (key : string) (info : dict json) (n : nat) :
  let st' := fst (_append_message_event st key info n) in
  let old := or_nil (Dict.get key (message_events st)) in
  let new := or_nil (Dict.get key (message_events st')) in
  let entry :=
    JObj [("captured_at", JStr (datetime.isoformat (datetime.utc (clock n))));
          ("info", JObj info)] in
  (1 <= MAX_MESSAGE_EVENTS_PER_MESSAGE ->
   exists dropped kept,
     old = (dropped ++ kept)%list
     /\ new = (kept ++ [entry])%list
     /\ Z.of_nat (List.length new)
        = Z.min (Z.of_nat (List.length old) + 1) MAX_MESSAGE_EVENTS_PER_MESSAGE)
  /\ (MAX_MESSAGE_EVENTS_PER_MESSAGE = 0 -> new = (old ++ [entry])%list)
  /\ (forall k, k <> key ->
        Dict.get k (message_events st') = Dict.get k (message_events st)).
Proof.
  intros st' old new entry. subst st' new.
  unfold _append_message_event, _iso_now, _safe_json. cbv beta iota zeta.
  fold old. fold entry. cbn [fst message_events with_message_events].
  rewrite get_set_eq. cbn [or_nil].
  split; [|split].
  - intros Hcap.
    destruct (Z.ltb_spec MAX_MESSAGE_EVENTS_PER_MESSAGE
                (Z.of_nat (List.length (old ++ [entry])))) as [Hlt|Hge].
    + destruct (slice_last MAX_MESSAGE_EVENTS_PER_MESSAGE old entry Hcap Hlt)
        as (dropped & kept & E1 & E2 & E3).
      exists dropped, kept. rewrite E2, E3.
      rewrite length_app in Hlt. cbn [List.length] in Hlt.
      split; [exact E1|]. split; [reflexivity|lia].
    + exists [], old. rewrite length_app in *. cbn [List.length] in *.
      split; [reflexivity|]. split; [reflexivity|lia].
  - intros E0. rewrite E0. cbn [Z.opp].
    destruct (_ <? _); [|reflexivity].
    unfold slice_from. cbn [Z.ltb Z.compare].
    rewrite Z.min_l by lia. reflexivity.
  - intros k Hk. now apply get_set_neq.
Qed.

(* ================================================================ *)
(** * Session ids and keys *)




Lemma drop_prefix (a b : string) : PyStr.drop (String.length a) (a ++ b) = b.
Proof.
  unfold PyStr.drop. rewrite bytes_app.
  replace (String.length a) with (List.length (PyStr.bytes a)).
  - rewrite skipn_app, skipn_all, Nat.sub_diag. cbn [skipn app].
    apply of_bytes_bytes.
  - unfold PyStr.bytes. induction a as [|c a IH]; simpl; [reflexivity|].
    now rewrite IH.
Qed.

Lemma append_cancel (a b c : string) : a ++ b = a ++ c -> b = c.
Proof.
  induction a as [|x a IH]; simpl; [auto|]. intros H. injection H as H. auto.
Qed.

Lemma colon_split (s s' rest rest' : string) :
  colon_free s = true -> colon_free s' = true ->
  s ++ String ":" rest = s' ++ String ":" rest' -> s = s' /\ rest = rest'.
Proof.
  unfold colon_free, PyStr.bytes.
  revert s'. induction s as [|c s IH]; intros [|c' s']; simpl.
  - intros _ _ H. injection H as H. auto.
  - intros _ Hc H. injection H as H1 H2. subst c'.
    rewrite Ascii.eqb_refl in Hc. discriminate.
  - intros Hc _ H. injection H as H1 H2. subst c.
    rewrite Ascii.eqb_refl in Hc. discriminate.
  - intros Hc Hc' H. injection H as H1 H2. subst c'.
    apply andb_true_iff in Hc, Hc'.
    destruct (IH s' (proj2 Hc) (proj2 Hc') H2) as [-> ->]. auto.
Qed.

Lemma msg_key_drop (s m : string) :
  PyStr.drop (String.length (s ++ ":")) (_msg_key s m) = m.
Proof. unfold _msg_key. rewrite <- append_assoc. apply drop_prefix. Qed.

(** X18 (message keys decode): the key [_msg_key] makes of a session id
    and a message id starts with the session's prefix, and what follows
    the prefix is the message id, which is how the lifecycle flush reads
    the message id back out of a key; within a session, different message
    ids have different keys; and across sessions whose ids hold no colon,
    a key determines both the session id and the message id. *)
Theorem X18_message_key_round_trip (s m : string) :
  let prefix := s ++ ":" in
  PyStr.startswith prefix (_msg_key s m) = true
  /\ PyStr.drop (String.length prefix) (_msg_key s m) = m
  /\ (forall m', _msg_key s m = _msg_key s m' -> m = m')
  /\ (forall s' m',
        colon_free s = true -> colon_free s' = true ->
        _msg_key s m = _msg_key s' m' -> s = s' /\ m = m').
Proof.
  intros prefix. subst prefix.
  split; [apply own_msg_key|]. split; [|split].
  - apply msg_key_drop.
  - unfold _msg_key. intros m' H. apply append_cancel in H.
    now injection H.
  - unfold _msg_key. intros s' m' Hs Hs' H. cbn [String.append] in H.
    now apply colon_split.
Qed.

(* ================================================================ *)
(** * The reasoning blocks of a turn *)

Lemma details_step_reasoning (acc : Rows) (part : json) :
  let p := _as_dict part in
  let pt := (p, fst (part_ts p (rows_ticks acc))) in
  reasoning_rows (details_step acc part)
  = (reasoning_rows acc
     ++ (if is_reasoning_part p then [reasoning_row pt] else []))%list.
Proof.
  intros p pt. subst pt.
  unfold details_step, is_reasoning_part, reasoning_row, text_string.
  fold p. destruct (part_ts p (rows_ticks acc)) as [ts n]. cbn [fst snd].
  destruct (String.eqb_spec (str_or_empty (jget "type" p)) "text") as [E|_].
  { rewrite E. cbn [String.eqb Ascii.eqb Bool.eqb andb].
    destruct (jget "text" p); cbn [reasoning_rows]; rewrite ?app_nil_r; auto.
    destruct (PyStr.nonempty s); cbn [reasoning_rows]; rewrite ?app_nil_r; auto. }
  destruct (String.eqb_spec (str_or_empty (jget "type" p)) "reasoning") as [E|_].
  { cbn [andb].
    destruct (jget "text" p); cbn [PyStr.nonempty reasoning_rows];
      rewrite ?app_nil_r; auto.
    destruct (PyStr.nonempty s); cbn [reasoning_rows]; rewrite ?app_nil_r; auto. }
  cbn [andb].
  destruct (String.eqb (str_or_empty (jget "type" p)) "tool").
  - destruct (negb _); cbn [reasoning_rows]; rewrite ?app_nil_r; auto.
  - cbn [reasoning_rows]. rewrite ?app_nil_r; auto.
Qed.

Lemma fold_details_reasoning (parts : list json) (acc : Rows) :
  reasoning_rows (fold_left details_step parts acc)
  = (reasoning_rows acc
     ++ map reasoning_row
          (filter (fun pt => is_reasoning_part (fst pt))
             (stamp_all parts (rows_ticks acc))))%list.
Proof.
  revert acc. induction parts as [|part rest IH]; intros acc; simpl.
  - now rewrite app_nil_r.
  - destruct (details_step_spec acc part) as (_ & _ & Hn).
    rewrite IH, details_step_reasoning, Hn. cbn [fst].
    destruct (is_reasoning_part (_as_dict part)); simpl;
      rewrite <- ?app_assoc; reflexivity.
Qed.

(** X19 (the reasoning blocks of a turn): the reasoning list
    [_build_turn_details] assembles holds exactly the parts of type
    reasoning that have a non-empty text, one block each, in ascending
    (timestamp, part id) order; a block carries the part id, the text, the
    timestamp and the metadata of its part. *)
Theorem X19_reasoning_blocks (parts_map : dict json) (n : nat) :
  let parts := Dict.values parts_map in
  let blocks :=
    filter (fun pt => is_reasoning_part (fst pt)) (stamp_all parts n) in
  let reasoning := snd (fst (fst (_build_turn_details parts_map n))) in
  Permutation reasoning (map reasoning_row blocks)
  /\ ascending reasoning_key reasoning
  /\ map fst blocks = filter is_reasoning_part (map _as_dict parts)
  /\ (forall p,
        is_reasoning_part p = true <->
        str_or_empty (jget "type" p) = "reasoning"
        /\ exists txt, jget "text" p = JStr txt /\ txt <> "")
  /\ (forall p ts,
        let row := reasoning_row (p, ts) in
        r_id row = str_or_empty (jget "id" p)
        /\ r_timestamp row = ts
        /\ r_meta row = jget "metadata" p
        /\ (is_reasoning_part p = true -> JStr (r_text row) = jget "text" p)).
Proof.
  intros parts blocks reasoning. subst parts blocks reasoning.
  assert (Hrows :
    snd (fst (fst (_build_turn_details parts_map n)))
    = SortKey.sort_by reasoning_key
        (map reasoning_row
           (filter (fun pt => is_reasoning_part (fst pt))
              (stamp_all (Dict.values parts_map) n)))).
  { unfold _build_turn_details. cbn [fst snd].
    rewrite fold_details_reasoning. reflexivity. }
  rewrite Hrows.
  split; [apply sort_by_perm|].
  split; [apply sort_by_ascending|].
  split; [rewrite filter_stamped, stamp_all_parts; reflexivity|].
  split.
  - intros p. unfold is_reasoning_part, text_string.
    rewrite andb_true_iff, String.eqb_eq. split.
    + intros [Ht Hx]. split; [exact Ht|].
      destruct (jget "text" p) as [| | |txt| |]; try discriminate.
      exists txt. split; [reflexivity|]. now apply nonempty_true.
    + intros [Ht (txt & E & Hx)]. split; [exact Ht|].
      rewrite E. now apply nonempty_true.
  - intros p ts row. subst row.
    unfold reasoning_row, is_reasoning_part, text_string.
    cbn [fst snd r_id r_text r_timestamp r_meta].
    repeat split.
    destruct (jget "text" p) as [| | |txt| |]; cbn [PyStr.nonempty];
      rewrite ?andb_false_r; auto; discriminate.
Qed.

(* ================================================================ *)
(** * The lifecycle flush *)

Lemma not_ready_nothing_to_show
    (st : State) (n : nat) (s m : string) (info : dict json) :
  not_ready (fst (assemble_turn st n s m info)) = true ->
  nothing_to_show (or_empty (Dict.get (_msg_key s m) (assistant_parts st))).
Proof.
  unfold assemble_turn, nothing_to_show.
  destruct (_extract_text_from_parts _ _) as [input_text n1].
  destruct (_build_turn_details _ n1) as [[[output_text reasoning] tls] n2] eqn:E.
  unfold not_ready. cbn [fst p_output_text p_reasoning p_tools].
  rewrite !andb_true_iff, negb_true_iff. intros [[Ho Hr] Ht].
  right. exists n1. rewrite E. cbn [fst].
  destruct output_text; [|discriminate].
  destruct reasoning; [|discriminate]. destruct tls; [|discriminate].
  reflexivity.
Qed.

Lemma get_in_keys {V : Type} (k : string) (d : dict V) :
  Dict.get k d <> None -> In k (Dict.keys d).
Proof.
  unfold Dict.keys. induction d as [|[k' v] d IH]; simpl; [congruence|].
  destruct (String.eqb_spec k k'); [now left|]. intros H. right. auto.
Qed.

Lemma get_pop_cases {V : Type} (x k : string) (d : dict V) :
  Dict.get k (Dict.pop x d) = Dict.get k d \/ Dict.get k (Dict.pop x d) = None.
Proof.
  destruct (String.eqb_spec k x) as [->|Hne].
  - right. apply get_pop_eq.
  - left. now apply get_pop_neq.
Qed.

Lemma maybe_emit_assistant_parts (w : World) (s m : string) (info : dict json) :
  assistant_parts (state (_maybe_emit_assistant_turn w s m info))
  = assistant_parts (state w)
  \/ assistant_parts (state (_maybe_emit_assistant_turn w s m info))
     = Dict.pop (_msg_key s m) (assistant_parts (state w)).
Proof.
  destruct (marked (_turn_key s m) (state w)) eqn:Hm.
  { rewrite maybe_emit_marked by exact Hm. now left. }
  destruct (not_ready (fst (assemble_turn (state w) (ticks w) s m info))) eqn:Hr.
  { destruct (maybe_emit_not_ready w s m info Hr) as [-> | ->]; now left. }
  right. rewrite (maybe_emit_emits w s m info Hm Hr). cbn [state].
  now rewrite purge_assistant_parts.
Qed.

(** The flush only ever removes buffers. *)
Lemma flush_step_assistant_parts (s : string) (w : World) (key k : string) :
  Dict.get k (assistant_parts (state (flush_step s w key)))
  = Dict.get k (assistant_parts (state w))
  \/ Dict.get k (assistant_parts (state (flush_step s w key))) = None.
Proof.
  unfold flush_step, with_state. cbv zeta.
  repeat branch'; fields'; try (now left); try apply get_pop_cases;
    (match goal with
     | |- context [_maybe_emit_assistant_turn ?x ?a ?b ?c] =>
         destruct (maybe_emit_assistant_parts x a b c) as [-> | ->]
     end; [now left|apply get_pop_cases]).
Qed.

(** The visit of a key of the session by the flush. *)
Lemma flush_step_visit (s m : string) (w : World) :
  m <> "" ->
  nothing_to_show
    (or_empty
       (Dict.get (_msg_key s m)
          (assistant_parts (state (flush_step s w (_msg_key s m)))))).
Proof.
  intros Hm. apply nonempty_true in Hm.
  unfold flush_step, with_state.
  change (PyStr.startswith (s ++ ":") (_msg_key s m)) with (own_key s (_msg_key s m)).
  rewrite own_msg_key, msg_key_drop, Hm. cbn [negb].
  destruct (truthy (jget (_turn_key s m) (emitted (state w)))) eqn:Hmark.
  { fields'. rewrite get_pop_eq. now left. }
  destruct (Dict.nonempty _) eqn:Hparts; cbn [negb].
  2:{ left. now destruct (or_empty _). }
  match goal with
  | |- context [_maybe_emit_assistant_turn w s m ?i] =>
      destruct (maybe_emit_outcome w s m i Hmark)
        as [(turn & ok & _ & _ & _ & _ & Hp & _)|(_ & Hstate & Hr)]
  end.
  - destruct Hp as (Hp & _). rewrite Hp. now left.
  - rewrite Hstate. eapply not_ready_nothing_to_show. exact Hr.
Qed.

Lemma flush_fold_leaves (s m : string) (keys : list string) (w : World) :
  m <> "" ->
  In (_msg_key s m) keys
  \/ nothing_to_show
       (or_empty (Dict.get (_msg_key s m) (assistant_parts (state w)))) ->
  nothing_to_show
    (or_empty
       (Dict.get (_msg_key s m)
          (assistant_parts (state (fold_left (flush_step s) keys w))))).
Proof.
  intros Hm. revert w. induction keys as [|k keys IH]; intros w H;
    cbn [fold_left].
  - destruct H as [[]|H]. exact H.
  - apply IH. destruct (String.eqb_spec k (_msg_key s m)) as [->|Hne].
    + right. now apply flush_step_visit.
    + destruct H as [[E|Hin]|H]; [contradiction|now left|right].
      destruct (flush_step_assistant_parts s w k (_msg_key s m)) as [-> | ->];
        [exact H|now left].
Qed.

(** X20 (the flush leaves nothing that could be shown): after
    [_flush_pending_assistant_turns] for a session, every assistant buffer
    of the session that is still there, under the key of any message id,
    is empty or assembles to a turn with no output text, no reasoning
    block and no finished tool call: whatever could be emitted was
    emitted, or had been. *)
Theorem X20_flush_leaves_nothing_to_show
    (w : World) (session_id reason message_id : string) :
  session_id <> "" ->
  session_id <> "unknown-session" ->
  message_id <> "" ->
  let w' := _flush_pending_assistant_turns w session_id reason in
  nothing_to_show
    (or_empty
       (Dict.get (_msg_key session_id message_id) (assistant_parts (state w')))).
Proof.
  intros Hs Hu Hm w'. subst w'. unfold _flush_pending_assistant_turns.
  apply nonempty_true in Hs. rewrite Hs.
  destruct (String.eqb_spec session_id "unknown-session") as [E|_];
    [contradiction|].
  cbn [negb orb]. apply flush_fold_leaves; [exact Hm|].
  destruct (Dict.get (_msg_key session_id message_id)
              (assistant_parts (state w))) as [parts|] eqn:E.
  - left. apply get_in_keys. congruence.
  - right. now left.
Qed.

(* ================================================================ *)
(** * Late events *)

(** X21 (late events clean up after an emitted turn): an accepted event
    for a message whose turn was emitted already (a part of it, or the
    message itself with role assistant) still advances the watermark of
    its key, and a message event still replaces the message record; it
    then removes what is left of the message in assistant_parts,
    message_events and assistant_finish_seen, and does nothing else: no
    part is buffered, no history entry is added, the sink is not called. *)
Theorem X21_late_events_clean_up (w : World) (session_id message_id : string) :
  marked (_turn_key session_id message_id) (state w) = true ->
  message_id <> "" ->
  let key := _msg_key session_id message_id in
  let cleaned (w' : World) :=
    Dict.get key (assistant_parts (state w')) = None
    /\ Dict.get key (message_events (state w')) = None
    /\ Dict.get key (assistant_finish_seen (state w')) = None
    /\ (forall k, k <> key ->
          Dict.get k (assistant_parts (state w'))
          = Dict.get k (assistant_parts (state w))
          /\ Dict.get k (message_events (state w'))
             = Dict.get k (message_events (state w)))
    /\ user_parts (state w') = user_parts (state w)
    /\ pending_parts (state w') = pending_parts (state w)
    /\ emitted (state w') = emitted (state w)
    /\ sink w' = sink w in
  (forall payload,
      let part := _as_dict (jget "part" (_event_props payload)) in
      let part_id := str_or_empty (jget "id" part) in
      let event_dt := fst (_event_captured_at payload (ticks w)) in
      str_or_empty (jget "messageID" part) = message_id ->
      part_id <> "" ->
      _is_older_event (part_last_seen (state w)) (key ++ ":" ++ part_id) event_dt
        = false ->
      let w' := _handle_message_part_updated w payload session_id in
      cleaned w'
      /\ Dict.get (key ++ ":" ++ part_id) (part_last_seen (state w'))
         = Some (JStr (datetime.isoformat event_dt))
      /\ messages (state w') = messages (state w))
  /\ (forall payload,
        let info := _as_dict (jget "info" (_event_props payload)) in
        let event_dt := fst (_event_captured_at payload (ticks w)) in
        str_or_empty (jget "id" info) = message_id ->
        PyStr.lower (str_or_empty (jget "role" info)) = "assistant" ->
        _is_older_event (message_last_seen (state w)) key event_dt = false ->
        let w' := _handle_message_updated w payload session_id in
        cleaned w'
        /\ Dict.get key (message_last_seen (state w'))
           = Some (JStr (datetime.isoformat event_dt))
        /\ Dict.get key (messages (state w')) = Some (JObj info)).
Proof.
  intros Hmark Hm key cleaned. apply nonempty_true in Hm. unfold marked in Hmark.
  split.
  - intros payload part part_id event_dt Hid Hp Hfresh w'. subst w' cleaned.
    unfold _handle_message_part_updated. cbv zeta.
    fold part. fold part_id. rewrite Hid. fold key.
    apply nonempty_true in Hp. rewrite Hm, Hp. cbn [negb orb].
    subst event_dt. destruct (_event_captured_at payload (ticks w)) as [dt n1].
    cbn [fst] in Hfresh |- *. rewrite Hfresh. fields'. rewrite Hmark. fields'.
    fold key. rewrite !get_pop_eq, get_set_eq.
    repeat split; try reflexivity; now apply get_pop_neq.
  - intros payload info event_dt Hid Hrole Hfresh w'. subst w' cleaned.
    unfold _handle_message_updated. cbv zeta.
    fold info. rewrite Hid, Hrole. fold key. rewrite Hm. cbn [negb].
    subst event_dt. destruct (_event_captured_at payload (ticks w)) as [dt n1].
    cbn [fst] in Hfresh |- *. rewrite Hfresh. fields'. rewrite Hmark.
    cbn [String.eqb Ascii.eqb Bool.eqb andb]. fields'.
    fold key. rewrite !get_pop_eq, !get_set_eq.
    repeat split; try reflexivity; now apply get_pop_neq.
Qed.

(* ================================================================ *)
(** * What the sink is handed over a run *)

Lemma main_sink_shows (stdin : option json) (w : World) :
  exists added,
    sink (main stdin w) = (sink w ++ added)%list
    /\ Forall (fun c => call_shows c = true) added.
Proof.
  destruct (Dict.nonempty (_read_payload stdin)) eqn:Hp.
  2:{ exists []. unfold main. rewrite Hp. cbn [negb].
      split; [now rewrite app_nil_r|constructor]. }
  destruct (main_stages stdin w Hp) as (w1 & w3 & C1 & _ & C3 & ->).
  set (payload := _read_payload stdin) in *.
  set (e := _event_name payload) in *.
  set (s := _session_id payload) in *.
  destruct C1 as (_ & _ & (xs & A3 & A3') & _).
  destruct C3 as (_ & _ & (ys & B3 & B3') & _).
  assert (N : sink (if str_in e lifecycle_events
                    then note_lifecycle w1 payload e s else w1) = sink w1).
  { destruct (str_in e lifecycle_events); [|reflexivity].
    apply note_lifecycle_frame. }
  rewrite N, A3 in B3.
  assert (Hx : Forall (fun c => call_shows c = true) (xs ++ ys)).
  { apply Forall_app. split.
    - eapply Forall_impl; [|exact A3']. now intros c (_ & _ & Hc).
    - eapply Forall_impl; [|exact B3']. now intros c (_ & _ & Hc). }
  destruct (str_in e lifecycle_events).
  - exists ((xs ++ ys) ++ [LifecycleCall e s (_event_obj payload)])%list.
    unfold _emit_lifecycle_trace. cbn [sink]. rewrite B3, <- !app_assoc.
    split; [reflexivity|]. rewrite app_assoc. apply Forall_app.
    split; [exact Hx|]. constructor; [reflexivity|constructor].
  - exists (xs ++ ys)%list. rewrite B3, <- app_assoc. auto.
Qed.

(** X24 (no empty turn is ever sent): over any run of the hook, from any
    state, every call the sink receives is a lifecycle trace or a turn
    that has something to show: an output text, a reasoning block or a
    finished tool call. *)
Theorem X24_no_empty_turn_is_sent (inputs : list (option json)) (w : World) :
  exists added,
    sink (run inputs w) = (sink w ++ added)%list
    /\ Forall (fun c => call_shows c = true) added
    /\ (forall s m p ok, In (TurnCall s m p ok) added -> not_ready p = false).
Proof.
  assert (H : exists added,
             sink (run inputs w) = (sink w ++ added)%list
             /\ Forall (fun c => call_shows c = true) added).
  { unfold run. revert w. induction inputs as [|i inputs IH]; intros w;
      cbn [fold_left].
    - exists []. split; [now rewrite app_nil_r|constructor].
    - destruct (main_sink_shows i w) as (xs & E1 & F1).
      destruct (IH (main i w)) as (ys & E2 & F2).
      exists (xs ++ ys)%list. rewrite E2, E1, <- app_assoc.
      split; [reflexivity|]. apply Forall_app. now split. }
  destruct H as (added & E & F). exists added.
  split; [exact E|]. split; [exact F|].
  intros s m p ok Hin. rewrite Forall_forall in F.
  specialize (F _ Hin). cbn [call_shows] in F. now apply negb_true_iff in F.
Qed.

(* ================================================================ *)
(** * Buffered parts and emission *)

Lemma kept_refl (s m : string) (w : World) : kept_until_emitted s m w w.
Proof. split; auto. Qed.

Lemma kept_trans (s m : string) (a b c : World) :
  kept_until_emitted s m a b -> kept_until_emitted s m b c ->
  kept_until_emitted s m a c.
Proof.
  intros [A1 A2] [B1 B2]. split; [auto|].
  intros pid H. destruct (A2 pid H) as [H'|H']; [auto|right; auto].
Qed.

Lemma turn_key_of_msg_key (s m s' m' : string) :
  _msg_key s m = _msg_key s' m' -> _turn_key s m = _turn_key s' m'.
Proof. unfold _msg_key, _turn_key. now intros ->. Qed.

Lemma part_at_store_keeps (key pid k' pid' : string) (part : dict json)
    (parts : dict (dict json)) :
  part_at key pid parts <> None ->
  part_at key pid (store_part k' pid' part parts) <> None.
Proof.
  unfold part_at, store_part. intros H.
  destruct (String.eqb_spec key k') as [->|Hne].
  - rewrite get_set_eq. cbn [or_empty].
    destruct (String.eqb_spec pid pid') as [->|Hp].
    + now rewrite get_set_eq.
    + now rewrite get_set_neq.
  - now rewrite get_set_neq.
Qed.

Lemma get_update_keeps {V : Type} (k : string) (d e : dict V) :
  Dict.get k d <> None -> Dict.get k (Dict.update d e) <> None.
Proof.
  unfold Dict.update. generalize (Dict.keys e). intros l. revert d.
  induction l as [|k0 l IH]; intros d H; cbn [fold_left]; [exact H|].
  apply IH. destruct (Dict.get k0 e) as [v|]; [|exact H].
  now apply mem_set.
Qed.

Lemma part_at_merge_keeps (key pid k' : string) (pending : dict json)
    (parts : dict (dict json)) :
  part_at key pid parts <> None ->
  part_at key pid (merge_pending k' pending parts) <> None.
Proof.
  unfold part_at, merge_pending. intros H.
  destruct (String.eqb_spec key k') as [->|Hne].
  - rewrite get_set_eq. cbn [or_empty]. now apply get_update_keeps.
  - now rewrite get_set_neq.
Qed.

Lemma part_at_pop_or_marked (s m s' m' pid : string)
    (parts : dict (dict json)) (em : dict json) :
  truthy (jget (_turn_key s' m') em) = true ->
  part_at (_msg_key s m) pid parts <> None ->
  part_at (_msg_key s m) pid (Dict.pop (_msg_key s' m') parts) <> None
  \/ truthy (jget (_turn_key s m) em) = true.
Proof.
  intros Hm H. destruct (String.eqb_spec (_msg_key s m) (_msg_key s' m')) as [E|Hne].
  - right. now rewrite (turn_key_of_msg_key _ _ _ _ E).
  - left. unfold part_at. now rewrite get_pop_neq.
Qed.

Lemma maybe_emit_kept (s m : string) (w : World) (s' m' : string)
    (info : dict json) :
  kept_until_emitted s m w (_maybe_emit_assistant_turn w s' m' info).
Proof.
  destruct (marked (_turn_key s' m') (state w)) eqn:Hm.
  { rewrite maybe_emit_marked by exact Hm. apply kept_refl. }
  destruct (not_ready (fst (assemble_turn (state w) (ticks w) s' m' info))) eqn:Hr.
  { destruct (maybe_emit_not_ready w s' m' info Hr) as [-> | ->];
      [apply kept_refl|split; auto]. }
  rewrite (maybe_emit_emits w s' m' info Hm Hr).
  set (n := snd (assemble_turn (state w) (ticks w) s' m' info)).
  set (stamp := JStr (datetime.isoformat (datetime.utc (clock n)))).
  assert (Hset : forall t,
             truthy (jget t (emitted (state w))) = true ->
             truthy (jget t (Dict.set (_turn_key s' m') stamp
                               (emitted (state w)))) = true).
  { intros t Ht. destruct (String.eqb_spec t (_turn_key s' m')) as [->|Hne].
    - rewrite jget_set_eq. apply isoformat_truthy.
    - now rewrite jget_set_neq. }
  unfold kept_until_emitted, marked. cbn [state].
  rewrite purge_emitted, purge_assistant_parts. cbn [emitted with_emitted assistant_parts].
  split; [apply Hset|].
  intros pid H.
  destruct (String.eqb_spec (_msg_key s m) (_msg_key s' m')) as [E|Hne].
  - right. rewrite (turn_key_of_msg_key _ _ _ _ E), jget_set_eq.
    apply isoformat_truthy.
  - left. unfold part_at. now rewrite get_pop_neq.
Qed.

(** A step that leaves the markers as they are. *)
Lemma kept_quiet (s m : string) (w : World) (st' : State) (n : nat)
    (snk : list SinkCall) :
  emitted st' = emitted (state w) ->
  (forall pid,
      part_at (_msg_key s m) pid (assistant_parts (state w)) <> None ->
      part_at (_msg_key s m) pid (assistant_parts st') <> None
      \/ truthy (jget (_turn_key s m) (emitted (state w))) = true) ->
  kept_until_emitted s m w (mkWorld st' n snk).
Proof.
  intros He H. unfold kept_until_emitted, marked. cbn [state]. rewrite He.
  split; [auto|exact H].
Qed.

Ltac survives :=
  apply kept_quiet; [fields'; reflexivity|];
  let pid := fresh "pid" in
  let H := fresh "H" in
  intros pid H; fields';
  first
    [ left; exact H
    | left; apply part_at_store_keeps; exact H
    | left; apply part_at_merge_keeps; exact H
    | apply part_at_pop_or_marked; [|exact H];
      repeat match goal with
             | E : _ && _ = true |- _ => apply andb_true_iff in E; destruct E
             end;
      assumption ].

Ltac kept_branch :=
  first
    [ apply kept_refl
    | survives
    | eapply kept_trans; [|apply maybe_emit_kept]; survives ].

Lemma message_updated_kept (s m : string) (w : World) (payload : dict json)
    (s' : string) :
  kept_until_emitted s m w (_handle_message_updated w payload s').
Proof. unfold _handle_message_updated. open_handler'; kept_branch. Qed.

Lemma part_updated_kept (s m : string) (w : World) (payload : dict json)
    (s' : string) :
  kept_until_emitted s m w (_handle_message_part_updated w payload s').
Proof.
  unfold _handle_message_part_updated, bucket_part.
  open_handler'; kept_branch.
Qed.

Lemma flush_step_kept (s m : string) (s' : string) (w : World) (key : string) :
  kept_until_emitted s m w (flush_step s' w key).
Proof.
  unfold flush_step, with_state. open_handler';
    first [apply kept_refl | survives | apply maybe_emit_kept].
Qed.

Lemma flush_kept (s m : string) (w : World) (s' reason : string) :
  kept_until_emitted s m w (_flush_pending_assistant_turns w s' reason).
Proof.
  unfold _flush_pending_assistant_turns.
  destruct (_ || _); [apply kept_refl|].
  generalize (Dict.keys (assistant_parts (state w))). intros keys.
  revert w. induction keys as [|k keys IH]; intros w; simpl.
  - apply kept_refl.
  - eapply kept_trans; [apply flush_step_kept|apply IH].
Qed.

Lemma note_lifecycle_kept (s m : string) (w : World) (p : dict json)
    (e s' : string) :
  kept_until_emitted s m w (note_lifecycle w p e s').
Proof. unfold note_lifecycle. open_handler'; survives. Qed.

Lemma lifecycle_trace_kept (s m : string) (w : World) (p : dict json)
    (e s' : string) :
  kept_until_emitted s m w (_emit_lifecycle_trace w p e s').
Proof. unfold _emit_lifecycle_trace. survives. Qed.

Lemma main_kept (s m : string) (stdin : option json) (w : World) :
  kept_until_emitted s m w (main stdin w).
Proof.
  unfold main. cbv zeta.
  repeat branch';
    repeat first
      [ apply kept_refl
      | eapply kept_trans;
        [| first [ apply lifecycle_trace_kept
                 | apply flush_kept
                 | apply note_lifecycle_kept
                 | apply message_updated_kept
                 | apply part_updated_kept ] ] ].
Qed.

(** X23 (buffered parts are kept until the turn is emitted): a part
    buffered for an assistant message, under the message key and its part
    id, is still buffered there after any run of the hook (as it was, or
    as a later event for the same part id left it) unless the emitted
    marker of the message's turn is set by then: no event and no flush
    drops a part of a turn that was not emitted. *)
Theorem X23_parts_kept_until_emitted
    (inputs : list (option json)) (w : World) (session_id message_id part_id : string) :
  part_at (_msg_key session_id message_id) part_id (assistant_parts (state w))
    <> None ->
  let w' := run inputs w in
  part_at (_msg_key session_id message_id) part_id (assistant_parts (state w'))
    <> None
  \/ marked (_turn_key session_id message_id) (state w') = true.
Proof.
  intros H w'. subst w'.
  assert (K : forall w0,
             kept_until_emitted session_id message_id w0 (run inputs w0)).
  { unfold run. induction inputs as [|i inputs IH]; intros w0;
      cbn [fold_left]; [apply kept_refl|].
    eapply kept_trans; [apply main_kept|apply IH]. }
  now apply K.
Qed.

(* ================================================================ *)
(** * No emission without a completion signal *)

Lemma bucket_part_no_signal
    (st : State) (n : nat) (snk : list SinkCall) (s m pid : string)
    (msg part : dict json) (ptype role : string) :
  ptype <> "step-finish" ->
  truthy (jget "completed" (_as_dict (jget "time" msg))) = false ->
  truthy (jget (_msg_key s m) (assistant_finish_seen st)) = false ->
  sink (bucket_part st n snk s m pid msg part ptype role) = snk
  /\ emitted (state (bucket_part st n snk s m pid msg part ptype role))
     = emitted st.
Proof.
  intros Htype Hdone Hflag. apply String.eqb_neq in Htype.
  unfold bucket_part. cbv zeta. rewrite Htype.
  destruct (String.eqb role "assistant"); cbn [with_bucket]; [|auto].
  cbv beta iota. fields'. rewrite Hdone, Hflag.
  destruct (Dict.nonempty msg); cbn [orb]; auto.
Qed.

(** X25 (no premature emission): neither handler emits a turn without a
    completion signal.  A message.updated event whose record has no
    truthy completion time makes no sink call and writes no marker; a
    message.part.updated event makes none and writes none when the part is
    not a step-finish, the stored record of its message has no truthy
    completion time, and the finish flag of the message is not set. *)
Theorem X25_no_premature_emission
    (w : World) (payload : dict json) (session_id : string) :
  (let info := _as_dict (jget "info" (_event_props payload)) in
   truthy (jget "completed" (_as_dict (jget "time" info))) = false ->
   let w' := _handle_message_updated w payload session_id in
   sink w' = sink w /\ emitted (state w') = emitted (state w))
  /\ (let part := _as_dict (jget "part" (_event_props payload)) in
      let key := _msg_key session_id (str_or_empty (jget "messageID" part)) in
      let msg := _as_dict (jget key (messages (state w))) in
      str_or_empty (jget "type" part) <> "step-finish" ->
      truthy (jget "completed" (_as_dict (jget "time" msg))) = false ->
      truthy (jget key (assistant_finish_seen (state w))) = false ->
      let w' := _handle_message_part_updated w payload session_id in
      sink w' = sink w /\ emitted (state w') = emitted (state w)).
Proof.
  split.
  - intros info Hdone w'. subst w'. unfold _handle_message_updated.
    cbv zeta. fold info. rewrite Hdone.
    unfold _append_message_event, _iso_now. cbv beta iota zeta.
    repeat branch'; fields'; auto.
  - intros part key msg Htype Hdone Hflag w'. subst w'.
    unfold _handle_message_part_updated. cbv zeta.
    fold part. fold key.
    destruct (_ || _); [auto|].
    destruct (_event_captured_at payload (ticks w)) as [event_dt n1].
    destruct (_is_older_event _ _ _); [auto|].
    cbn [emitted with_part_last_seen messages].
    destruct (truthy (jget (_turn_key _ _) _)); [fields'; auto|].
    fold msg.
    repeat branch'; try (fields'; now auto);
      match goal with
      | |- context [bucket_part ?st ?n ?snk ?s ?m ?pid ?msg0 ?part0 ?pt ?r] =>
          destruct (bucket_part_no_signal st n snk s m pid msg0 part0 pt r
                      Htype Hdone Hflag) as [-> ->]
      end; fields'; auto.
Qed.

(* ================================================================ *)
(** * Sessions that went idle *)




(* ================================================================ *)
(** * The order of arrival *)

Lemma filter_permutation {A : Type} (f : A -> bool) (l l' : list A) :
  Permutation l l' -> Permutation (filter f l) (filter f l').
Proof.
  induction 1 as [|x l l' _ IH|x y l|l l' l'' _ IH1 _ IH2]; simpl.
  - constructor.
  - destruct (f x); [now constructor|exact IH].
  - destruct (f x), (f y); try reflexivity. apply perm_swap.
  - now transitivity (filter f l').
Qed.

(** Two sorted lists with the same elements are equal, when two elements
    that sort either way round are the same element. *)
Lemma sorted_unique {A : Type} (R : A -> A -> Prop) (l l' : list A) :
  (forall x, In x l -> R x x) ->
  (forall x y, In x l -> In y l -> R x y -> R y x -> x = y) ->
  StronglySorted R l -> StronglySorted R l' -> Permutation l l' -> l = l'.
Proof.
  revert l'. induction l as [|x l IH]; intros l' Hrefl Hanti Hl Hl' Hp.
  - apply Permutation_nil in Hp. now subst.
  - destruct l' as [|y l'].
    { symmetry in Hp. apply Permutation_nil in Hp. discriminate. }
    inversion Hl as [|? ? Hl1 Hx]; subst.
    inversion Hl' as [|? ? Hl1' Hy]; subst.
    assert (Hxy : x = y).
    { assert (Hyin : In y (x :: l))
        by (eapply Permutation_in; [symmetry; exact Hp|now left]).
      assert (Hxin : In x (y :: l'))
        by (eapply Permutation_in; [exact Hp|now left]).
      destruct Hyin as [E|Hyin]; [exact E|].
      destruct Hxin as [E|Hxin]; [now symmetry|].
      rewrite Forall_forall in Hx, Hy.
      apply Hanti; [now left|now right|now apply Hx|now apply Hy]. }
    subst y. f_equal. apply IH.
    + intros z Hz. apply Hrefl. now right.
    + intros a b Ha Hb. apply Hanti; now right.
    + exact Hl1.
    + exact Hl1'.
    + eapply Permutation_cons_inv. exact Hp.
Qed.

Lemma key_leb_refl (a : datetime.t * string) : SortKey.leb a a = true.
Proof.
  unfold SortKey.leb, datetime.eqb. rewrite Z.eqb_refl.
  destruct (String.leb_total (snd a) (snd a)) as [H|H]; rewrite H;
    apply orb_true_r.
Qed.

Lemma key_leb_antisym (a b : datetime.t * string) :
  SortKey.leb a b = true -> SortKey.leb b a = true -> snd a = snd b.
Proof.
  unfold SortKey.leb, datetime.ltb, datetime.eqb.
  rewrite !orb_true_iff, !andb_true_iff, !Z.ltb_lt, !Z.eqb_eq.
  intros [L1|[E1 S1]] [L2|[E2 S2]]; try lia.
  now apply String.leb_antisym.
Qed.

(** With a start time that parses, the timestamp of a part does not
    depend on the clock. *)
Lemma stamp_all_timed (parts : list json) (n : nat) :
  forallb has_start_time parts = true ->
  stamp_all parts n
  = map (fun part => (_as_dict part, fst (part_ts (_as_dict part) O))) parts.
Proof.
  revert n. induction parts as [|part rest IH]; intros n H; cbn [stamp_all map];
    [reflexivity|].
  cbn [forallb] in H. apply andb_true_iff in H. destruct H as [Hp Hrest].
  unfold has_start_time in Hp. unfold part_ts at 1 2 3.
  destruct (_parse_dt _) as [ts|]; [|discriminate].
  cbn [fst snd]. now rewrite IH.
Qed.

Section Rows.
Context {A : Type} (row : dict json * datetime.t -> A)
  (key : A -> datetime.t * string) (f : dict json -> bool).
Hypothesis key_id : forall pt, snd (key (row pt)) = str_or_empty (jget "id" (fst pt)).

(** The sorted rows of two lists of parts that hold the same parts. *)
Lemma sorted_rows_unique (parts parts' : list json) (n n' : nat) :
  Permutation parts parts' ->
  forallb has_start_time parts = true ->
  (forall p q, In p parts -> In q parts -> reported_id p = reported_id q -> p = q) ->
  SortKey.sort_by key
    (map row (filter (fun pt => f (fst pt)) (stamp_all parts n)))
  = SortKey.sort_by key
      (map row (filter (fun pt => f (fst pt)) (stamp_all parts' n'))).
Proof.
  intros Hp Ht Hid.
  assert (Ht' : forallb has_start_time parts' = true).
  { rewrite forallb_forall in *. intros x Hx. apply Ht.
    eapply Permutation_in; [symmetry; exact Hp|exact Hx]. }
  rewrite (stamp_all_timed parts n Ht), (stamp_all_timed parts' n' Ht').
  set (stamp := fun part => (_as_dict part, fst (part_ts (_as_dict part) O))).
  set (rows := map row (filter (fun pt => f (fst pt)) (map stamp parts))).
  set (rows' := map row (filter (fun pt => f (fst pt)) (map stamp parts'))).
  assert (Hrows : Permutation rows rows').
  { subst rows rows'. apply Permutation_map, filter_permutation.
    now apply Permutation_map. }
  apply (sorted_unique (fun a b => SortKey.le (key a) (key b))).
  - intros x _. apply key_leb_refl.
  - intros x y Hx Hy Hxy Hyx.
    assert (Hin : forall z, In z (SortKey.sort_by key rows) ->
                    exists p, In p parts /\ z = row (stamp p)).
    { intros z Hz.
      apply (Permutation_in _ (sort_by_perm key rows)) in Hz.
      subst rows. apply in_map_iff in Hz. destruct Hz as (pt & <- & Hpt).
      apply filter_In in Hpt. destruct Hpt as [Hpt _].
      apply in_map_iff in Hpt. destruct Hpt as (p & <- & Hp0).
      now exists p. }
    destruct (Hin x Hx) as (p & Hpin & ->).
    destruct (Hin y Hy) as (q & Hqin & ->).
    pose proof (key_leb_antisym _ _ Hxy Hyx) as E.
    rewrite !key_id in E. subst stamp. cbn [fst] in E.
    now rewrite (Hid p q Hpin Hqin E).
  - apply sort_by_ascending.
  - apply sort_by_ascending.
  - rewrite (sort_by_perm key rows), (sort_by_perm key rows'). exact Hrows.
Qed.
End Rows.

(** X27 (the order of arrival does not matter): two parts maps that hold
    the same parts, in whatever order they arrived, assemble to the same
    turn (the same output text, reasoning blocks and tool calls, in the
    same order), whatever the clock says, provided that every part has a
    start time that parses and that no two parts report the same id. *)
Theorem X27_arrival_order_is_irrelevant
    (parts_map parts_map' : dict json) (n n' : nat) :
  Permutation (Dict.values parts_map) (Dict.values parts_map') ->
  forallb has_start_time (Dict.values parts_map) = true ->
  (forall p q,
      In p (Dict.values parts_map) -> In q (Dict.values parts_map) ->
      reported_id p = reported_id q -> p = q) ->
  fst (_build_turn_details parts_map n) = fst (_build_turn_details parts_map' n').
Proof.
  intros Hp Ht Hid. unfold _build_turn_details. cbn [fst].
  destruct (fold_details (Dict.values parts_map) (mkRows [] [] [] n)) as [T1 L1].
  destruct (fold_details (Dict.values parts_map') (mkRows [] [] [] n')) as [T2 L2].
  rewrite T1, L1, T2, L2, !fold_details_reasoning.
  cbn [text_rows reasoning_rows tools rows_ticks app].
  rewrite (sorted_rows_unique text_row text_key is_text_part
             (fun pt => eq_refl) _ _ n n' Hp Ht Hid).
  rewrite (sorted_rows_unique reasoning_row reasoning_key is_reasoning_part
             (fun pt => eq_refl) _ _ n n' Hp Ht Hid).
  rewrite (sorted_rows_unique tool_row tool_key is_terminal_tool
             (fun pt => eq_refl) _ _ n n' Hp Ht Hid).
  reflexivity.
Qed.

(* ================================================================ *)
(** * Turn ids *)

Lemma round_length (s : list N) (kw : N * N) :
  List.length (SHA256.round s kw) = List.length s.
Proof.
  unfold SHA256.round.
  destruct s as [|a [|b [|c [|d [|e [|f [|g [|h [|i s]]]]]]]]]; reflexivity.
Qed.

Lemma rounds_length (kws : list (N * N)) (s : list N) :
  List.length (fold_left SHA256.round kws s) = List.length s.
Proof.
  revert s. induction kws as [|kw kws IH]; intros s; cbn [fold_left];
    [reflexivity|]. now rewrite IH, round_length.
Qed.

Lemma compress_length (h block : list N) :
  List.length (SHA256.compress h block) = List.length h.
Proof.
  unfold SHA256.compress. rewrite length_map, length_combine, rounds_length.
  apply Nat.min_id.
Qed.

Lemma digest_length (msg : list N) :
  List.length (SHA256.digest_words msg) = 8%nat.
Proof.
  unfold SHA256.digest_words.
  generalize (SHA256.blocks (List.length (SHA256.words (SHA256.pad msg)))
                (SHA256.words (SHA256.pad msg))).
  intros bs.
  assert (H : forall h, List.length (fold_left SHA256.compress bs h)
                        = List.length h).
  { induction bs as [|b bs IH]; intros h; cbn [fold_left]; [reflexivity|].
    now rewrite IH, compress_length. }
  rewrite H. reflexivity.
Qed.

Lemma hex_digit_is_hex (x : N) :
  (x < 16)%N -> In (SHA256.hex_digit x) (PyStr.bytes "0123456789abcdef").
Proof.
  intros H.
  assert (E : In x (map N.of_nat (seq 0 16))).
  { apply in_map_iff. exists (N.to_nat x). split; [lia|]. apply in_seq. lia. }
  cbn in E.
  repeat (destruct E as [<-|E]; [vm_compute; tauto|]). destruct E.
Qed.

Lemma hex_word_is_hex (x : N) :
  List.length (SHA256.hex_word x) = 8%nat
  /\ Forall (fun c => In c (PyStr.bytes "0123456789abcdef")) (SHA256.hex_word x).
Proof.
  unfold SHA256.hex_word. split; [now rewrite length_map|].
  apply Forall_map, Forall_forall. intros i _. apply hex_digit_is_hex.
  change 15%N with (N.ones 4). rewrite N.land_ones.
  apply N.mod_lt. discriminate.
Qed.

Lemma hex_words_are_hex (ws : list N) :
  List.length (flat_map SHA256.hex_word ws) = (8 * List.length ws)%nat
  /\ Forall (fun c => In c (PyStr.bytes "0123456789abcdef"))
       (flat_map SHA256.hex_word ws).
Proof.
  induction ws as [|x ws [IH1 IH2]]; cbn [flat_map List.length].
  - split; [reflexivity|constructor].
  - destruct (hex_word_is_hex x) as [H1 H2]. split.
    + rewrite length_app, H1, IH1. lia.
    + apply Forall_app. now split.
Qed.

Lemma length_of_bytes (l : list ascii) :
  String.length (PyStr.of_bytes l) = List.length l.
Proof.
  unfold PyStr.of_bytes. induction l as [|c l IH]; simpl; [reflexivity|].
  now rewrite IH.
Qed.

Lemma Forall_prefix {A : Type} (P : A -> Prop) (n : nat) (l : list A) :
  Forall P l -> Forall P (firstn n l).
Proof.
  revert l. induction n as [|n IH]; intros [|x l] H; simpl; try constructor;
    inversion H; subst; auto.
Qed.

(** X17 (the form of a turn id): the id [_turn_key] gives a turn is
    always 24 characters long, each a lower-case hexadecimal digit, and it
    depends on the session id and the message id through the message key
    only: two pairs with the same message key have the same turn id. *)
Theorem X17_turn_key_format (s m : string) :
  String.length (_turn_key s m) = 24%nat
  /\ Forall (fun c => In c (PyStr.bytes "0123456789abcdef"))
       (PyStr.bytes (_turn_key s m))
  /\ (forall s' m', _msg_key s m = _msg_key s' m' ->
        _turn_key s m = _turn_key s' m').
Proof.
  assert (H : String.length (_turn_key s m) = 24%nat
              /\ Forall (fun c => In c (PyStr.bytes "0123456789abcdef"))
                   (PyStr.bytes (_turn_key s m))).
  { unfold _turn_key, PyStr.take, SHA256.hexdigest. cbv zeta.
    rewrite !bytes_of_bytes.
    set (ws := SHA256.digest_words _).
    destruct (hex_words_are_hex ws) as [Hlen Hhex].
    assert (Hws : List.length ws = 8%nat) by apply digest_length.
    split.
    - rewrite length_of_bytes, length_firstn, Hlen, Hws. reflexivity.
    - now apply Forall_prefix. }
  destruct H as [H1 H2]. split; [exact H1|]. split; [exact H2|].
  intros s' m' E. unfold _msg_key in E. unfold _turn_key. now rewrite E.
Qed.

(* ================================================================ *)
(** * What is reported of a part *)

Lemma mem_set_cases {V : Type} (k k' : string) (v : V) (d : dict V) :
  Dict.mem k (Dict.set k' v d) -> k = k' \/ Dict.mem k d.
Proof.
  unfold Dict.mem. destruct (String.eqb_spec k k') as [->|Hne]; [now left|].
  rewrite get_set_neq by exact Hne. now right.
Qed.

(** X22 (what is reported of a part): the record [_serialize_part] makes
    of a part holds no field but id, message_id, type, time, text, tool,
    metadata and state, so that a field of the part the hook does not know
    is not forwarded; it always holds the id, the message id, the type and
    the time of the part; and its text, like the output and the error of
    its state, is the part's own passed through [_truncate]. *)
Theorem X22_serialized_part (limit : Z) (part : json) :
  let p := _as_dict part in
  let st := _as_dict (jget "state" p) in
  let out := _serialize_part limit part in
  (forall k,
      Dict.mem k out ->
      In k ["id"; "message_id"; "type"; "time"; "text"; "tool"; "metadata";
            "state"])
  /\ Dict.get "id" out = Some (jget "id" p)
  /\ Dict.get "message_id" out = Some (jget "messageID" p)
  /\ Dict.get "type" out = Some (jget "type" p)
  /\ Dict.get "time" out = Some (JObj (_as_dict (jget "time" p)))
  /\ Dict.get "text" out
     = match jget "text" p with
       | JStr _ => Some (_truncate (jget "text" p) limit)
       | _ => None
       end
  /\ Dict.get "state" out
     = if Dict.nonempty st
       then Some (JObj [("status", jget "status" st);
                        ("input", jget "input" st);
                        ("output", _truncate (jget "output" st) limit);
                        ("error", _truncate (jget "error" st) limit);
                        ("metadata", jget "metadata" st)])
       else None.
Proof.
  intros p st out. subst out. unfold _serialize_part. fold p. fold st.
  cbv zeta. unfold _safe_json.
  set (base := [("id", jget "id" p); ("message_id", jget "messageID" p);
                ("type", jget "type" p);
                ("time",
                 if Dict.nonempty (_as_dict (jget "time" p))
                 then JObj (_as_dict (jget "time" p)) else JObj [])]).
  assert (Htime : (if Dict.nonempty (_as_dict (jget "time" p))
                   then JObj (_as_dict (jget "time" p)) else JObj [])
                  = JObj (_as_dict (jget "time" p))).
  { now destruct (_as_dict (jget "time" p)). }
  set (o1 := match jget "text" p with
             | JStr _ => Dict.set "text" (_truncate (jget "text" p) limit) base
             | _ => base
             end).
  set (o2 := if truthy (jget "tool" p)
             then Dict.set "tool" (jget "tool" p) o1 else o1).
  set (o3 := match jget "metadata" p with
             | JNull => o2
             | _ => Dict.set "metadata" (jget "metadata" p) o2
             end).
  assert (Houtput :
    match jget "output" st with
    | JStr _ => _truncate (jget "output" st) limit
    | _ => jget "output" st
    end = _truncate (jget "output" st) limit)
    by now destruct (jget "output" st).
  assert (Herror :
    match jget "error" st with
    | JStr _ => _truncate (jget "error" st) limit
    | _ => jget "error" st
    end = _truncate (jget "error" st) limit)
    by now destruct (jget "error" st).
  rewrite Houtput, Herror.
  assert (M1 : forall k, Dict.mem k o1 ->
                 In k ["id"; "message_id"; "type"; "time"; "text"]).
  { intros k Hk.
    assert (Hb : Dict.mem k base -> In k ["id"; "message_id"; "type"; "time"]).
    { unfold Dict.mem, base. cbn [Dict.get In].
      repeat match goal with
             | |- context [String.eqb k ?x] =>
                 destruct (String.eqb_spec k x) as [->|_]; [intros _; auto 10|]
             end.
      intros H. now destruct H. }
    subst o1. destruct (jget "text" p);
      try (specialize (Hb Hk); cbn [In] in *; tauto).
    apply mem_set_cases in Hk. destruct Hk as [->|Hk]; [cbn; auto 10|].
    specialize (Hb Hk). cbn [In] in *. tauto. }
  assert (M2 : forall k, Dict.mem k o2 ->
                 In k ["id"; "message_id"; "type"; "time"; "text"; "tool"]).
  { intros k Hk. subst o2. destruct (truthy (jget "tool" p)).
    - apply mem_set_cases in Hk. destruct Hk as [->|Hk]; [cbn; auto 10|].
      specialize (M1 k Hk). cbn [In] in *. tauto.
    - specialize (M1 k Hk). cbn [In] in *. tauto. }
  assert (M3 : forall k, Dict.mem k o3 ->
                 In k ["id"; "message_id"; "type"; "time"; "text"; "tool";
                       "metadata"]).
  { intros k Hk. subst o3. destruct (jget "metadata" p);
      try (apply mem_set_cases in Hk; destruct Hk as [->|Hk]; [cbn; auto 10|]);
      specialize (M2 k Hk); cbn [In] in *; tauto. }
  assert (G : forall k, k <> "text" -> k <> "tool" -> k <> "metadata" ->
                Dict.get k o3 = Dict.get k base).
  { intros k H1 H2 H3. subst o3 o2 o1.
    destruct (jget "metadata" p); destruct (truthy (jget "tool" p));
      destruct (jget "text" p);
      repeat (rewrite get_set_neq by assumption); reflexivity. }
  assert (Gt : Dict.get "text" o3
               = match jget "text" p with
                 | JStr _ => Some (_truncate (jget "text" p) limit)
                 | _ => None
                 end).
  { subst o3 o2 o1.
    destruct (jget "metadata" p); destruct (truthy (jget "tool" p));
      repeat (rewrite get_set_neq by discriminate);
      destruct (jget "text" p); try reflexivity; apply get_set_eq. }
  destruct (Dict.nonempty st).
  - split.
    { intros k Hk. apply mem_set_cases in Hk.
      destruct Hk as [->|Hk]; [cbn; auto 10|].
      specialize (M3 k Hk). cbn [In] in *. tauto. }
    rewrite !(get_set_neq "state") by discriminate.
    rewrite !G by discriminate. rewrite Gt, get_set_eq.
    unfold base. cbn [Dict.get String.eqb Ascii.eqb Bool.eqb]. rewrite Htime.
    repeat split.
  - split.
    { intros k Hk. specialize (M3 k Hk). cbn [In] in *. tauto. }
    rewrite !G by discriminate. rewrite Gt.
    unfold base. cbn [Dict.get String.eqb Ascii.eqb Bool.eqb]. rewrite Htime.
    repeat split.
    destruct (Dict.get "state" o3) eqn:E; [|reflexivity].
    assert (Hin : Dict.mem "state" o3) by (unfold Dict.mem; congruence).
    specialize (M3 _ Hin). cbn [In] in M3.
    repeat (destruct M3 as [M3|M3]; [discriminate|]). destruct M3.
Qed.

(* ================================================================ *)
(** * The watermark, read back *)

(** X28 (the watermark is the time of the last accepted event): once a
    handler has accepted an event for a key, and the timestamp it wrote
    reads back as the same instant, a later event for the key is stale
    exactly when its timestamp is strictly earlier than that of the
    accepted event: a replay with the same timestamp is accepted again, an
    older event is dropped. *)
Theorem X28_watermark_decides_staleness
    (k : EventKind) (w : World) (payload : dict json) (session_id key : string) :
  watermark_key k payload session_id = Some key ->
  let event_dt := fst (_event_captured_at payload (ticks w)) in
  _is_older_event (last_seen k (state w)) key event_dt = false ->
  (exists d,
      _parse_dt (JStr (datetime.isoformat event_dt)) = Some d
      /\ datetime.instant d = datetime.instant event_dt) ->
  let w' := handle k w payload session_id in
  forall later,
    _is_older_event (last_seen k (state w')) key later
    = datetime.ltb later event_dt.
Proof.
  intros Hkey event_dt Hfresh (d & Hd & Hi) w' later.
  assert (Hseen : last_seen k (state w')
                  = Dict.set key (JStr (datetime.isoformat event_dt))
                      (last_seen k (state w))).
  { subst w'. destruct k; cbn [watermark_key handle last_seen] in *.
    - destruct (PyStr.nonempty _) eqn:Hid in Hkey; [|discriminate].
      injection Hkey as <-.
      apply (message_updated_accepts w payload session_id Hid Hfresh).
    - destruct (PyStr.nonempty _ && PyStr.nonempty _) eqn:Hid in Hkey;
        [|discriminate].
      injection Hkey as <-.
      apply (part_updated_accepts w payload session_id Hid Hfresh). }
  rewrite Hseen. unfold _is_older_event. rewrite jget_set_eq, Hd.
  unfold datetime.ltb. now rewrite Hi.
Qed.

End Coverage.

(* ================================================================== *)
(** * The properties at work *)

(** ** The models of the libraries against known values *)

Example sha256_abc :
  SHA256.hexdigest "abc"
  = "ba7816bf8f01cfea414140de5dae2223b00361a396177a9cb410ff61f20015ad".
Proof. vm_compute. reflexivity. Qed.

Example sha256_empty :
  SHA256.hexdigest ""
  = "e3b0c44298fc1c149afbf4c8996fb92427ae41e4649b934ca495991b7852b855".
Proof. vm_compute. reflexivity. Qed.

Example turn_key_s1_a1 : _turn_key "s1" "a1" = "9f288b0636845713fa023de8".
Proof. vm_compute. reflexivity. Qed.

Example isoformat_utc :
  datetime.isoformat (datetime.utc 1700000000123000)
  = "2023-11-14T22:13:20.123000+00:00".
Proof. vm_compute. reflexivity. Qed.

Example isoformat_offset :
  datetime.isoformat (datetime.mk 951825296000000 (- (19800 * 1000000)))
  = "2000-02-29T06:24:56-05:30".
Proof. vm_compute. reflexivity. Qed.

Example read_iso_back :
  option_map datetime.of_parsed (datetime.read_iso "2000-02-29T06:24:56-05:30")
  = Some (datetime.mk 951825296000000 (- (19800 * 1000000))).
Proof. vm_compute. reflexivity. Qed.

Example strip_unicode_blanks :
  PyStr.strip (String "009" (String "194" (String "160" "hi there "))) = "hi there".
Proof. vm_compute. reflexivity. Qed.

(** ** The spec's scenarios *)

(** The five events yield exactly one sink call, with input text [hi] and
    output text [hello]. *)
Example conversation_emits_once :
  exists turn,
    sink (ex_run accepting ex_conversation ex_w0) = [TurnCall "s1" "a1" turn true]
    /\ p_input_text turn = "hi"
    /\ p_output_text turn = "hello".
Proof. eexists. vm_compute. repeat split. Qed.

(** Replaying the same five events yields no further sink call. *)
Example conversation_replayed :
  sink (ex_run accepting (ex_conversation ++ ex_conversation) ex_w0)
  = sink (ex_run accepting ex_conversation ex_w0).
Proof. vm_compute. reflexivity. Qed.

(** A session.idle event flushes an assistant message that has a finished
    tool call but was never marked completed. *)
Example idle_flushes_tool_call :
  exists turn,
    sink (ex_run accepting
            [Some (JObj (ex_part 1700000000002 (ex_tool_part "a1" "t1" "completed")));
             Some (JObj (ex_event "session.idle" 1700000000003 []))]
            ex_w0)
    = [TurnCall "s1" "a1" turn true;
       LifecycleCall "session.idle" "s1"
         (_event_obj (ex_event "session.idle" 1700000000003 []))]
    /\ map t_output (p_tools turn) = ["a.txt"].
Proof. eexists. vm_compute. repeat split. Qed.

(** ** The properties at concrete inputs *)


(** C2 as stated fails: the client raises, yet the marker is recorded and
    the buffers of both messages are gone. *)
Lemma C2_counterexample :
  let info := ex_info "a1" "assistant" "u1" true in
  let w' := ex_maybe_emit failing ex_w_ready "s1" "a1" info in
  (exists turn, sink w' = [TurnCall "s1" "a1" turn false])
  /\ Dict.get (_turn_key "s1" "a1") (emitted (state ex_w_ready)) = None
  /\ Dict.get (_turn_key "s1" "a1") (emitted (state w'))
     = Some (JStr "2023-11-14T22:13:21.000002+00:00")
  /\ Dict.get "s1:a1" (assistant_parts (state ex_w_ready))
     = Some [("p2", JObj (ex_text_part "a1" "p2" "hello"))]
  /\ Dict.get "s1:a1" (assistant_parts (state w')) = None
  /\ Dict.get "s1:u1" (user_parts (state ex_w_ready))
     = Some [("p1", JObj (ex_text_part "u1" "p1" "hi"))]
  /\ Dict.get "s1:u1" (user_parts (state w')) = None.
Proof.
  vm_compute. split; [eexists; reflexivity|]. repeat split.
Qed.

Lemma C2_witness :
  let info := ex_info "a1" "assistant" "u1" true in
  let turn := fst (ex_assemble (state ex_w_ready) (ticks ex_w_ready) "s1" "a1" info) in
  let w' := ex_maybe_emit failing ex_w_ready "s1" "a1" info in
  sink w' = (sink ex_w_ready ++ [TurnCall "s1" "a1" turn false])%list
  /\ marked (_turn_key "s1" "a1") (state w') = true
  /\ @purged (ex_env failing) "s1" "a1" info (state w')
  /\ (forall info', ex_maybe_emit failing w' "s1" "a1" info' = w').
Proof.
  refine (@C2_sink_failure_swallowed (ex_env failing) ex_w_ready "s1" "a1"
            (ex_info "a1" "assistant" "u1" true) _ _ _);
    vm_compute; reflexivity.
Defined.


Lemma C4_witness :
  let w' := ex_maybe_emit accepting ex_w_running "s1" "a1" ex_flush_info in
  sink w' = sink ex_w_running
  /\ emitted (state w') = emitted (state ex_w_running)
  /\ state w' = state ex_w_running.
Proof.
  refine (@C4_empty_turn_suppression (ex_env accepting) ex_w_running "s1" "a1"
            ex_flush_info _ _ _);
    vm_compute; reflexivity.
Defined.

Lemma C5_witness :
  let info := ex_info "a1" "assistant" "u1" true in
  let turn := fst (ex_assemble (state ex_w_ready) (ticks ex_w_ready) "s1" "a1" info) in
  let w' := ex_maybe_emit accepting ex_w_ready "s1" "a1" info in
  sink w' = (sink ex_w_ready ++ [TurnCall "s1" "a1" turn true])%list
  /\ Dict.get "s1:a1" (assistant_parts (state w')) = None
  /\ Dict.get "s1:a1" (message_events (state w')) = None
  /\ Dict.get "s1:a1" (assistant_finish_seen (state w')) = None
  /\ (@user_key_of (ex_env accepting) "s1" info <> "" ->
      Dict.get (@user_key_of (ex_env accepting) "s1" info) (user_parts (state w'))
      = None
      /\ Dict.get (@user_key_of (ex_env accepting) "s1" info)
           (message_events (state w')) = None).
Proof.
  refine (@C5_post_emission_purge (ex_env accepting) ex_w_ready "s1" "a1"
            (ex_info "a1" "assistant" "u1" true) _ _ _);
    vm_compute; reflexivity.
Defined.



(** C7 as stated fails: the joined text keeps the leading blank, the
    assembled output and input texts do not. *)
Lemma C7_counterexample :
  let rows :=
    map (@text_row (ex_env accepting))
      (filter (fun pt => @is_text_part (ex_env accepting) (fst pt))
         (@stamp_all (ex_env accepting) (Dict.values ex_blank_parts) 0)) in
  joined_text rows = " hi"
  /\ fst (fst (fst (@_build_turn_details (ex_env accepting) ex_blank_parts 0)))
     = "hi"
  /\ fst (@_extract_text_from_parts (ex_env accepting) ex_blank_parts 0) = "hi".
Proof. vm_compute. repeat split. Qed.

(** C9 as stated fails behind the emitted-turn guard: the message has no
    stored role, the part is of an unknown type and its event is fresh, but
    the turn of the message was emitted already, so the part is dropped. *)
Lemma C9_counterexample :
  let part := ex_file_part "a1" "f1" in
  let w' := ex_part_updated accepting ex_w_inferred (ex_part 1700000000009 part) "s1" in
  jget "s1:a1" (messages (state ex_w_inferred)) = JNull
  /\ Dict.get "s1:a1:f1" (part_last_seen (state ex_w_inferred)) = None
  /\ marked (_turn_key "s1" "a1") (state ex_w_inferred) = true
  /\ part_at "s1:a1" "f1" (user_parts (state w')) = None
  /\ user_parts (state w') = []
  /\ pending_parts (state w') = []
  /\ assistant_parts (state w') = [].
Proof. vm_compute. repeat split. Qed.

Lemma C9_witness :
  let part := ex_file_part "m1" "f1" in
  let w' := ex_part_updated accepting ex_w0 (ex_part 1700000000002 part) "s1" in
  part_at "s1:m1" "f1" (user_parts (state w')) = Some (JObj part)
  /\ pending_parts (state w') = pending_parts (state ex_w0)
  /\ assistant_parts (state w') = assistant_parts (state ex_w0)
  /\ sink w' = sink ex_w0.
Proof.
  refine (@C9_unknown_role_default_bucket (ex_env accepting) ex_w0
            (ex_part 1700000000002 (ex_file_part "m1" "f1")) "s1"
            _ _ _ _ _ _ _); vm_compute; congruence.
Defined.

(** The further properties at concrete inputs. *)


Lemma X8_witness :
  Dict.get (_turn_key "s1" "a1")
    (emitted (state (ex_run accepting ex_conversation ex_w_emitted)))
  = Dict.get (_turn_key "s1" "a1") (emitted (state ex_w_emitted)).
Proof.
  apply (@X8_marker_never_rewritten (ex_env accepting)).
  vm_compute. reflexivity.
Defined.

Lemma X11_witness :
  let info := ex_info "a1" "assistant" "u1" true in
  let w' := ex_message_updated accepting ex_w_ready ex_completion "s1" in
  jget "s1:a1" (messages (state w')) = JObj info
  /\ ((exists turn ok,
         sink w' = (sink ex_w_ready ++ [TurnCall "s1" "a1" turn ok])%list
         /\ not_ready turn = false
         /\ p_assistant_info turn = info
         /\ marked (_turn_key "s1" "a1") (state w') = true
         /\ @purged (ex_env accepting) "s1" "a1" info (state w'))
      \/ (sink w' = sink ex_w_ready
          /\ marked (_turn_key "s1" "a1") (state w') = false
          /\ truthy (jget "s1:a1" (assistant_finish_seen (state w'))) = true
          /\ Dict.get "s1:a1" (pending_parts (state w')) = None)).
Proof.
  refine (@X11_completion_attempts_emission (ex_env accepting) ex_w_ready
            ex_completion "s1" _ _ _ _ _); vm_compute; congruence.
Defined.

Lemma X12_witness :
  let part := ex_tool_part "a1" "t1" "running" in
  let w' := ex_part_updated accepting ex_w0 (ex_part 1700000000002 part) "s1" in
  (part_at "s1:a1" "t1" (assistant_parts (state w')) = Some (JObj part)
   /\ sink w' = sink ex_w0
   /\ marked (_turn_key "s1" "a1") (state w') = false
   /\ user_parts (state w') = user_parts (state ex_w0)
   /\ pending_parts (state w') = pending_parts (state ex_w0)
   /\ ("tool" = "step-finish" ->
       truthy (jget "s1:a1" (assistant_finish_seen (state w'))) = true))
  \/ (exists turn ok,
        sink w' = (sink ex_w0 ++ [TurnCall "s1" "a1" turn ok])%list
        /\ not_ready turn = false
        /\ Dict.get "t1" (p_assistant_parts_map turn) = Some (JObj part)
        /\ marked (_turn_key "s1" "a1") (state w') = true
        /\ Dict.get "s1:a1" (assistant_parts (state w')) = None).
Proof.
  refine (@X12_assistant_part_routing (ex_env accepting) ex_w0
            (ex_part 1700000000002 (ex_tool_part "a1" "t1" "running")) "s1"
            _ _ _ _ _);
    try (vm_compute; congruence).
  right. vm_compute. split; reflexivity.
Defined.

Lemma X13_witness :
  let part := ex_text_part "u1" "p1" "hi" in
  let w' := ex_part_updated accepting ex_w_user (ex_part 1700000000002 part) "s1" in
  part_at "s1:u1" "p1" (user_parts (state w')) = Some (JObj part)
  /\ (forall pid, pid <> "p1" ->
        part_at "s1:u1" pid (user_parts (state w'))
        = part_at "s1:u1" pid (user_parts (state ex_w_user)))
  /\ assistant_parts (state w') = assistant_parts (state ex_w_user)
  /\ pending_parts (state w') = pending_parts (state ex_w_user)
  /\ assistant_finish_seen (state w') = assistant_finish_seen (state ex_w_user)
  /\ emitted (state w') = emitted (state ex_w_user)
  /\ sink w' = sink ex_w_user.
Proof.
  refine (@X13_other_roles_go_to_user (ex_env accepting) ex_w_user
            (ex_part 1700000000002 (ex_text_part "u1" "p1" "hi")) "s1"
            _ _ _ _ _ _); vm_compute; congruence.
Defined.

Lemma X14_witness :
  let info := ex_info "x1" "system" "" false in
  let w1 :=
    ex_part_updated accepting ex_w0
      (ex_part 1700000000002 (ex_text_part "x1" "p1" "hi")) "s1" in
  let w' := ex_message_updated accepting w1 (ex_message 1700000000003 info) "s1" in
  (forall pid,
      part_at "s1:x1" pid (pending_parts (state w'))
      = part_at "s1:x1" pid (pending_parts (state w1)))
  /\ (forall k, k <> "s1:x1" ->
        Dict.get k (pending_parts (state w')) = Dict.get k (pending_parts (state w1)))
  /\ user_parts (state w') = user_parts (state w1)
  /\ assistant_parts (state w') = assistant_parts (state w1)
  /\ jget "s1:x1" (messages (state w')) = JObj info
  /\ emitted (state w') = emitted (state w1)
  /\ sink w' = sink w1.
Proof.
  intros info w1.
  refine (@X14_unknown_role_keeps_pending (ex_env accepting) w1
            (ex_message 1700000000003 info) "s1" _ _ _ _);
    vm_compute; congruence.
Defined.

Lemma X20_witness :
  let w' :=
    @_flush_pending_assistant_turns (ex_env accepting) ex_w_running "s1"
      "session.idle" in
  Dict.get "s1:a1" (assistant_parts (state w'))
  = Some [("t1", JObj (ex_tool_part "a1" "t1" "running"))]
  /\ @nothing_to_show (ex_env accepting)
       (or_empty (Dict.get "s1:a1" (assistant_parts (state w')))).
Proof.
  split; [vm_compute; reflexivity|].
  refine (@X20_flush_leaves_nothing_to_show (ex_env accepting) ex_w_running
            "s1" "session.idle" "a1" _ _ _); discriminate.
Defined.

Lemma X21_witness :
  let late := ex_part 1700000000009 (ex_text_part "a1" "p9" "late") in
  let w' := ex_part_updated accepting ex_w_emitted late "s1" in
  Dict.get "s1:a1" (assistant_parts (state w')) = None
  /\ Dict.get "s1:a1:p9" (part_last_seen (state w'))
     = Some (JStr "2023-11-14T22:13:20.009000+00:00")
  /\ sink w' = sink ex_w_emitted.
Proof.
  intros late w'.
  destruct (@X21_late_events_clean_up (ex_env accepting) ex_w_emitted "s1" "a1")
    as [Hpart _]; [vm_compute; reflexivity|discriminate|].
  destruct (Hpart late) as ((Ha & _ & _ & _ & _ & _ & _ & Hs) & Hseen & _);
    [vm_compute; reflexivity|discriminate|vm_compute; reflexivity|].
  split; [exact Ha|]. split; [exact Hseen|exact Hs].
Defined.

Lemma X23_witness :
  let w' := ex_run accepting (skipn 4 ex_conversation) ex_w_ready in
  part_at "s1:a1" "p2" (assistant_parts (state w')) <> None
  \/ marked (_turn_key "s1" "a1") (state w') = true.
Proof.
  refine (@X23_parts_kept_until_emitted (ex_env accepting)
            (skipn 4 ex_conversation) ex_w_ready "s1" "a1" "p2" _).
  vm_compute. discriminate.
Defined.


Lemma X27_witness :
  fst (@_build_turn_details (ex_env accepting) ex_parts_arrived 0)
  = fst (@_build_turn_details (ex_env accepting) ex_parts_reversed 7).
Proof.
  refine (@X27_arrival_order_is_irrelevant (ex_env accepting)
            ex_parts_arrived ex_parts_reversed 0 7 _ _ _).
  - apply perm_swap.
  - vm_compute. reflexivity.
  - intros p q [<-|[<-|[]]] [<-|[<-|[]]] H; try reflexivity;
      vm_compute in H; discriminate.
Defined.

Lemma X28_witness :
  let event := ex_message 1700000000009 (ex_info "u1" "user" "" false) in
  let w' := ex_message_updated accepting ex_w_ready event "s1" in
  @_is_older_event (ex_env accepting) (message_last_seen (state w')) "s1:u1"
    (datetime.utc 1700000000008000) = true
  /\ @_is_older_event (ex_env accepting) (message_last_seen (state w')) "s1:u1"
       (datetime.utc 1700000000009000) = false.
Proof.
  assert (H : forall later,
             @_is_older_event (ex_env accepting)
               (message_last_seen
                  (state
                     (ex_message_updated accepting ex_w_ready
                        (ex_message 1700000000009 (ex_info "u1" "user" "" false))
                        "s1")))
               "s1:u1" later
             = datetime.ltb later (datetime.utc 1700000000009000)).
  { refine (@X28_watermark_decides_staleness (ex_env accepting) MessageUpdated
              ex_w_ready
              (ex_message 1700000000009 (ex_info "u1" "user" "" false))
              "s1" "s1:u1" _ _ _).
    - vm_compute. reflexivity.
    - vm_compute. reflexivity.
    - eexists. split; vm_compute; reflexivity. }
  split; rewrite H; vm_compute; reflexivity.
Defined.
